(** * oda-wd-client: the mapping layer between Workday wire data and the
      pydantic domain model, embedded in Rocq.

    The Python sources embedded here are
      - [oda_wd_client/base/types.py]
      - [oda_wd_client/service/financial_management/types.py], [utils.py]
      - [oda_wd_client/service/resource_management/types.py], [utils.py]
      - [oda_wd_client/service/human_resources/api.py]

    Python exceptions are values of [PyError]; a function that may raise
    returns a [result].  Flattened suds data ([dict]/[list] trees) are values
    of [pyval]; wire objects built through [client.factory] are records. *)

From Stdlib Require Import List String Ascii ZArith Bool Arith Lia.
From Stdlib Require Import DecimalString.
From Stdlib Require Import Sorted Permutation.
Import ListNotations.
Open Scope string_scope.

Set Implicit Arguments.
Set Warnings "-register-all".

(* ================================================================== *)
(** ** Exceptions and the error monad *)

Inductive PyError : Type :=
| AssertionError (msg : string)
| KeyError (key : string)
| IndexError
| TypeError
| AttributeError (attr : string)
| ValueError (msg : string)
| ValidationError (field : string)      (* pydantic.ValidationError, first offending field *)
| OverflowError
| NoSupplierID
| WebFault (faultcode faultstring : string).  (* suds.WebFault: e.fault.faultcode, e.fault.faultstring *)

Inductive result (A : Type) : Type :=
| Ok (a : A)
| Raise (e : PyError).

Arguments Ok {A} a.
Arguments Raise {A} e.

Definition bind {A B} (c : result A) (k : A -> result B) : result B :=
  match c with
  | Ok a => k a
  | Raise e => Raise e
  end.

Declare Scope py_scope.
Delimit Scope py_scope with py.
Notation "x <- c ;; k" := (bind c (fun x => k))
  (at level 61, c at next level, right associativity) : py_scope.
Notation "c ;;; k" := (bind c (fun _ => k))
  (at level 61, right associativity) : py_scope.
Open Scope py_scope.

(** [assert cond, msg] *)
Definition py_assert (cond : bool) (msg : string) : result unit :=
  if cond then Ok tt else Raise (AssertionError msg).

Fixpoint mapM {A B} (f : A -> result B) (l : list A) : result (list B) :=
  match l with
  | [] => Ok []
  | x :: xs => y <- f x ;; ys <- mapM f xs ;; Ok (y :: ys)
  end.

(* ================================================================== *)
(** ** Dates *)

Record Date : Type := mkDate { year : Z; month : Z; day : Z }.

Record DateTime : Type := mkDateTime { dt_date : Date; dt_seconds : Z }.

Definition is_leap (y : Z) : bool :=
  ((y mod 4 =? 0) && negb (y mod 100 =? 0) || (y mod 400 =? 0))%Z.

Definition days_in_month (y m : Z) : Z :=
  (if m =? 2 then (if is_leap y then 29 else 28)
   else if (m =? 4) || (m =? 6) || (m =? 9) || (m =? 11) then 30
   else 31)%Z.

(** [datetime.MINYEAR <= year <= datetime.MAXYEAR] and the day exists. *)
Definition valid_date (d : Date) : bool :=
  ((1 <=? year d) && (year d <=? 9999) && (1 <=? month d) && (month d <=? 12)
   && (1 <=? day d) && (day d <=? days_in_month (year d) (month d)))%Z.

(** The day after [d]; past 9999-12-31 [date] arithmetic raises OverflowError. *)
Definition next_day (d : Date) : result Date :=
  (if day d <? days_in_month (year d) (month d)
   then Ok (mkDate (year d) (month d) (day d + 1))
   else if month d <? 12 then Ok (mkDate (year d) (month d + 1) 1)
   else if year d <? 9999 then Ok (mkDate (year d + 1) 1 1)
   else Raise OverflowError)%Z.

(** [d + timedelta(days=n)] for [n >= 0]. *)
Fixpoint date_add_days (d : Date) (n : nat) : result Date :=
  match n with
  | O => Ok d
  | S k => d' <- next_day d ;; date_add_days d' k
  end.

Definition date_eqb (a b : Date) : bool :=
  ((year a =? year b) && (month a =? month b) && (day a =? day b))%Z.

(** Order of [datetime.date] values: by year, then month, then day. *)
Definition date_leb (a b : Date) : bool :=
  ((year a <? year b)
   || ((year a =? year b)
       && ((month a <? month b) || ((month a =? month b) && (day a <=? day b)))))%Z.

(** Decimal digits of a natural number below ten. *)
Definition digit (n : nat) : ascii := ascii_of_nat (48 + n).

(** The [width] low decimal digits of [n], most significant first
    (zero padded): what [%m], [%d] give with width 2 and [%Y] with width 4. *)
Fixpoint zero_padded (width : nat) (n : nat) : string :=
  match width with
  | O => EmptyString
  | S w => zero_padded w (n / 10) ++ String (digit (n mod 10)) EmptyString
  end.

(** [d.strftime('%Y%m%d')], for the years from 1000 on (what [%Y] gives for
    earlier years depends on the platform's C library). *)
Definition strftime_Ymd (d : Date) : string :=
  zero_padded 4 (Z.to_nat (year d)) ++ zero_padded 2 (Z.to_nat (month d))
  ++ zero_padded 2 (Z.to_nat (day d)).

(* ================================================================== *)
(** ** Wire ID entries and flattened wire data *)

(** One entry of a wire ID-list:
    [{"_type": ..., "value": ..., "_parent_id"?: ..., "_parent_type"?: ...}].
    [wsdl_type] is the factory type name of the entry when it was built by
    [client.factory] (entries read from a response carry none). *)
Record WireID : Type := mkWireID {
  wsdl_type : option string;
  _type : string;
  value : option string;
  _parent_id : option string;
  _parent_type : option string
}.

(** Values of flattened wire data ([suds_to_dict] output) and of keyword
    arguments: the payloads covered are made of None, bool, int, str, date,
    datetime, list and dict.  A [str] is a Rocq string, one [ascii] per
    character. *)
Inductive pyval : Type :=
| VNone
| VBool (b : bool)
| VInt (z : Z)
| VStr (s : string)
| VDate (d : Date)
| VDateTime (t : DateTime)
| VList (l : list pyval)
| VDict (d : list (string * pyval)).    (* keys in insertion order, no duplicates *)

Fixpoint assoc {A} (k : string) (d : list (string * A)) : option A :=
  match d with
  | [] => None
  | (k', v) :: d' => if String.eqb k k' then Some v else assoc k d'
  end.

(** [d[k]] *)
Definition getitem (d : pyval) (k : string) : result pyval :=
  match d with
  | VDict kv => match assoc k kv with
                | Some v => Ok v
                | None => Raise (KeyError k)
                end
  | _ => Raise TypeError
  end.

(** [d.get(k, default)] *)
Definition dict_get (d : pyval) (k : string) (default : pyval) : result pyval :=
  match d with
  | VDict kv => match assoc k kv with
                | Some v => Ok v
                | None => Ok default
                end
  | _ => Raise (AttributeError "get")
  end.

(** [s] starts with [p]. *)
Fixpoint is_prefix (p s : string) : bool :=
  match p with
  | EmptyString => true
  | String a p' =>
      match s with
      | EmptyString => false
      | String b s' => Ascii.eqb a b && is_prefix p' s'
      end
  end.

(** [sub] occurs in [s] (at some position). *)
Fixpoint occurs (sub s : string) : bool :=
  is_prefix sub s
  || match s with
     | EmptyString => false
     | String _ s' => occurs sub s'
     end.

(** [k in d], for a string [k] *)
Definition contains (d : pyval) (k : string) : result bool :=
  match d with
  | VDict kv => Ok (match assoc k kv with Some _ => true | None => false end)
  | VList l => Ok (existsb (fun v => match v with VStr s => String.eqb s k | _ => false end) l)
  | VStr s => Ok (occurs k s)
  | _ => Raise TypeError
  end.

(** [len(v)] *)
Definition py_len (v : pyval) : result nat :=
  match v with
  | VList l => Ok (List.length l)
  | VDict d => Ok (List.length d)
  | VStr s => Ok (String.length s)
  | _ => Raise TypeError
  end.

(** [v[0]] *)
Definition first (v : pyval) : result pyval :=
  match v with
  | VList (x :: _) => Ok x
  | VList [] => Raise IndexError
  | VDict _ => Raise (KeyError "0")      (* KeyError: 0 *)
  | VStr (String c _) => Ok (VStr (String c EmptyString))
  | VStr EmptyString => Raise IndexError
  | _ => Raise TypeError
  end.

Fixpoint chars (s : string) : list pyval :=
  match s with
  | EmptyString => []
  | String c s' => VStr (String c EmptyString) :: chars s'
  end.

(** The items a [for] loop (or [sorted]) draws from a value. *)
Definition py_iter (v : pyval) : result (list pyval) :=
  match v with
  | VList l => Ok l
  | VDict d => Ok (map (fun kv => VStr (fst kv)) d)
  | VStr s => Ok (chars s)
  | _ => Raise TypeError
  end.

(** Truth value of an object, as [if v:] tests it. *)
Definition truthy (v : pyval) : bool :=
  match v with
  | VNone => false
  | VBool b => b
  | VInt z => negb (z =? 0)%Z
  | VStr s => negb (String.eqb s EmptyString)
  | VDate _ | VDateTime _ => true
  | VList l => match l with [] => false | _ => true end
  | VDict d => match d with [] => false | _ => true end
  end.

(** Truth value of a [str | None]. *)
Definition truthy_str (o : option string) : bool :=
  match o with
  | Some s => negb (String.eqb s EmptyString)
  | None => false
  end.

Definition opt_str (o : option string) : pyval :=
  match o with Some s => VStr s | None => VNone end.

(** An ID entry as it reads in flattened wire data. *)
Definition id_entry (i : WireID) : pyval :=
  VDict ([("_type", VStr (_type i)); ("value", opt_str (value i))]
         ++ match _parent_id i with
            | Some p => [("_parent_id", VStr p); ("_parent_type", opt_str (_parent_type i))]
            | None => []
            end).

Definition id_entries (ids : list WireID) : pyval := VList (map id_entry ids).

(** [entry["_type"] == id_type], for the id-type a class declares (or [None]). *)
Definition type_matches (t : pyval) (id_type : option string) : bool :=
  match t, id_type with
  | VStr s, Some s' => String.eqb s s'
  | VNone, None => true
  | _, _ => false
  end.

Fixpoint scan_id_list (l : list pyval) (id_type : option string) : result pyval :=
  match l with
  | [] => Ok VNone
  | entry :: rest =>
      t <- getitem entry "_type" ;;
      if type_matches t id_type then getitem entry "value"
      else scan_id_list rest id_type
  end.

(** Modelled from the spec: [get_id_from_list] of [oda_wd_client/base/utils.py],
    which is not among the sources.  The spec (4.1) has it scan a list of
    [{type, value}] pairs for one matching the id-type and give "absent"
    when there is none; the docstring of [from_id_list] has
    [get_id_from_list(id_list, "Field_ID")] give ["ABC"] on
    [[{"_type": "Field_ID", value="ABC"}, {"_type": "WID", value="123456789"}]].
    The first matching entry decides. *)
Definition get_id_from_list (id_list : pyval) (id_type : option string) : result pyval :=
  entries <- py_iter id_list ;;
  scan_id_list entries id_type.

(* ================================================================== *)
(** ** pydantic field validation (v1 rules, as the models rely on them) *)

Definition string_of_Z (z : Z) : string := NilZero.string_of_int (Z.to_int z).

(** A field annotated [str]: strings pass, numbers are coerced with [str()]. *)
Definition validate_str (field : string) (v : pyval) : result string :=
  match v with
  | VStr s => Ok s
  | VInt z => Ok (string_of_Z z)
  | VBool b => Ok (if b then "True" else "False")
  | _ => Raise (ValidationError field)
  end.

(** A field annotated [str | None]. *)
Definition validate_opt_str (field : string) (v : pyval) : result (option string) :=
  match v with
  | VNone => Ok None
  | _ => s <- validate_str field v ;; Ok (Some s)
  end.

(** [Field(max_length=n)] *)
Definition check_max_length (field : string) (max : option nat) (s : option string)
  : result unit :=
  match max, s with
  | Some n, Some s => if (String.length s <=? n)%nat then Ok tt else Raise (ValidationError field)
  | _, _ => Ok tt
  end.

(** A field annotated [Literal[lit]]. *)
Definition validate_literal (field lit : string) (v : pyval) : result string :=
  match v with
  | VStr s => if String.eqb s lit then Ok lit else Raise (ValidationError field)
  | _ => Raise (ValidationError field)
  end.

Fixpoint require_fields (required : list string) (kw : list (string * pyval))
  : result unit :=
  match required with
  | [] => Ok tt
  | f :: rest =>
      match assoc f kw with
      | Some _ => require_fields rest kw
      | None => Raise (ValidationError f)
      end
  end.

(* ================================================================== *)
(** ** base/types.py: WorkdayReferenceBaseModel *)

(** What a subclass of [WorkdayReferenceBaseModel] declares about the fields
    of the base model. *)
Record RefClass : Type := mkRefClass {
  py_name : string;
  _class_name : option string;          (* _class_name *)
  id_type_default : option string;      (* workday_id_type: Literal[t] = t; None: plain [str], no default *)
  id_alias : option string;             (* Field(alias=...) on workday_id *)
  id_max_length : option nat;           (* Field(max_length=...) on workday_id *)
  id_required : bool;                   (* workday_id: str, not str | None *)
  parent_id_required : bool;            (* workday_parent_id: str *)
  parent_type_default : option string;  (* workday_parent_type: Literal[t] = t *)
  required_fields : list string         (* other fields that are neither Optional nor defaulted *)
}.

(** An instance, restricted to the fields of the base model. *)
Record Reference : Type := mkReference {
  ref_class : RefClass;
  workday_id : option string;
  workday_id_type : string;
  workday_parent_id : option string;
  workday_parent_type : option string
}.

(** The validation pydantic runs on the fields of the base model when
    [cls] is called with the keyword arguments [kw], in field order.  A
    field with an alias is read under its alias only (the models set no
    [allow_population_by_field_name]); other keyword arguments are ignored. *)
Definition init_base (cls : RefClass) (kw : list (string * pyval)) : result Reference :=
  let id_key := match id_alias cls with Some a => a | None => "workday_id" end in
  wid <- match assoc id_key kw with
         | None => if id_required cls then Raise (ValidationError id_key)
                   else Ok None
         | Some v => if id_required cls
                     then s <- validate_str id_key v ;; Ok (Some s)
                     else validate_opt_str id_key v
         end ;;
  check_max_length id_key (id_max_length cls) wid ;;;
  wtype <- match assoc "workday_id_type" kw, id_type_default cls with
           | None, Some t => Ok t
           | None, None => Raise (ValidationError "workday_id_type")
           | Some v, Some t => validate_literal "workday_id_type" t v
           | Some v, None => validate_str "workday_id_type" v
           end ;;
  pid <- match assoc "workday_parent_id" kw with
         | None => if parent_id_required cls
                   then Raise (ValidationError "workday_parent_id") else Ok None
         | Some v => if parent_id_required cls
                     then s <- validate_str "workday_parent_id" v ;; Ok (Some s)
                     else validate_opt_str "workday_parent_id" v
         end ;;
  ptype <- match assoc "workday_parent_type" kw, parent_type_default cls with
           | None, d => Ok d
           | Some v, Some t => s <- validate_literal "workday_parent_type" t v ;; Ok (Some s)
           | Some v, None => validate_opt_str "workday_parent_type" v
           end ;;
  Ok (mkReference cls wid wtype pid ptype).

(** [cls] called with the keyword arguments [kw].  Of the subclass's own
    fields only the presence of the required ones is checked; their values
    are not part of a [Reference]. *)
Definition init (cls : RefClass) (kw : list (string * pyval)) : result Reference :=
  self <- init_base cls kw ;;
  require_fields (required_fields cls) kw ;;;
  Ok self.

(** The reference object [wd_object] returns: [client.factory] gives an
    object of the named type whose [ID] list is empty. *)
Record RefObject : Type := mkRefObject {
  ref_wsdl_type : string;
  ID : list WireID
}.

Definition wd_object (self : Reference) (class_name : option string) : result RefObject :=
  let class_name := if truthy_str class_name then class_name
                    else _class_name (ref_class self) in
  py_assert (truthy_str class_name)
    "WD Class name must be supplied on class or call to wd_object" ;;;
  let cn := match class_name with Some c => c | None => EmptyString end in
  let id_obj :=
    if truthy_str (workday_parent_id self)
    then mkWireID (Some ("ns0:" ++ cn ++ "IDType")) (workday_id_type self)
           (workday_id self) (workday_parent_id self) (workday_parent_type self)
    else mkWireID (Some ("ns0:" ++ cn ++ "IDType")) (workday_id_type self)
           (workday_id self) None None in
  Ok (mkRefObject ("ns0:" ++ cn ++ "Type") ([] ++ [id_obj])).

Definition from_id_list (cls : RefClass) (id_list : pyval) (extra : list (string * pyval))
  : result (option Reference) :=
  workday_id <- get_id_from_list id_list (id_type_default cls) ;;
  if truthy workday_id
  then match assoc "workday_id" extra with
       | Some _ => Raise TypeError      (* multiple values for keyword argument *)
       | None => self <- init cls (("workday_id", workday_id) :: extra) ;; Ok (Some self)
       end
  else Ok None.

(* ================================================================== *)
(** ** The reference classes of the repository *)

(** A subclass that only fixes [_class_name], [workday_id: str] and the
    [workday_id_type] literal. *)
Definition plain_ref (name class_name id_type : string) : RefClass :=
  mkRefClass name (Some class_name) (Some id_type) None None true false None [].

Definition WorkdayReferenceBaseModel : RefClass :=
  mkRefClass "WorkdayReferenceBaseModel" None None None None false false None [].

Definition Currency : RefClass :=
  mkRefClass "Currency" (Some "CurrencyObject") (Some "Currency_ID")
    (Some "currency_code") (Some 3%nat) true false None [].
Definition Company : RefClass :=
  plain_ref "Company" "CompanyObject" "Company_Reference_ID".
Definition JournalSource : RefClass :=
  plain_ref "JournalSource" "Journal_SourceObject" "Journal_Source_ID".
Definition LedgerType : RefClass :=
  plain_ref "LedgerType" "Ledger_TypeObject" "Ledger_Type_ID".
Definition SpendCategory : RefClass :=
  plain_ref "SpendCategory" "Spend_CategoryObject" "Spend_Category_ID".
Definition CostCenterWorktag : RefClass :=
  plain_ref "CostCenterWorktag" "Accounting_WorktagObject" "Cost_Center_Reference_ID".
Definition ProjectWorktag : RefClass :=
  plain_ref "ProjectWorktag" "Accounting_WorktagObject" "Project_ID".
Definition LedgerAccount : RefClass :=
  mkRefClass "LedgerAccount" (Some "Ledger_AccountObject") (Some "Ledger_Account_ID")
    None None true true (Some "Account_Set_ID") [].
Definition TaxApplicability : RefClass :=
  plain_ref "TaxApplicability" "Tax_ApplicabilityObject" "Tax_Applicability_ID".
Definition TaxOption : RefClass :=
  plain_ref "TaxOption" "Tax_OptionObject" "Tax_Option_ID".
Definition TaxCode : RefClass :=
  plain_ref "TaxCode" "Tax_CodeObject" "Tax_Code_ID".
Definition Supplier : RefClass :=
  plain_ref "Supplier" "SupplierObject" "Supplier_ID".
Definition TaxRate : RefClass :=
  plain_ref "TaxRate" "Tax_RateObject" "Tax_Rate_ID".
Definition TaxRecoverability : RefClass :=
  plain_ref "TaxRecoverability" "Tax_RecoverabilityObject" "Tax_Recoverability_Object_ID".
Definition SupplierInvoice : RefClass :=
  mkRefClass "SupplierInvoice" None (Some "Supplier_invoice_Reference_ID")
    None None false false None
    ["invoice_number"; "company"; "currency"; "supplier"; "invoice_date";
     "due_date"; "total_amount"; "tax_amount"; "lines"].

(* ================================================================== *)
(** ** financial_management/types.py *)

(** [ConversionRate.RateTypeID] *)
Inductive RateTypeID : Type := current | merit | budget | average.

Definition RateTypeID_value (r : RateTypeID) : string :=
  match r with
  | current => "Current"
  | merit => "Merit"
  | budget => "Budget"
  | average => "Average"
  end.

(** [ConversionRate.RateTypeID(v)]: the member whose value is [v], or
    ValueError. *)
Definition RateTypeID_of (v : pyval) : result RateTypeID :=
  match v with
  | VStr s =>
      if String.eqb s "Current" then Ok current
      else if String.eqb s "Merit" then Ok merit
      else if String.eqb s "Budget" then Ok budget
      else if String.eqb s "Average" then Ok average
      else Raise (ValueError ("'" ++ s ++ "' is not a valid ConversionRate.RateTypeID"))
  | _ => Raise (ValueError "not a valid ConversionRate.RateTypeID")
  end.

(** [rate] and [effective_timestamp] hold the wire values pydantic accepted
    for the [float] and [datetime] fields. *)
Record ConversionRate : Type := mkConversionRate {
  cr_workday_id : option string;
  from_currency_iso : string;
  to_currency_iso : string;
  rate : pyval;
  rate_type_id : RateTypeID;
  effective_timestamp : pyval
}.

(** [Company]: a reference with a name, a currency and a country code. *)
Record CompanyModel : Type := mkCompany {
  company_ref : Reference;
  name : option string;
  currency : option Reference;
  country_code : option string
}.

Record JournalEntryLineData : Type := mkJournalEntryLineData {
  ledger_account : Reference;
  debit : option pyval;
  credit : option pyval;
  jl_cost_center : option Reference;
  jl_spend_category : option Reference
}.

Record AccountingJournalData : Type := mkAccountingJournalData {
  accounting_date : Date;
  company : CompanyModel;
  ledger_type : Reference;
  journal_source : Reference;
  journal_entry_line_data : list JournalEntryLineData
}.

(** What an f-string shows for a [str | None]. *)
Definition format_str (o : option string) : string :=
  match o with Some s => s | None => "None" end.

(** The property [accounting_journal_id]:
    [f"{self.accounting_date.strftime('%Y%m%d')}-{self.company.workday_id}"] *)
Definition accounting_journal_id (self : AccountingJournalData) : string :=
  strftime_Ymd (accounting_date self) ++ "-"
  ++ format_str (workday_id (company_ref (company self))).

(* ================================================================== *)
(** ** The pydantic validators the embedding takes as given *)

(** pydantic's validators for [float], [datetime], [date] (after the
    [parse_workday_date] pre-processing of [SupplierInvoice]) and
    [Decimal] with [max_digits]/[decimal_places]: whether a wire value is
    accepted. *)
Record Pydantic : Type := mkPydantic {
  float_ok : pyval -> bool;
  datetime_ok : pyval -> bool;
  date_ok : pyval -> bool;
  decimal_ok : nat -> nat -> pyval -> bool
}.

Definition validate_with (ok : pyval -> bool) (field : string) (v : pyval) : result pyval :=
  if ok v then Ok v else Raise (ValidationError field).

(* ================================================================== *)
(** ** Built-ins used by the mappers: iteration, [sorted], [str.replace] *)

(** The kinds of values [<] orders among themselves; comparing across
    kinds, or values of no kind, raises TypeError.  (Python also orders
    lists; sort keys that are lists are not covered.) *)
Inductive kind : Type := KNumber | KStr | KDate | KDateTime.

Definition kind_of (v : pyval) : option kind :=
  match v with
  | VInt _ | VBool _ => Some KNumber
  | VStr _ => Some KStr
  | VDate _ => Some KDate
  | VDateTime _ => Some KDateTime
  | _ => None
  end.

Definition kind_eqb (a b : kind) : bool :=
  match a, b with
  | KNumber, KNumber | KStr, KStr | KDate, KDate | KDateTime, KDateTime => true
  | _, _ => false
  end.

Definition number_of (v : pyval) : Z :=
  match v with
  | VInt z => z
  | VBool true => 1
  | _ => 0
  end.

(** [not (b < a)] for two values of one kind. *)
Definition py_leb (a b : pyval) : bool :=
  match a, b with
  | VStr s, VStr t => String.leb s t
  | VDate d, VDate e => date_leb d e
  | VDateTime d, VDateTime e =>
      if date_eqb (dt_date d) (dt_date e) then (dt_seconds d <=? dt_seconds e)%Z
      else date_leb (dt_date d) (dt_date e)
  | _, _ => (number_of a <=? number_of b)%Z
  end.

Section StableSort.
Variable A : Type.
Variable leb : A -> A -> bool.

(** [x] goes before the first element it is not greater than, so that it
    stays in front of the equal elements it preceded. *)
Fixpoint insert (x : A) (l : list A) : list A :=
  match l with
  | [] => [x]
  | y :: l' => if leb x y then x :: y :: l' else y :: insert x l'
  end.

Fixpoint stable_sort (l : list A) : list A :=
  match l with
  | [] => []
  | x :: l' => insert x (stable_sort l')
  end.
End StableSort.

Definition key_leb (a b : pyval * pyval) : bool := py_leb (fst a) (fst b).

(** All keys belong to the kind of the first one. *)
Definition one_kind (keys : list pyval) : bool :=
  match keys with
  | [] => true
  | k :: _ =>
      match kind_of k with
      | None => false
      | Some c => forallb (fun k' => match kind_of k' with
                                     | Some c' => kind_eqb c c'
                                     | None => false
                                     end) keys
      end
  end.

(** [sorted(v, key=key, reverse=reverse)].  The keys are computed first; a
    list of fewer than two items is returned without any comparison; with
    two or more items every key takes part in a comparison, which raises
    TypeError unless all keys are of one kind.  The sort is stable, and a
    reversed sort reverses, sorts and reverses again. *)
Definition py_sorted (key : pyval -> result pyval) (reverse : bool) (v : pyval)
  : result (list pyval) :=
  items <- py_iter v ;;
  keyed <- mapM (fun x => k <- key x ;; Ok (k, x)) items ;;
  if (List.length keyed <=? 1)%nat then Ok items
  else if one_kind (map fst keyed)
       then Ok (map snd (if reverse
                         then rev (stable_sort key_leb (rev keyed))
                         else stable_sort key_leb keyed))
       else Raise TypeError.

(** Scan for [s.replace(old, new)] with a non-empty [old]: [skip] characters
    of a match just replaced are still to be passed over. *)
Fixpoint replace_from (skip : nat) (old new s : string) : string :=
  match s with
  | EmptyString => EmptyString
  | String c s' =>
      match skip with
      | S k => replace_from k old new s'
      | O => if is_prefix old s
             then new ++ replace_from (String.length old - 1) old new s'
             else String c (replace_from 0 old new s')
      end
  end.

Fixpoint interleave (new s : string) : string :=
  match s with
  | EmptyString => new
  | String c s' => new ++ String c (interleave new s')
  end.

(** [s.replace(old, new)]: every non-overlapping occurrence, left to right. *)
Definition str_replace (old new s : string) : string :=
  match old with
  | EmptyString => interleave new s
  | _ => replace_from 0 old new s
  end.

(** ["&#xa;"] and ["\n"] *)
Definition newline_escape : string := "&#xa;".
Definition newline : string := String (ascii_of_nat 10) EmptyString.

(** [data[k]["ID"]] *)
Definition reference_ids (data : pyval) (k : string) : result pyval :=
  r <- getitem data k ;; getitem r "ID".

(* ================================================================== *)
(** ** resource_management/types.py *)

Record TaxRateOptionsData : Type := mkTaxRateOptionsData {
  tax_rate : Reference;
  tax_recoverability : Reference;
  tax_option : Reference
}.

Record SupplierInvoiceLine : Type := mkSupplierInvoiceLine {
  order : option Z;
  description : string;
  tax_rate_options_data : option TaxRateOptionsData;
  tax_applicability : option Reference;
  tax_code : option Reference;
  spend_category : option Reference;
  cost_center : option Reference;
  project : option Reference;
  gross_amount : pyval;
  tax_amount : option pyval;
  total_amount : option pyval;
  budget_date : option pyval
}.

Record SupplierInvoiceModel : Type := mkSupplierInvoice {
  invoice_ref : Reference;
  invoice_number : string;
  inv_company : CompanyModel;
  inv_currency : Reference;
  inv_supplier : Reference;
  invoice_date : pyval;
  due_date : pyval;
  inv_total_amount : pyval;
  inv_tax_amount : pyval;
  inv_tax_option : option Reference;
  lines : list SupplierInvoiceLine
}.

(** The wire objects of an invoice line, as [client.factory] and the
    assignments of [_get_wd_invoice_lines_from_invoice] leave them. *)
Record WireTaxRateOptions : Type := mkWireTaxRateOptions {
  Tax_Rate_1_Reference : RefObject;
  Tax_Recoverability_1_Reference : RefObject;
  Tax_Option_1_Reference : RefObject
}.

Record WireInvoiceLine : Type := mkWireInvoiceLine {
  Line_Order : option Z;
  Item_Description : string;
  Extended_Amount : pyval;
  Spend_Category_Reference : option RefObject;
  Tax_Rate_Options_Data : option WireTaxRateOptions;
  Tax_Applicability_Reference : option RefObject;
  Tax_Code_Reference : option RefObject;
  Worktags_Reference : list RefObject
}.

Section Mappers.
Variable P : Pydantic.

(* ---------------------------------------------------------------- *)
(** *** financial_management/utils.py *)

(** [ConversionRate(workday_id=..., from_currency_iso=..., ...)] *)
Definition ConversionRate_init (workday_id from_currency_iso to_currency_iso rate : pyval)
    (rate_type_id : RateTypeID) (effective_timestamp : pyval) : result ConversionRate :=
  wid <- validate_opt_str "workday_id" workday_id ;;
  from_iso <- validate_str "from_currency_iso" from_currency_iso ;;
  check_max_length "from_currency_iso" (Some 3%nat) (Some from_iso) ;;;
  to_iso <- validate_str "to_currency_iso" to_currency_iso ;;
  check_max_length "to_currency_iso" (Some 3%nat) (Some to_iso) ;;;
  r <- validate_with (float_ok P) "rate" rate ;;
  ts <- validate_with (datetime_ok P) "effective_timestamp" effective_timestamp ;;
  Ok (mkConversionRate wid from_iso to_iso r rate_type_id ts).

Definition workday_conversion_rate_to_pydantic (data : pyval) : result ConversionRate :=
  ids <- reference_ids data "Currency_Conversion_Rate_Reference" ;;
  workday_id <- get_id_from_list ids (Some "WID") ;;
  rate_data <- getitem data "Currency_Conversion_Rate_Data" ;;
  n <- py_len rate_data ;;
  py_assert (n =? 1)%nat
    "Code is written expecting that we only have one currency rate data per object, but that is not the case here" ;;;
  sub_data <- first rate_data ;;
  ids <- reference_ids sub_data "From_Currency_Reference" ;;
  from_ref <- get_id_from_list ids (Some "Currency_ID") ;;
  ids <- reference_ids sub_data "Target_Currency_Reference" ;;
  target_ref <- get_id_from_list ids (Some "Currency_ID") ;;
  ids <- reference_ids sub_data "Currency_Rate_Type_Reference" ;;
  type_id <- get_id_from_list ids (Some "Currency_Rate_Type_ID") ;;
  py_assert (truthy workday_id) "All currency conversion rates need a Workday ID" ;;;
  py_assert (truthy from_ref)
    "All currency conversion rates need a 'from currency'-reference" ;;;
  py_assert (truthy target_ref)
    "All currency conversion rates need a 'target currency'-reference" ;;;
  py_assert (truthy type_id)
    "All currency conversion rates need a 'rate type'-reference" ;;;
  rate <- getitem sub_data "Currency_Rate" ;;
  rate_type_id <- RateTypeID_of type_id ;;
  effective_timestamp <- getitem sub_data "Effective_Timestamp" ;;
  ConversionRate_init workday_id from_ref target_ref rate rate_type_id
    effective_timestamp.

(** [Company(workday_id=..., name=..., country_code=..., currency=...)] *)
Definition Company_init (workday_id name country_code : pyval)
    (currency : option Reference) : result CompanyModel :=
  ref <- init Company [("workday_id", workday_id)] ;;
  nm <- validate_opt_str "name" name ;;
  cc <- validate_opt_str "country_code" country_code ;;
  check_max_length "country_code" (Some 2%nat) cc ;;;
  Ok (mkCompany ref nm currency cc).

Definition workday_company_to_pydantic (data : pyval) : result CompanyModel :=
  company_data <- getitem data "Company_Data" ;;
  n <- py_len company_data ;;
  py_assert (n =? 1)%nat "Company_Data for each company should be singular" ;;;
  cdata <- first company_data ;;
  accounting <- getitem cdata "Accounting_Data" ;;
  ids <- reference_ids accounting "Currency_Reference" ;;
  currency_code <- get_id_from_list ids (Some "Currency_ID") ;;
  has_tax_status <- contains cdata "Tax_Status_Data" ;;
  country_code <-
    (if has_tax_status : bool
     then tax_status <- getitem cdata "Tax_Status_Data" ;;
          entry <- first tax_status ;;
          ids <- reference_ids entry "Country_Reference" ;;
          get_id_from_list ids (Some "ISO_3166-1_Alpha-2_Code")
     else Ok VNone) ;;
  organization <- getitem cdata "Organization_Data" ;;
  workday_id <- getitem organization "ID" ;;
  name <- getitem organization "Organization_Name" ;;
  currency <-
    (if truthy currency_code
     then c <- init Currency [("currency_code", currency_code)] ;; Ok (Some c)
     else Ok None) ;;
  Company_init workday_id name country_code currency.

(* ---------------------------------------------------------------- *)
(** *** resource_management/utils.py *)

(** [current["_Formatted_Address"].replace("&#xa;", "\n")] *)
Definition address_of (current : pyval) : result pyval :=
  formatted <- getitem current "_Formatted_Address" ;;
  match formatted with
  | VStr s => Ok (VStr (str_replace newline_escape newline s))
  | _ => Raise (AttributeError "replace")
  end.

(** [ret[k] = info[0][field]] when [info] is truthy *)
Definition first_of (info : pyval) (field k : string) (ret : list (string * pyval))
  : result (list (string * pyval)) :=
  if truthy info
  then entry <- first info ;; v <- getitem entry field ;; Ok (ret ++ [(k, v)])%list
  else Ok ret.

Definition _get_contact_data_from_dict (data : pyval) : result (list (string * pyval)) :=
  let ret := [] in
  address_info <- dict_get data "Address_Data" VNone ;;
  phone_info <- dict_get data "Phone_Data" VNone ;;
  email_info <- dict_get data "Email_Address_Data" VNone ;;
  url_info <- dict_get data "Web_Address_Data" VNone ;;
  ret <- (if truthy address_info
          then by_date <- py_sorted (fun addr => getitem addr "_Effective_Date")
                            true address_info ;;
               current <- first (VList by_date) ;;
               address <- address_of current ;;
               Ok (ret ++ [("address", address)])%list
          else Ok ret) ;;
  ret <- first_of phone_info "_E164_Formatted_Phone" "phone" ret ;;
  ret <- first_of email_info "Email_Address" "email" ret ;;
  ret <- first_of url_info "Web_Address" "url" ret ;;
  Ok ret.

(** The [for tag in worktags] loop: the last tag with a cost-centre id wins. *)
Fixpoint cost_center_of (tags : list pyval) (cost_center : option Reference)
  : result (option Reference) :=
  match tags with
  | [] => Ok cost_center
  | tag :: rest =>
      ids <- getitem tag "ID" ;;
      _cost_center <- from_id_list CostCenterWorktag ids [] ;;
      cost_center_of rest (match _cost_center with
                           | Some c => Some c
                           | None => cost_center
                           end)
  end.

(** The body of the [try] block. *)
Definition tax_rate_options_of (data : pyval) : result TaxRateOptionsData :=
  ids <- reference_ids data "Tax_Option_1_Reference" ;;
  tax_option <- from_id_list TaxOption ids [] ;;
  ids <- reference_ids data "Tax_Rate_1_Reference" ;;
  tax_rate <- from_id_list TaxRate ids [] ;;
  ids <- reference_ids data "Tax_Recoverability_1_Reference" ;;
  tax_recoverability <- from_id_list TaxRecoverability ids [] ;;
  match tax_option, tax_rate, tax_recoverability with
  | Some o, Some r, Some c => Ok (mkTaxRateOptionsData r c o)
  | _, _, _ => Raise (AssertionError EmptyString)
  end.

(** [SupplierInvoiceLine(order=..., description=..., ..., gross_amount=...)] *)
Definition SupplierInvoiceLine_init (order : Z) (description : pyval)
    (tax_rate_options_data : option TaxRateOptionsData)
    (tax_applicability tax_code spend_category cost_center : option Reference)
    (gross_amount : pyval) : result SupplierInvoiceLine :=
  desc <- validate_str "description" description ;;
  gross <- validate_with (decimal_ok P 18 3) "gross_amount" gross_amount ;;
  Ok (mkSupplierInvoiceLine (Some order) desc tax_rate_options_data tax_applicability
        tax_code spend_category cost_center None gross None None None).

Definition _workday_invoice_line_to_pydantic (data : pyval) (order : Z)
  : result SupplierInvoiceLine :=
  worktags <- getitem data "Worktags_Reference" ;;
  tags <- py_iter worktags ;;
  cost_center <- cost_center_of tags None ;;
  tax_rate_options_data <-
    match tax_rate_options_of data with
    | Ok t => Ok (Some t)
    | Raise (KeyError _) | Raise (AssertionError _) => Ok None
    | Raise e => Raise e
    end ;;
  description <- dict_get data "Item_Description" (VStr EmptyString) ;;
  ids <- reference_ids data "Tax_Applicability_Reference" ;;
  tax_applicability <- from_id_list TaxApplicability ids [] ;;
  ids <- reference_ids data "Tax_Code_Reference" ;;
  tax_code <- from_id_list TaxCode ids [] ;;
  ids <- reference_ids data "Spend_Category_Reference" ;;
  spend_category <- from_id_list SpendCategory ids [] ;;
  gross_amount <- getitem data "Extended_Amount" ;;
  SupplierInvoiceLine_init order description tax_rate_options_data tax_applicability
    tax_code spend_category cost_center gross_amount.

(** [for i, line in enumerate(sorted_lines): lines.append(... (line, i))],
    [i] counting from [start]. *)
Fixpoint map_lines (sorted_lines : list pyval) (i : Z) : result (list SupplierInvoiceLine) :=
  match sorted_lines with
  | [] => Ok []
  | line :: rest =>
      l <- _workday_invoice_line_to_pydantic line i ;;
      ls <- map_lines rest (i + 1)%Z ;;
      Ok (l :: ls)
  end.

(** [SupplierInvoice(workday_id=..., invoice_number=..., ..., lines=lines)] *)
Definition SupplierInvoice_init (workday_id invoice_number : pyval)
    (company : CompanyModel) (currency supplier : Reference)
    (invoice_date due_date total_amount tax_amount : pyval)
    (lines : list SupplierInvoiceLine) : result SupplierInvoiceModel :=
  ref <- init_base SupplierInvoice [("workday_id", workday_id)] ;;
  number <- validate_str "invoice_number" invoice_number ;;
  idate <- validate_with (date_ok P) "invoice_date" invoice_date ;;
  ddate <- validate_with (date_ok P) "due_date" due_date ;;
  total <- validate_with (decimal_ok P 26 6) "total_amount" total_amount ;;
  tax <- validate_with (decimal_ok P 26 6) "tax_amount" tax_amount ;;
  Ok (mkSupplierInvoice ref number company currency supplier idate ddate total tax
        None lines).

(** [assert v is not None] *)
Definition assert_not_None (v : pyval) : result unit :=
  match v with
  | VNone => Raise (AssertionError EmptyString)
  | _ => Ok tt
  end.

Definition workday_supplier_invoice_to_pydantic (data : pyval)
  : result SupplierInvoiceModel :=
  data_list <- getitem data "Supplier_Invoice_Data" ;;
  n <- py_len data_list ;;
  py_assert (n =? 1)%nat "Expecting only one invoice in this dataset" ;;;
  inv <- first data_list ;;
  wire_lines <- getitem inv "Invoice_Line_Replacement_Data" ;;
  sorted_lines <- py_sorted (fun _line => getitem _line "Line_Order") false wire_lines ;;
  lines <- map_lines sorted_lines 0 ;;
  ids <- reference_ids inv "Company_Reference" ;;
  company_ref <- get_id_from_list ids (Some "Company_Reference_ID") ;;
  ids <- reference_ids inv "Currency_Reference" ;;
  currency_ref <- get_id_from_list ids (Some "Currency_ID") ;;
  ids <- reference_ids inv "Supplier_Reference" ;;
  supplier_ref <- get_id_from_list ids (Some "Supplier_ID") ;;
  assert_not_None company_ref ;;;
  assert_not_None currency_ref ;;;
  assert_not_None supplier_ref ;;;
  ids <- reference_ids data "Supplier_Invoice_Reference" ;;
  workday_id <- get_id_from_list ids (Some "Supplier_Invoice_Reference_ID") ;;
  invoice_number <- getitem inv "Invoice_Number" ;;
  company <- Company_init company_ref VNone VNone None ;;
  currency <- init Currency [("currency_code", currency_ref)] ;;
  supplier <- init Supplier [("workday_id", supplier_ref)] ;;
  invoice_date <- getitem inv "Invoice_Date" ;;
  due_date <- getitem inv "Due_Date_Override" ;;
  total_amount <- getitem inv "Control_Amount_Total" ;;
  tax_amount <- getitem inv "Tax_Amount" ;;
  SupplierInvoice_init workday_id invoice_number company currency supplier
    invoice_date due_date total_amount tax_amount lines.

(** [ref.wd_object(client)] when [ref] is set *)
Definition wd_object_opt (ref : option Reference) : result (option RefObject) :=
  match ref with
  | Some r => o <- wd_object r None ;; Ok (Some o)
  | None => Ok None
  end.

Fixpoint _get_wd_invoice_lines_from_invoice (lines : list SupplierInvoiceLine)
  : result (list WireInvoiceLine) :=
  match lines with
  | [] => Ok []
  | line :: rest =>
      spend <- wd_object_opt (spend_category line) ;;
      wd_tax <- match tax_rate_options_data line with
                | Some tax_opts =>
                    r <- wd_object (tax_rate tax_opts) None ;;
                    c <- wd_object (tax_recoverability tax_opts) None ;;
                    o <- wd_object (tax_option tax_opts) None ;;
                    Ok (Some (mkWireTaxRateOptions r c o))
                | None => Ok None
                end ;;
      applicability <- wd_object_opt (tax_applicability line) ;;
      code <- wd_object_opt (tax_code line) ;;
      worktag <- wd_object_opt (cost_center line) ;;
      let wd_line :=
        mkWireInvoiceLine (order line) (description line) (gross_amount line)
          spend wd_tax applicability code
          (match worktag with Some w => [w] | None => [] end) in
      returned_lines <- _get_wd_invoice_lines_from_invoice rest ;;
      Ok (wd_line :: returned_lines)
  end.

End Mappers.

(* ================================================================== *)
(** ** human_resources/api.py *)

(** The call [get_workers] hands to [self._get_paginated]. *)
Record PaginatedCall : Type := mkPaginatedCall {
  pc_method : string;
  pc_result_key : string;
  pc_filters : list (string * pyval)
}.

(** [today] is what [date.today()] returns during the call. *)
Definition get_workers (today : Date) (as_of_date : option Date) : result PaginatedCall :=
  let method := "Get_Workers" in
  filters <- match as_of_date with
             | Some _ => d <- date_add_days today 15 ;;
                         Ok [("As_Of_Effective_Date", VDate d)]
             | None => Ok []
             end ;;
  Ok (mkPaginatedCall method "Worker" filters).

(** [ns0:Worker_Request_ReferencesType] *)
Record WorkerRequestReferences : Type := mkWorkerRequestReferences {
  Worker_Reference : list RefObject
}.

(** [obj.attr] on a response object *)
Definition getattr (obj : pyval) (attr : string) : result pyval :=
  match obj with
  | VDict kv => match assoc attr kv with
                | Some v => Ok v
                | None => Raise (AttributeError attr)
                end
  | _ => Raise (AttributeError attr)
  end.

Definition quote : string := String (ascii_of_nat 34) EmptyString.

Section HumanResources.
(** The transport and the helpers of other modules that
    [_get_worker_by_id] calls: [self._request(method, Request_References=refs)],
    [suds_to_dict] and [workday_worker_to_pydantic]. *)
Variable Worker : Type.
Variable _request : string -> WorkerRequestReferences -> result pyval.
Variable suds_to_dict : pyval -> result pyval.
Variable workday_worker_to_pydantic : pyval -> result Worker.

Definition _get_worker_by_id (id_ id_type : string) (return_object : bool)
  : result (Worker + pyval) :=
  let method := "Get_Workers" in
  let obj_id := mkWireID (Some "ns0:WorkerObjectIDType") id_type (Some id_) None None in
  let ref := mkRefObject "ns0:WorkerObjectType" ([] ++ [obj_id]) in
  let refs := mkWorkerRequestReferences ([] ++ [ref]) in
  response <-
    match _request method refs with
    | Raise (WebFault faultcode faultstring) =>
        if String.eqb faultcode "SOAP-ENV:Client.validationError"
        then Raise (ValueError ("Invalid ID of type " ++ quote ++ id_type ++ quote))
        else Raise (WebFault faultcode faultstring)
    | r => r
    end ;;
  response_data <- getattr response "Response_Data" ;;
  workers <- getattr response_data "Worker" ;;
  worker <- first workers ;;
  if return_object then Ok (inr worker)
  else d <- suds_to_dict worker ;;
       w <- workday_worker_to_pydantic d ;;
       Ok (inl w).

Definition get_worker_by_workday_id (id_ : string) : result (Worker + pyval) :=
  _get_worker_by_id id_ "WID" false.

Definition get_worker_by_employee_number (id_ : string) : result (Worker + pyval) :=
  _get_worker_by_id id_ "Employee_ID" false.
End HumanResources.

(* ================================================================== *)
(** ** Vocabulary of the statements *)

(** The id that [data] carries in its reference [key] under [id_type]:
    [get_id_from_list(data[key]["ID"], id_type)]. *)
Definition lookup_reference (data : pyval) (key id_type : string) : result pyval :=
  ids <- reference_ids data key ;; get_id_from_list ids (Some id_type).

(** [v] is a value of kind [c]. *)
Definition has_kind (c : kind) (v : pyval) : Prop := kind_of v = Some c.

(** A sort key paired with its item is the key of that item. *)
Definition keyed_by (key : pyval -> result pyval) (kx : pyval * pyval) : Prop :=
  key (snd kx) = Ok (fst kx).

(** Keyed items in the order [sorted] leaves them: ascending, or descending
    when reversed. *)
Definition in_key_order (reverse : bool) (a b : pyval * pyval) : Prop :=
  if reverse then py_leb (fst b) (fst a) = true else py_leb (fst a) (fst b) = true.

(** The references [_get_worker_by_id] sends for [id_] of type [id_type]. *)
Definition worker_lookup_references (id_ id_type : string) : WorkerRequestReferences :=
  mkWorkerRequestReferences
    [mkRefObject "ns0:WorkerObjectType"
       [mkWireID (Some "ns0:WorkerObjectIDType") id_type (Some id_) None None]].

(** The order a boolean comparison stands for. *)
Definition le_of {A : Type} (leb : A -> A -> bool) (x y : A) : Prop := leb x y = true.

(** A date of the calendar that lies before year 9999, or among the first
    [used] days of it. *)
Definition has_room (d : Date) (used : Z) : Prop :=
  valid_date d = true
  /\ (year d < 9999 \/ (year d = 9999 /\ month d = 1 /\ day d <= used))%Z.

(** The character [c] is one of the characters of [s]. *)
Fixpoint has_char (c : ascii) (s : string) : bool :=
  match s with
  | EmptyString => false
  | String c' s' => Ascii.eqb c c' || has_char c s'
  end.

(* ================================================================== *)
(** ** Sample values *)

(** Validators that take an [int] for a float or a Decimal, a [date] for a
    date and a [datetime] for a datetime. *)
Definition sample_validators : Pydantic :=
  mkPydantic
    (fun v => match v with VInt _ => true | _ => false end)
    (fun v => match v with VDateTime _ => true | _ => false end)
    (fun v => match v with VDate _ => true | _ => false end)
    (fun _ _ v => match v with VInt _ => true | _ => false end).

Definition supplier_S1 : Reference :=
  mkReference Supplier (Some "S-1001") "Supplier_ID" None None.

Definition currency_NOK : Reference :=
  mkReference Currency (Some "NOK") "Currency_ID" None None.

(** A supplier whose id is the empty string. *)
Definition supplier_blank : Reference :=
  mkReference Supplier (Some EmptyString) "Supplier_ID" None None.

Definition ledger_account_kw : list (string * pyval) :=
  [("workday_id", VStr "6010"); ("workday_parent_id", VStr "Standard")].

Definition ledger_account_6010 : Reference :=
  mkReference LedgerAccount (Some "6010") "Ledger_Account_ID" (Some "Standard")
    (Some "Account_Set_ID").

Definition wire_reference (ids : list WireID) : pyval :=
  VDict [("ID", id_entries ids)].

Definition wire_id (id_type v : string) : WireID := mkWireID None id_type (Some v) None None.

(** A company with two tax jurisdictions, Norway first. *)
Definition tax_status (country : string) : pyval :=
  VDict [("Country_Reference",
          wire_reference [wire_id "WID" "c0ffee"; wire_id "ISO_3166-1_Alpha-2_Code" country])].

Definition company_cdata (tax : list (string * pyval)) : pyval :=
  VDict ([("Organization_Data",
           VDict [("ID", VStr "NO01"); ("Organization_Name", VStr "Oda Norway AS")]);
          ("Accounting_Data",
           VDict [("Currency_Reference", wire_reference [wire_id "Currency_ID" "NOK"])])]
         ++ tax).

Definition company_two_jurisdictions : pyval :=
  VDict [("Company_Data",
          VList [company_cdata
                   [("Tax_Status_Data", VList [tax_status "NO"; tax_status "SE"])]])].

Definition company_no_tax_status : pyval :=
  VDict [("Company_Data", VList [company_cdata []])].

(** Conversion-rate payloads. *)
Definition rate_sub_data (rate_type : list (string * pyval)) : pyval :=
  VDict ([("From_Currency_Reference", wire_reference [wire_id "Currency_ID" "EUR"]);
          ("Target_Currency_Reference", wire_reference [wire_id "Currency_ID" "NOK"])]
         ++ rate_type
         ++ [("Currency_Rate", VInt 11);
             ("Effective_Timestamp", VDateTime (mkDateTime (mkDate 2023 3 7) 0))]).

Definition rate_type_reference (rate_type : string) : list (string * pyval) :=
  [("Currency_Rate_Type_Reference",
    wire_reference [wire_id "WID" "77aa"; wire_id "Currency_Rate_Type_ID" rate_type])].

Definition rate_payload (entries : list pyval) : pyval :=
  VDict [("Currency_Conversion_Rate_Reference", wire_reference [wire_id "WID" "9f31"]);
         ("Currency_Conversion_Rate_Data", VList entries)].

Definition rate_entry_current : pyval := rate_sub_data (rate_type_reference "Current").
Definition rate_entry_no_type_id : pyval :=
  rate_sub_data [("Currency_Rate_Type_Reference", wire_reference [])].

(** An invoice whose lines arrive with [Line_Order] 2, 0, 1. *)
Definition wire_line (line_order : Z) (text : string) : pyval :=
  VDict [("Line_Order", VInt line_order);
         ("Item_Description", VStr text);
         ("Extended_Amount", VInt 100);
         ("Worktags_Reference",
          VList [wire_reference [wire_id "Cost_Center_Reference_ID" "CC-10"]]);
         ("Tax_Applicability_Reference", wire_reference [wire_id "Tax_Applicability_ID" "NOR_25"]);
         ("Tax_Code_Reference", wire_reference [wire_id "Tax_Code_ID" "NOR_HIGH"]);
         ("Spend_Category_Reference", wire_reference [wire_id "Spend_Category_ID" "SC-4"])].

Definition invoice_wire_lines : pyval :=
  VList [wire_line 2 "third"; wire_line 0 "first"; wire_line 1 "second"].

Definition invoice_inv : pyval :=
  VDict [("Invoice_Number", VStr "INV-77");
         ("Company_Reference", wire_reference [wire_id "Company_Reference_ID" "NO01"]);
         ("Currency_Reference", wire_reference [wire_id "Currency_ID" "NOK"]);
         ("Supplier_Reference", wire_reference [wire_id "Supplier_ID" "S-1001"]);
         ("Invoice_Date", VDate (mkDate 2023 3 7));
         ("Due_Date_Override", VDate (mkDate 2023 4 6));
         ("Control_Amount_Total", VInt 300);
         ("Tax_Amount", VInt 60);
         ("Invoice_Line_Replacement_Data", invoice_wire_lines)].

Definition invoice_payload : pyval :=
  VDict [("Supplier_Invoice_Reference",
          wire_reference [wire_id "Supplier_Invoice_Reference_ID" "SI-9"]);
         ("Supplier_Invoice_Data", VList [invoice_inv])].

(** Contact data with three addresses, the latest one in the middle. *)
Definition address_entry (d : Date) (formatted : string) : pyval :=
  VDict [("_Effective_Date", VDate d); ("_Formatted_Address", VStr formatted)].

Definition contact_entries : list pyval :=
  [address_entry (mkDate 2019 5 1) "Old Road 1&#xa;0150 Oslo";
   address_entry (mkDate 2022 11 15) "New Street 2&#xa;0181 Oslo&#xa;Norway";
   address_entry (mkDate 2021 1 31) "Middle Lane 3&#xa;5003 Bergen"].

Definition contact_data : pyval :=
  VDict [("Address_Data", VList contact_entries);
         ("Email_Address_Data", VList [VDict [("Email_Address", VStr "post@example.no")]])].

(** A transport that answers every request with a fault of the given code. *)
Definition transport_raising (faultcode : string)
  : string -> WorkerRequestReferences -> result pyval :=
  fun _ _ => Raise (WebFault faultcode "Processing error").

Definition company_NO01 : CompanyModel :=
  mkCompany (mkReference Company (Some "NO01") "Company_Reference_ID" None None)
    (Some "Oda Norway AS") None (Some "NO").

Definition company_NO01_mapped : CompanyModel :=
  mkCompany (mkReference Company (Some "NO01") "Company_Reference_ID" None None)
    (Some "Oda Norway AS")
    (Some (mkReference Currency (Some "NOK") "Currency_ID" None None))
    (Some "NO").

Definition journal_of (c : CompanyModel) (lines : list JournalEntryLineData)
  : AccountingJournalData :=
  mkAccountingJournalData (mkDate 2023 3 7) c
    (mkReference LedgerType (Some "Actuals") "Ledger_Type_ID" None None)
    (mkReference JournalSource (Some "Spreadsheet_Upload") "Journal_Source_ID" None None)
    lines.

(* ================================================================== *)
(** * Further code of the mapping layer *)

(** ** financial_management/utils.py: domain to wire *)

(** [ns0:Currency_Conversion_Rate_DataType] as
    [pydantic_conversion_rate_to_workday] fills it. *)
Module WireRate.
Record t : Type := mk {
  Effective_Timestamp : pyval;
  Currency_Rate : pyval;
  Calculate_Inverse_Rate : bool;
  From_Currency_Reference : RefObject;
  Target_Currency_Reference : RefObject;
  Currency_Rate_Type_Reference : RefObject
}.
End WireRate.

Definition pydantic_conversion_rate_to_workday (rate_ : ConversionRate) : WireRate.t :=
  let from_currency_id :=
    mkWireID (Some "ns0:CurrencyObjectIDType") "Currency_ID"
      (Some (from_currency_iso rate_)) None None in
  let target_currency_id :=
    mkWireID (Some "ns0:CurrencyObjectIDType") "Currency_ID"
      (Some (to_currency_iso rate_)) None None in
  let rate_type_id_obj :=
    mkWireID (Some "ns0:Currency_Rate_TypeObjectIDType") "Currency_Rate_Type_ID"
      (Some (RateTypeID_value (rate_type_id rate_))) None None in
  let from_currency := mkRefObject "ns0:CurrencyObjectType" ([] ++ [from_currency_id]) in
  let target_currency := mkRefObject "ns0:CurrencyObjectType" ([] ++ [target_currency_id]) in
  let rate_type := mkRefObject "ns0:Currency_Rate_TypeObjectType" ([] ++ [rate_type_id_obj]) in
  WireRate.mk (effective_timestamp rate_) (rate rate_) true
    from_currency target_currency rate_type.

(** [ns0:Journal_Entry_Line_DataType] and [ns0:Accounting_Journal_DataType]. *)
Module WireJournal.
Record Line : Type := mkLine {
  Ledger_Account_Reference : RefObject;
  Worktags_Reference : list RefObject;
  Debit_Amount : option pyval;
  Credit_Amount : option pyval
}.

Record t : Type := mk {
  Accounting_Date : Date;
  Accounting_Journal_ID : string;
  Journal_Source_Reference : RefObject;
  Currency_Reference : option RefObject;
  Company_Reference : RefObject;
  Ledger_Type_Reference : RefObject;
  Journal_Entry_Line_Replacement_Data : list Line
}.
End WireJournal.

Definition _pydantic_journal_entry_line_to_workday (journal_line : JournalEntryLineData)
  : result WireJournal.Line :=
  ledger <- wd_object (ledger_account journal_line) None ;;
  worktags <- match jl_spend_category journal_line with
              | Some sc => spend_category <- wd_object sc None ;;
                           Ok ([] ++ [spend_category])%list
              | None => Ok []
              end ;;
  worktags <- match jl_cost_center journal_line with
              | Some cc => cost_center <- wd_object cc None ;;
                           Ok (worktags ++ [cost_center])%list
              | None => Ok worktags
              end ;;
  Ok (WireJournal.mkLine ledger worktags (debit journal_line) (credit journal_line)).

Fixpoint journal_lines_to_workday (lines : list JournalEntryLineData)
  : result (list WireJournal.Line) :=
  match lines with
  | [] => Ok []
  | journal_entry_line_data :: rest =>
      wd_data <- _pydantic_journal_entry_line_to_workday journal_entry_line_data ;;
      wd_rest <- journal_lines_to_workday rest ;;
      Ok (wd_data :: wd_rest)
  end.

Definition pydantic_accounting_journal_to_workday (journal : AccountingJournalData)
  : result WireJournal.t :=
  source <- wd_object (journal_source journal) None ;;
  currency_ref <- match currency (company journal) with
                  | Some c => o <- wd_object c None ;; Ok (Some o)
                  | None => Ok None
                  end ;;
  company_ref_obj <- wd_object (company_ref (company journal)) None ;;
  ledger <- wd_object (ledger_type journal) None ;;
  lines <- journal_lines_to_workday (journal_entry_line_data journal) ;;
  Ok (WireJournal.mk (accounting_date journal) (accounting_journal_id journal)
        source currency_ref company_ref_obj ledger ([] ++ lines)).

(** ** financial_management/utils.py: the rate-type mapper *)

(** [c.lower()] for a character below 256. *)
Definition lower_char (c : ascii) : ascii :=
  let n := nat_of_ascii c in
  if ((65 <=? n) && (n <=? 90)
      || (192 <=? n) && (n <=? 222) && negb (n =? 215))%nat
  then ascii_of_nat (n + 32) else c.

Fixpoint lower (s : string) : string :=
  match s with
  | EmptyString => EmptyString
  | String c s' => String (lower_char c) (lower s')
  end.

Definition string_in (s : string) (l : list string) : bool :=
  existsb (String.eqb s) l.

(** pydantic's validator of a [bool] field. *)
Definition validate_bool (field : string) (v : pyval) : result bool :=
  match v with
  | VBool b => Ok b
  | VInt z => if (z =? 1)%Z then Ok true
              else if (z =? 0)%Z then Ok false
              else Raise (ValidationError field)
  | VStr s =>
      if string_in (lower s) ["1"; "on"; "t"; "true"; "y"; "yes"] then Ok true
      else if string_in (lower s) ["0"; "off"; "f"; "false"; "n"; "no"] then Ok false
      else Raise (ValidationError field)
  | _ => Raise (ValidationError field)
  end.

Record ConversionRateType : Type := mkConversionRateType {
  crt_workday_id : string;
  text_id : option string;
  crt_description : string;
  is_default : bool
}.

(** [ConversionRateType(workday_id=..., text_id=..., description=..., is_default=...)] *)
Definition ConversionRateType_init (workday_id text_id description is_default : pyval)
  : result ConversionRateType :=
  wid <- validate_str "workday_id" workday_id ;;
  tid <- validate_opt_str "text_id" text_id ;;
  descr <- validate_str "description" description ;;
  dflt <- validate_bool "is_default" is_default ;;
  Ok (mkConversionRateType wid tid descr dflt).

Definition workday_conversion_rate_type_to_pydantic (data : pyval)
  : result ConversionRateType :=
  ids <- reference_ids data "Currency_Rate_Type_Reference" ;;
  workday_id <- get_id_from_list ids (Some "WID") ;;
  py_assert (truthy workday_id) "All currency conversion rate types need a Workday ID" ;;;
  type_data <- getitem data "Currency_Rate_Type_Data" ;;
  n <- py_len type_data ;;
  py_assert (n =? 1)%nat
    "Code is written to expect that we only have one currency rate type data per object, but that is not the case here" ;;;
  sub_data <- first type_data ;;
  text_id <- getitem sub_data "Currency_Rate_Type_ID" ;;
  description <- getitem sub_data "Currency_Rate_Type_Description" ;;
  is_default <- getitem sub_data "Currency_Rate_Type_Default" ;;
  ConversionRateType_init workday_id text_id description is_default.

(** [CostCenterWorktag]: a reference with a name. *)
Record CostCenterModel : Type := mkCostCenter {
  cost_center_ref : Reference;
  cost_center_name : option string
}.

Definition workday_cost_center_to_pydantic (data : pyval) : result CostCenterModel :=
  ids <- reference_ids data "Cost_Center_Reference" ;;
  cost_center_id <- get_id_from_list ids (Some "Cost_Center_Reference_ID") ;;
  py_assert (truthy cost_center_id) "No ID of cost center found, this is required" ;;;
  cc_data <- getitem data "Cost_Center_Data" ;;
  organization <- getitem cc_data "Organization_Data" ;;
  name <- getitem organization "Organization_Name" ;;
  ref <- init CostCenterWorktag [("workday_id", cost_center_id)] ;;
  nm <- validate_opt_str "name" name ;;
  Ok (mkCostCenter ref nm).

(** ** resource_management/utils.py: suppliers *)

Definition TAX_ID_SPEC : list (string * string) :=
  [("AUT-UID", "tax_id_au");
   ("BEL-NOTVA", "tax_id_be");
   ("CHE-EID", "tax_id_ch");
   ("DEU-USTIDNR", "tax_id_de");
   ("DNK-MOMS", "tax_id_dk");
   ("ESP-IVA", "tax_id_es");
   ("FIN-ALV", "tax_id_fi");
   ("GBR-VATREGNO", "tax_id_gb");
   ("IRE-VATNO", "tax_id_ir");
   ("NLD-BTWNR", "tax_id_nl");
   ("NOR-VAT", "tax_id_no");
   ("POL-VATNIP", "tax_id_pl");
   ("SWE-MOMSNR", "tax_id_se");
   ("USA-EIN", "tax_id_us")].

(** [d[k] = v] on a dict: the value of a key already there is replaced in
    place, a new key is appended. *)
Fixpoint dict_set {A} (k : string) (v : A) (d : list (string * A)) : list (string * A) :=
  match d with
  | [] => [(k, v)]
  | (k', v') :: d' => if String.eqb k k' then (k, v) :: d' else (k', v') :: dict_set k v d'
  end.

(** [TAX_ID_SPEC[key]]: a string that is no key, or another hashable value,
    raises KeyError; a list or a dict is unhashable. *)
Definition tax_id_field (key : pyval) : result string :=
  match key with
  | VStr s => match assoc s TAX_ID_SPEC with
              | Some field => Ok field
              | None => Raise (KeyError s)
              end
  | VList _ | VDict _ => Raise TypeError
  | _ => Raise (KeyError EmptyString)
  end.

(** The [for tax_id_type in ...] loop of [_get_tax_id_from_dict]. *)
Fixpoint tax_ids_of (entries : list pyval) (ret : list (string * pyval))
  : result (list (string * pyval)) :=
  match entries with
  | [] => Ok ret
  | tax_id_type :: rest =>
      ids <- reference_ids tax_id_type "Tax_ID_Type_Reference" ;;
      type_ref_value <- get_id_from_list ids (Some "Tax_ID_Type") ;;
      py_assert (truthy type_ref_value)
        "Tax ID type is an expected reference in this object" ;;;
      type_name <- tax_id_field type_ref_value ;;
      text <- getitem tax_id_type "Tax_ID_Text" ;;
      tax_ids_of rest (dict_set type_name text ret)
  end.

Definition _get_tax_id_from_dict (data : pyval) : result (list (string * pyval)) :=
  tax_id_data <- dict_get data "Tax_ID_Data" (VList []) ;;
  entries <- py_iter tax_id_data ;;
  tax_ids_of entries [].

Definition _get_account_data_from_dict (data : pyval) : result (list (string * pyval)) :=
  settlement_data <- dict_get data "Settlement_Account_Data" VNone ;;
  used <- (if truthy settlement_data then first settlement_data else Ok (VDict [])) ;;
  iban <- dict_get used "IBAN" VNone ;;
  bank_account <- dict_get used "Bank_Account_Number" VNone ;;
  Ok [("iban", iban); ("bank_account", bank_account)].

(** The fields [Supplier] adds to the base model, all [str | None], in the
    order of the class. *)
Definition supplier_field_names : list string :=
  ["reference_id"; "name"; "payment_terms"; "address"; "phone"; "email"; "url";
   "currency"; "bank_account"; "iban";
   "tax_id_no"; "tax_id_au"; "tax_id_be"; "tax_id_ch"; "tax_id_de"; "tax_id_dk";
   "tax_id_es"; "tax_id_fi"; "tax_id_gb"; "tax_id_ir"; "tax_id_nl"; "tax_id_pl";
   "tax_id_se"; "tax_id_us"].

Record SupplierModel : Type := mkSupplier {
  supplier_ref : Reference;
  supplier_fields : list (string * option string)
}.

(** [self.<field>] of a supplier. *)
Definition supplier_field (s : SupplierModel) (field : string) : option string :=
  match assoc field (supplier_fields s) with
  | Some v => v
  | None => None
  end.

Fixpoint validate_optional_fields (fields : list string) (kw : list (string * pyval))
  : result (list (string * option string)) :=
  match fields with
  | [] => Ok []
  | f :: rest =>
      v <- validate_opt_str f (match assoc f kw with Some v => v | None => VNone end) ;;
      vs <- validate_optional_fields rest kw ;;
      Ok ((f, v) :: vs)
  end.

(** [Supplier] called with the keyword arguments [kw]. *)
Definition Supplier_init (kw : list (string * pyval)) : result SupplierModel :=
  ref <- init Supplier kw ;;
  fields <- validate_optional_fields supplier_field_names kw ;;
  Ok (mkSupplier ref fields).

(** Keyword arguments followed by the items of a [**] dict: a keyword given
    twice is a TypeError. *)
Fixpoint kwargs_add (kw more : list (string * pyval)) : result (list (string * pyval)) :=
  match more with
  | [] => Ok kw
  | (k, v) :: rest =>
      match assoc k kw with
      | Some _ => Raise TypeError
      | None => kwargs_add (kw ++ [(k, v)])%list rest
      end
  end.

Definition workday_supplier_to_pydantic (data : pyval) : result SupplierModel :=
  sup_data <- getitem data "Supplier_Data" ;;
  sup_id <- dict_get sup_data "Supplier_ID" VNone ;;
  if negb (truthy sup_id) then Raise NoSupplierID
  else
    tax_widget <- dict_get sup_data "Tax_ID_Widget_Data" (VDict []) ;;
    tax_id_data <- _get_tax_id_from_dict tax_widget ;;
    account_widget <- dict_get sup_data "Settlement_Account_Widget_Data" (VDict []) ;;
    account_data <- _get_account_data_from_dict account_widget ;;
    business_entity <- getitem sup_data "Business_Entity_Data" ;;
    contact <- dict_get business_entity "Contact_Data" (VDict []) ;;
    contact_data <- _get_contact_data_from_dict contact ;;
    currency_ref <- dict_get sup_data "Currency_Reference" VNone ;;
    reference_id <- dict_get sup_data "Supplier_Reference_ID" VNone ;;
    name <- getitem sup_data "Supplier_Name" ;;
    terms_ref <- dict_get sup_data "Payment_Terms_Reference" (VDict []) ;;
    terms_ids <- dict_get terms_ref "ID" (VList []) ;;
    payment_terms <- get_id_from_list terms_ids (Some "Payment_Terms_ID") ;;
    currency <- (if truthy currency_ref
                 then ids <- getitem currency_ref "ID" ;;
                      get_id_from_list ids (Some "Currency_ID")
                 else Ok VNone) ;;
    kw <- kwargs_add [("workday_id", sup_id); ("reference_id", reference_id);
                      ("name", name); ("payment_terms", payment_terms);
                      ("currency", currency)] contact_data ;;
    kw <- kwargs_add kw account_data ;;
    kw <- kwargs_add kw tax_id_data ;;
    Supplier_init kw.

(** [==] on values.  Numbers compare by value ([True == 1]); a dict equals a
    dict with the same keys and equal values, in any order. *)
Fixpoint py_eq (a b : pyval) {struct a} : bool :=
  match a, b with
  | VNone, VNone => true
  | (VInt _ | VBool _), (VInt _ | VBool _) => (number_of a =? number_of b)%Z
  | VStr s, VStr t => String.eqb s t
  | VDate d, VDate e => date_eqb d e
  | VDateTime d, VDateTime e =>
      date_eqb (dt_date d) (dt_date e) && (dt_seconds d =? dt_seconds e)%Z
  | VList l, VList m =>
      (fix list_eq (l : list pyval) (m : list pyval) {struct l} : bool :=
         match l, m with
         | [], [] => true
         | x :: l', y :: m' => py_eq x y && list_eq l' m'
         | _, _ => false
         end) l m
  | VDict d, VDict e =>
      (List.length d =? List.length e)%nat
      && (fix all_in (d : list (string * pyval)) {struct d} : bool :=
            match d with
            | [] => true
            | (k, v) :: d' =>
                match assoc k e with
                | Some w => py_eq v w && all_in d'
                | None => false
                end
            end) d
  | _, _ => false
  end.

(** [SpendCategory]: a reference with a name and the inactive flag. *)
Record SpendCategoryModel : Type := mkSpendCategory {
  spend_category_ref : Reference;
  spend_category_name : option string;
  inactive : bool
}.

Definition workday_spend_category_to_pydantic (data : pyval) : result SpendCategoryModel :=
  cat_data <- getitem data "Resource_Category_Data" ;;
  ids <- reference_ids data "Resource_Category_Reference" ;;
  ref_id <- get_id_from_list ids (Some "Spend_Category_ID") ;;
  resource_id <- getitem cat_data "Resource_Category_ID" ;;
  py_assert (py_eq ref_id resource_id)
    "The Resource_Category_ID and Spend_Category_ID are expected to be equal" ;;;
  name <- getitem cat_data "Resource_Category_Name" ;;
  inactive <- getitem cat_data "Inactive" ;;
  ref <- init SpendCategory [("workday_id", ref_id)] ;;
  nm <- validate_opt_str "name" name ;;
  flag <- validate_bool "inactive" inactive ;;
  Ok (mkSpendCategory ref nm flag).

(** ** base/types.py: File *)

(** The alphabet of [base64.b64encode]. *)
Definition b64_alphabet : string :=
  "ABCDEFGHIJKLMNOPQRSTUVWXYZabcdefghijklmnopqrstuvwxyz0123456789+/".

Definition b64_pad : ascii := ascii_of_nat 61.

Definition b64_char (sextet : nat) : ascii :=
  nth sextet (list_ascii_of_string b64_alphabet) b64_pad.

(** [base64.b64encode(content).decode("utf-8")]: three bytes give four
    characters, a rest of one or two bytes is padded with [=]. *)
Fixpoint b64encode (content : list Byte.byte) : string :=
  match content with
  | [] => EmptyString
  | [x] =>
      let a := Byte.to_nat x in
      String (b64_char (a / 4))
        (String (b64_char (a mod 4 * 16)) (String b64_pad (String b64_pad EmptyString)))
  | [x; y] =>
      let a := Byte.to_nat x in
      let b := Byte.to_nat y in
      String (b64_char (a / 4))
        (String (b64_char (a mod 4 * 16 + b / 16))
           (String (b64_char (b mod 16 * 4)) (String b64_pad EmptyString)))
  | x :: y :: z :: rest =>
      let a := Byte.to_nat x in
      let b := Byte.to_nat y in
      let c := Byte.to_nat z in
      String (b64_char (a / 4))
        (String (b64_char (a mod 4 * 16 + b / 16))
           (String (b64_char (b mod 16 * 4 + c / 64))
              (String (b64_char (c mod 64)) (b64encode rest))))
  end.

Record File : Type := mkFile {
  field_type : string;
  filename : string;
  file_content : list Byte.byte;
  comment : option string;
  content_type : option string
}.

(** The document object [File.wd_object] fills. *)
Module WireDocument.
Record t : Type := mk {
  wsdl_type : string;
  File_Content : string;
  _Filename : string;
  _Content_Type : string;
  Comment : option string
}.
End WireDocument.

(** ** resource_management/utils.py: the invoice, domain to wire *)

(** [ns0:Supplier_Invoice_DataType] as [pydantic_supplier_invoice_to_workday]
    fills it. *)
Module WireInvoice.
Record t : Type := mk {
  Submit : bool;
  Locked_in_Workday : bool;
  Invoice_Number : string;
  Suppliers_Invoice_Number : string;
  Company_Reference : RefObject;
  Currency_Reference : RefObject;
  Supplier_Reference : RefObject;
  Default_Tax_Option_Reference : option RefObject;
  Invoice_Date : string;
  Due_Date_Override : string;
  Control_Amount_Total : pyval;
  Invoice_Line_Replacement_Data : list WireInvoiceLine;
  Attachment_Data : option (list WireDocument.t)
}.
End WireInvoice.

Section Outbound.
(** [mime.from_buffer] of python-magic, and [str()] of the date a validated
    date field holds. *)
Variable mime_from_buffer : list Byte.byte -> string.
Variable date_str : pyval -> string.

(** [File.wd_object] *)
Definition File_wd_object (self : File) : WireDocument.t :=
  WireDocument.mk ("ns0:" ++ field_type self)
    (b64encode (file_content self))
    (filename self)
    (match content_type self with
     | Some t => if truthy_str (Some t) then t else mime_from_buffer (file_content self)
     | None => mime_from_buffer (file_content self)
     end)
    (if truthy_str (comment self) then comment self else None).

(** [invoice] with its [attachments] field, which [SupplierInvoiceModel]
    does not carry. *)
Definition pydantic_supplier_invoice_to_workday (invoice : SupplierInvoiceModel)
    (attachments : option (list File)) : result WireInvoice.t :=
  company_obj <- wd_object (company_ref (inv_company invoice)) None ;;
  currency_obj <- wd_object (inv_currency invoice) None ;;
  supplier_obj <- wd_object (inv_supplier invoice) None ;;
  tax_option_obj <- wd_object_opt (inv_tax_option invoice) ;;
  wd_lines <- _get_wd_invoice_lines_from_invoice (lines invoice) ;;
  Ok (WireInvoice.mk true true (invoice_number invoice) (invoice_number invoice)
        company_obj currency_obj supplier_obj tax_option_obj
        (date_str (invoice_date invoice)) (date_str (due_date invoice))
        (inv_total_amount invoice) wd_lines
        (match attachments with
         | Some (a :: rest) => Some (map File_wd_object (a :: rest))
         | _ => None
         end)).
End Outbound.

(* ================================================================== *)
(** ** Vocabulary of the further statements *)

(** The class of [r] names its Workday class: [wd_object] needs no
    [class_name] argument. *)
Definition named (r : Reference) : Prop :=
  truthy_str (_class_name (ref_class r)) = true.

Definition named_opt (o : option Reference) : Prop :=
  match o with Some r => named r | None => True end.

(** The typed ids a reference object carries. *)
Definition object_ids (o : RefObject) : list (string * option string) :=
  map (fun i => (_type i, value i)) (ID o).

(** The typed id of a reference. *)
Definition reference_id_of (r : Reference) : string * option string :=
  (workday_id_type r, workday_id r).

Definition opt_list {A} (o : option A) : list A :=
  match o with Some a => [a] | None => [] end.

(** An exception that is an AssertionError. *)
Definition is_assertion (e : PyError) : Prop :=
  match e with AssertionError _ => True | _ => False end.

(** A character of the base64 alphabet to its sextet. *)
Fixpoint index_of (c : ascii) (l : list ascii) (i : nat) : option nat :=
  match l with
  | [] => None
  | c' :: l' => if Ascii.eqb c c' then Some i else index_of c l' (S i)
  end.

Definition b64_sextet (c : ascii) : option nat :=
  index_of c (list_ascii_of_string b64_alphabet) 0.

Definition byte_of (n : nat) : option Byte.byte := Byte.of_nat n.

(** Decoding of padded base64 text, four characters at a time. *)
Fixpoint b64decode (s : string) : option (list Byte.byte) :=
  match s with
  | EmptyString => Some []
  | String c1 (String c2 (String c3 (String c4 rest))) =>
      match b64_sextet c1, b64_sextet c2 with
      | Some s1, Some s2 =>
          match byte_of (s1 * 4 + s2 / 16) with
          | None => None
          | Some x =>
              if Ascii.eqb c3 b64_pad
              then if Ascii.eqb c4 b64_pad && String.eqb rest EmptyString
                   then Some [x] else None
              else
                match b64_sextet c3 with
                | None => None
                | Some s3 =>
                    match byte_of (s2 mod 16 * 16 + s3 / 4) with
                    | None => None
                    | Some y =>
                        if Ascii.eqb c4 b64_pad
                        then if String.eqb rest EmptyString then Some [x; y] else None
                        else
                          match b64_sextet c4, b64decode rest with
                          | Some s4, Some tail =>
                              match byte_of (s3 mod 4 * 64 + s4) with
                              | Some z => Some (x :: y :: z :: tail)
                              | None => None
                              end
                          | _, _ => None
                          end
                    end
                end
          end
      | _, _ => None
      end
  | _ => None
  end.

(** A tax-id entry of a type the table knows, with its text. *)
Definition tax_entry_ok (e : pyval) : Prop :=
  exists t f text,
    lookup_reference e "Tax_ID_Type_Reference" "Tax_ID_Type" = Ok (VStr t)
    /\ t <> EmptyString
    /\ assoc t TAX_ID_SPEC = Some f
    /\ getitem e "Tax_ID_Text" = Ok text.

(** The keys of a dict. *)
Definition keys {A} (d : list (string * A)) : list string := map fst d.

(** Whatever [r] raises is an exception of the set [Q]. *)
Definition raises_only {A} (Q : PyError -> Prop) (r : result A) : Prop :=
  match r with Raise e => Q e | Ok _ => True end.

(** A set of exceptions that holds what look-ups, subscripts, iteration
    and pydantic validation raise. *)
Record ordinary (Q : PyError -> Prop) : Prop := mkOrdinary {
  ord_key : forall k, Q (KeyError k);
  ord_index : Q IndexError;
  ord_type : Q TypeError;
  ord_attribute : forall a, Q (AttributeError a);
  ord_validation : forall f, Q (ValidationError f)
}.

(** Every exception but NoSupplierID. *)
Definition not_NoSupplierID (e : PyError) : Prop := e <> NoSupplierID.

(** The keyword arguments [workday_supplier_to_pydantic] writes out. *)
Definition supplier_explicit_keywords : list string :=
  ["workday_id"; "reference_id"; "name"; "payment_terms"; "currency"].

(** The reference of class [cls] that [data] carries under [key]:
    [cls.from_id_list(data[key]["ID"])]. *)
Definition reference_of (cls : RefClass) (data : pyval) (key : string)
  : result (option Reference) :=
  ids <- reference_ids data key ;; from_id_list cls ids [].

(** The reference a worktag stands for as a cost centre:
    [CostCenterWorktag.from_id_list(tag["ID"])]. *)
Definition cost_center_tag (tag : pyval) : result (option Reference) :=
  ids <- getitem tag "ID" ;; from_id_list CostCenterWorktag ids [].

(** Every exception but an AssertionError. *)
Definition not_assertion (e : PyError) : Prop := ~ is_assertion e.

(** An instance of the class [cls], when there is one. *)
Definition instance_of (cls : RefClass) (o : option Reference) : Prop :=
  match o with Some r => ref_class r = cls | None => True end.

(** The references of a line are instances of the classes of the model. *)
Definition line_typed (line : SupplierInvoiceLine) : Prop :=
  instance_of SpendCategory (spend_category line)
  /\ instance_of TaxApplicability (tax_applicability line)
  /\ instance_of TaxCode (tax_code line)
  /\ instance_of CostCenterWorktag (cost_center line)
  /\ match tax_rate_options_data line with
     | Some t => ref_class (tax_rate t) = TaxRate
                 /\ ref_class (tax_recoverability t) = TaxRecoverability
                 /\ ref_class (tax_option t) = TaxOption
     | None => True
     end.

(** What a wire line shares with the domain line it was written from. *)
Definition line_written (l : SupplierInvoiceLine) (w : WireInvoiceLine) : Prop :=
  Line_Order w = order l
  /\ Item_Description w = description l
  /\ Extended_Amount w = gross_amount l
  /\ map object_ids (opt_list (Spend_Category_Reference w))
     = map (fun r => [reference_id_of r]) (opt_list (spend_category l))
  /\ map object_ids (opt_list (Tax_Applicability_Reference w))
     = map (fun r => [reference_id_of r]) (opt_list (tax_applicability l))
  /\ map object_ids (opt_list (Tax_Code_Reference w))
     = map (fun r => [reference_id_of r]) (opt_list (tax_code l))
  /\ map object_ids (Worktags_Reference w)
     = map (fun r => [reference_id_of r]) (opt_list (cost_center l))
  /\ map (fun t => (object_ids (Tax_Rate_1_Reference t),
                    object_ids (Tax_Recoverability_1_Reference t),
                    object_ids (Tax_Option_1_Reference t)))
       (opt_list (Tax_Rate_Options_Data w))
     = map (fun t => ([reference_id_of (tax_rate t)],
                      [reference_id_of (tax_recoverability t)],
                      [reference_id_of (tax_option t)]))
         (opt_list (tax_rate_options_data l)).

(* ================================================================== *)
(** ** Sample values of the further statements *)

Definition journal_line_sample : JournalEntryLineData :=
  mkJournalEntryLineData ledger_account_6010 (Some (VInt 100)) None
    (Some (mkReference CostCenterWorktag (Some "CC-10") "Cost_Center_Reference_ID" None None))
    (Some (mkReference SpendCategory (Some "SC-4") "Spend_Category_ID" None None)).

Definition journal_sample : AccountingJournalData :=
  journal_of company_NO01_mapped
    [journal_line_sample;
     mkJournalEntryLineData ledger_account_6010 None (Some (VInt 100)) None None].

Definition tax_id_entry (tax_type text : string) : pyval :=
  VDict [("Tax_ID_Type_Reference", wire_reference [wire_id "Tax_ID_Type" tax_type]);
         ("Tax_ID_Text", VStr text)].

Definition tax_widget_sample : pyval :=
  VDict [("Tax_ID_Data",
          VList [tax_id_entry "NOR-VAT" "NO 911 111 111";
                 tax_id_entry "SWE-MOMSNR" "SE556677889901";
                 tax_id_entry "NOR-VAT" "NO 922 222 222 MVA"])].

Definition account_widget_sample : pyval :=
  VDict [("Settlement_Account_Data",
          VList [VDict [("IBAN", VStr "NO9386011117947")];
                 VDict [("IBAN", VStr "SE4550000000058398257466");
                        ("Bank_Account_Number", VStr "58398257466")]])].

(** A tax-id entry whose reference carries a Workday id only. *)
Definition tax_id_entry_untyped : pyval :=
  VDict [("Tax_ID_Type_Reference", wire_reference [wire_id "WID" "9f3c"]);
         ("Tax_ID_Text", VStr "0000")].

Definition tax_widget_untyped : pyval :=
  VDict [("Tax_ID_Data",
          VList [tax_id_entry "NOR-VAT" "NO 911 111 111";
                 tax_id_entry_untyped;
                 tax_id_entry "ISL-VSK" "12345"])].

Definition tax_widget_unknown : pyval :=
  VDict [("Tax_ID_Data",
          VList [tax_id_entry "NOR-VAT" "NO 911 111 111";
                 tax_id_entry "ISL-VSK" "12345";
                 tax_id_entry "SWE-MOMSNR" "SE55"])].

Definition supplier_payload : pyval :=
  VDict [("Supplier_Data",
          VDict [("Supplier_ID", VStr "S-1001");
                 ("Supplier_Name", VStr "Acme Frukt AS");
                 ("Tax_ID_Widget_Data", tax_widget_sample);
                 ("Settlement_Account_Widget_Data", account_widget_sample);
                 ("Business_Entity_Data", VDict [("Contact_Data", contact_data)]);
                 ("Currency_Reference", wire_reference [wire_id "Currency_ID" "NOK"])])].

(** The supplier the mapper returns on [supplier_payload]. *)
Definition supplier_sample : SupplierModel :=
  Eval vm_compute in
    match workday_supplier_to_pydantic supplier_payload with
    | Ok s => s
    | Raise _ => mkSupplier supplier_S1 []
    end.

(** An invoice line with two cost-centre tags and a project tag behind
    them, and with the three references of the tax rate options. *)
Definition wire_line_tagged : pyval :=
  VDict [("Line_Order", VInt 4);
         ("Item_Description", VStr "apples");
         ("Extended_Amount", VInt 250);
         ("Worktags_Reference",
          VList [wire_reference [wire_id "Cost_Center_Reference_ID" "CC-10"];
                 wire_reference [wire_id "WID" "77aa"; wire_id "Cost_Center_Reference_ID" "CC-20"];
                 wire_reference [wire_id "Project_ID" "P-7"]]);
         ("Tax_Option_1_Reference", wire_reference [wire_id "Tax_Option_ID" "CALC_TAX_DUE"]);
         ("Tax_Rate_1_Reference", wire_reference [wire_id "Tax_Rate_ID" "NOR_15"]);
         ("Tax_Recoverability_1_Reference",
          wire_reference [wire_id "Tax_Recoverability_Object_ID" "FULL"]);
         ("Tax_Applicability_Reference", wire_reference [wire_id "Tax_Applicability_ID" "NOR_15"]);
         ("Tax_Code_Reference", wire_reference [wire_id "Tax_Code_ID" "NOR_MEDIUM"]);
         ("Spend_Category_Reference", wire_reference [wire_id "Spend_Category_ID" "SC-4"])].

Definition line_placeholder : SupplierInvoiceLine :=
  mkSupplierInvoiceLine None EmptyString None None None None None None VNone None None None.

(** The line the mapper returns on [wire_line_tagged], numbered 0. *)
Definition line_tagged : SupplierInvoiceLine :=
  Eval vm_compute in
    match _workday_invoice_line_to_pydantic sample_validators wire_line_tagged 0 with
    | Ok l => l
    | Raise _ => line_placeholder
    end.

(** The line of [wire_line], which has no tax rate options. *)
Definition line_plain : SupplierInvoiceLine :=
  Eval vm_compute in
    match _workday_invoice_line_to_pydantic sample_validators (wire_line 2 "third") 0 with
    | Ok l => l
    | Raise _ => line_placeholder
    end.

(** Domain lines as the model types them, with the orders 2, 0, 1. *)
Definition line_with_order (line_order : Z) (text : string) : SupplierInvoiceLine :=
  mkSupplierInvoiceLine (Some line_order) text None None None
    (Some (mkReference SpendCategory (Some "SC-4") "Spend_Category_ID" None None))
    (Some (mkReference CostCenterWorktag (Some "CC-10") "Cost_Center_Reference_ID" None None))
    None (VInt 100) None None None.

Definition domain_lines_201 : list SupplierInvoiceLine :=
  [line_with_order 2 "third"; line_with_order 0 "first"; line_with_order 1 "second"].

Definition tax_options_sample : TaxRateOptionsData :=
  mkTaxRateOptionsData
    (mkReference TaxRate (Some "NOR_15") "Tax_Rate_ID" None None)
    (mkReference TaxRecoverability (Some "FULL") "Tax_Recoverability_Object_ID" None None)
    (mkReference TaxOption (Some "CALC_TAX_DUE") "Tax_Option_ID" None None).

(** The invoice the mapper returns on [invoice_payload]. *)
Definition invoice_sample : SupplierInvoiceModel :=
  Eval vm_compute in
    match workday_supplier_invoice_to_pydantic sample_validators invoice_payload with
    | Ok i => i
    | Raise _ =>
        mkSupplierInvoice supplier_S1 EmptyString company_NO01 currency_NOK supplier_S1
          VNone VNone VNone VNone None []
    end.

(** A transport that answers every request with the given workers. *)
Definition transport_returning (workers : list pyval)
  : string -> WorkerRequestReferences -> result pyval :=
  fun _ _ => Ok (VDict [("Response_Data", VDict [("Worker", VList workers)])]).

Definition spend_category_payload : pyval :=
  VDict [("Resource_Category_Reference",
          wire_reference [wire_id "WID" "31bc"; wire_id "Spend_Category_ID" "SC-4"]);
         ("Resource_Category_Data",
          VDict [("Resource_Category_ID", VStr "SC-4");
                 ("Resource_Category_Name", VStr "Fruit");
                 ("Inactive", VBool false)])].

(** The spend category the mapper returns on [spend_category_payload]. *)
Definition spend_category_sample : SpendCategoryModel :=
  Eval vm_compute in
    match workday_spend_category_to_pydantic spend_category_payload with
    | Ok c => c
    | Raise _ => mkSpendCategory supplier_S1 None false
    end.

Definition rate_type_payload : pyval :=
  VDict [("Currency_Rate_Type_Reference", wire_reference [wire_id "WID" "77aa"]);
         ("Currency_Rate_Type_Data",
          VList [VDict [("Currency_Rate_Type_ID", VStr "Current");
                        ("Currency_Rate_Type_Description", VStr "Daily rate");
                        ("Currency_Rate_Type_Default", VBool true)]])].

(** The rate type the mapper returns on [rate_type_payload]. *)
Definition rate_type_sample : ConversionRateType :=
  Eval vm_compute in
    match workday_conversion_rate_type_to_pydantic rate_type_payload with
    | Ok t => t
    | Raise _ => mkConversionRateType EmptyString None EmptyString false
    end.

Definition cost_center_payload : pyval :=
  VDict [("Cost_Center_Reference",
          wire_reference [wire_id "WID" "c9e1"; wire_id "Cost_Center_Reference_ID" "CC-10"]);
         ("Cost_Center_Data",
          VDict [("Organization_Data", VDict [("Organization_Name", VStr "Warehouse")])])].

(** The cost centre the mapper returns on [cost_center_payload]. *)
Definition cost_center_sample : CostCenterModel :=
  Eval vm_compute in
    match workday_cost_center_to_pydantic cost_center_payload with
    | Ok c => c
    | Raise _ => mkCostCenter supplier_S1 None
    end.

(** Spend-category data whose two ids differ. *)
Definition spend_category_mismatch : pyval :=
  VDict [("Resource_Category_Reference", wire_reference [wire_id "Spend_Category_ID" "SC-4"]);
         ("Resource_Category_Data", VDict [("Resource_Category_ID", VStr "SC-5")])].

(** Spend-category data that carries neither id. *)
Definition spend_category_no_ids : pyval :=
  VDict [("Resource_Category_Reference", wire_reference [wire_id "WID" "31bc"]);
         ("Resource_Category_Data",
          VDict [("Resource_Category_ID", VNone);
                 ("Resource_Category_Name", VStr "Fruit");
                 ("Inactive", VBool false)])].

(** The company the mapper returns on [company_no_tax_status]. *)
Definition company_NO01_untaxed : CompanyModel :=
  Eval vm_compute in
    match workday_company_to_pydantic company_no_tax_status with
    | Ok c => c
    | Raise _ => company_NO01
    end.
(* ================================================================== *)
(** * Properties *)

Unset Implicit Arguments.

(** ** Tactics and lemmas of the error monad *)

Lemma bind_Ok {A B} (c : result A) (k : A -> result B) (b : B) :
  bind c k = Ok b -> exists a, c = Ok a /\ k a = Ok b.
Proof.
  destruct c as [a | e]; simpl; intros H.
  - exists a. split; [reflexivity | exact H].
  - discriminate H.
Qed.

(** Splits a hypothesis [x <- c ;; k = Ok b] into [c = Ok a] and [k a = Ok b]. *)
Tactic Notation "bind_inv" hyp(H) "as" ident(a) ident(Ha) :=
  apply bind_Ok in H; destruct H as [a [Ha H]].

(** ** The reference model *)

Lemma getitem_entry_type (i : WireID) :
  getitem (id_entry i) "_type" = Ok (VStr (_type i)).
Proof. reflexivity. Qed.

Lemma getitem_entry_value (i : WireID) :
  getitem (id_entry i) "value" = Ok (opt_str (value i)).
Proof. reflexivity. Qed.

Lemma scan_no_match (ids : list WireID) (id_type : option string) :
  (forall i, In i ids -> Some (_type i) <> id_type) ->
  scan_id_list (map id_entry ids) id_type = Ok VNone.
Proof.
  induction ids as [| i ids IH]; intros Hno.
  - reflexivity.
  - cbn [map scan_id_list]. rewrite getitem_entry_type. cbn [bind].
    assert (Hi : type_matches (VStr (_type i)) id_type = false).
    { destruct id_type as [t |]; simpl; [| reflexivity].
      destruct (String.eqb_spec (_type i) t) as [Heq | Hne]; [| reflexivity].
      exfalso. apply (Hno i); [left; reflexivity | now rewrite Heq]. }
    rewrite Hi. apply IH. intros j Hj. apply Hno. now right.
Qed.

(** C2. A wire ID-list with no entry of the class's id-type: [from_id_list]
    returns None, it does not raise, whatever the extra arguments. *)
Theorem from_id_list_absent (cls : RefClass) (ids : list WireID)
    (extra : list (string * pyval)) :
  (forall i, In i ids -> Some (_type i) <> id_type_default cls) ->
  from_id_list cls (id_entries ids) extra = Ok None.
Proof.
  intros Hno. unfold from_id_list, id_entries, get_id_from_list.
  cbn [py_iter bind]. rewrite (scan_no_match ids (id_type_default cls) Hno). reflexivity.
Qed.

Lemma from_id_list_absent_witness :
  from_id_list CostCenterWorktag
    (id_entries [mkWireID None "WID" (Some "4f2a") None None;
                 mkWireID None "Project_ID" (Some "P-7") None None]) []
  = Ok None.
Proof.
  apply from_id_list_absent.
  intros i [Hi | [Hi | []]]; subst i; simpl; discriminate.
Defined.

Lemma wd_object_Ok (e : Reference) (class_name : option string) (obj : RefObject) :
  wd_object e class_name = Ok obj ->
  exists cn i,
    obj = mkRefObject ("ns0:" ++ cn ++ "Type") [i]
    /\ wsdl_type i = Some ("ns0:" ++ cn ++ "IDType")
    /\ _type i = workday_id_type e
    /\ value i = workday_id e
    /\ (if truthy_str (workday_parent_id e)
        then _parent_id i = workday_parent_id e /\ _parent_type i = workday_parent_type e
        else _parent_id i = None /\ _parent_type i = None).
Proof.
  unfold wd_object. intros H.
  destruct (py_assert _ _) as [[] | err]; [| discriminate H].
  cbn [bind app] in H.
  match type of H with
  | Ok (mkRefObject (_ ++ ?c ++ _) _) = _ => exists c
  end.
  destruct (truthy_str (workday_parent_id e)); injection H as <-;
    eexists; repeat split; reflexivity.
Qed.

Lemma truthy_nonempty (s : string) : s <> EmptyString -> truthy (VStr s) = true.
Proof.
  intros Hs. simpl. destruct (String.eqb_spec s EmptyString); [contradiction | reflexivity].
Qed.

Lemma get_id_from_list_single (i : WireID) :
  get_id_from_list (id_entries [i]) (Some (_type i)) = Ok (opt_str (value i)).
Proof.
  unfold get_id_from_list, id_entries. cbn [py_iter bind map scan_id_list].
  rewrite getitem_entry_type. cbn [bind type_matches].
  rewrite String.eqb_refl. apply getitem_entry_value.
Qed.

(** What [cls(workday_id=s)] gives for a class whose [workday_id] has no
    alias, that needs no parent id and no further field. *)
Lemma init_bare_id (cls : RefClass) (s t : string) :
  id_alias cls = None ->
  id_type_default cls = Some t ->
  (forall n, id_max_length cls = Some n -> String.length s <= n) ->
  parent_id_required cls = false ->
  required_fields cls = [] ->
  init cls [("workday_id", VStr s)]
  = Ok (mkReference cls (Some s) t None (parent_type_default cls)).
Proof.
  intros Halias Htype Hlen Hpid Hreq.
  unfold init, init_base. rewrite Halias, Htype, Hpid, Hreq.
  cbn [assoc String.eqb Ascii.eqb Bool.eqb].
  assert (Hid : (if id_required cls
                 then s0 <- validate_str "workday_id" (VStr s) ;; Ok (Some s0)
                 else validate_opt_str "workday_id" (VStr s)) = Ok (Some s))
    by (destruct (id_required cls); reflexivity).
  rewrite Hid. cbn [bind].
  assert (Hmax : check_max_length "workday_id" (id_max_length cls) (Some s) = Ok tt).
  { unfold check_max_length. destruct (id_max_length cls) as [n |]; [| reflexivity].
    specialize (Hlen n eq_refl). apply Nat.leb_le in Hlen. now rewrite Hlen. }
  rewrite Hmax. reflexivity.
Qed.

(** C1 (as amended). The round trip through [wd_object] and [from_id_list]
    keeps [workday_id] and [workday_id_type] when the id is a non-empty
    string, the class declares the entity's id-type as its default, and the
    class can be built from the id alone (no alias or exceeded length limit
    on [workday_id], no required parent id or further required field). *)
Theorem from_id_list_wd_object_roundtrip (e : Reference) (class_name : option string)
    (obj : RefObject) (s : string) :
  workday_id e = Some s ->
  s <> EmptyString ->
  id_type_default (ref_class e) = Some (workday_id_type e) ->
  id_alias (ref_class e) = None ->
  (forall n, id_max_length (ref_class e) = Some n -> String.length s <= n) ->
  parent_id_required (ref_class e) = false ->
  required_fields (ref_class e) = [] ->
  wd_object e class_name = Ok obj ->
  exists e',
    from_id_list (ref_class e) (id_entries (ID obj)) [] = Ok (Some e')
    /\ workday_id e' = workday_id e
    /\ workday_id_type e' = workday_id_type e.
Proof.
  intros Hid Hs Htype Halias Hlen Hpid Hreq Hobj.
  apply wd_object_Ok in Hobj.
  destruct Hobj as [cn [i [-> [_ [Hti [Hvi _]]]]]].
  exists (mkReference (ref_class e) (Some s) (workday_id_type e) None
            (parent_type_default (ref_class e))).
  split; [| split; [now rewrite Hid | reflexivity]].
  unfold from_id_list. cbn [ID]. rewrite Htype, <- Hti.
  rewrite get_id_from_list_single, Hvi, Hid. cbn [bind opt_str].
  rewrite (truthy_nonempty s Hs). cbn [assoc].
  rewrite (init_bare_id (ref_class e) s (workday_id_type e)); try assumption.
  cbn [bind]. rewrite Hti. reflexivity.
Qed.

Lemma from_id_list_wd_object_roundtrip_witness :
  exists e',
    from_id_list Supplier
      (id_entries [mkWireID (Some "ns0:SupplierObjectIDType") "Supplier_ID"
                     (Some "S-1001") None None]) []
    = Ok (Some e')
    /\ workday_id e' = Some "S-1001"
    /\ workday_id_type e' = "Supplier_ID".
Proof.
  apply (from_id_list_wd_object_roundtrip supplier_S1 None
           (mkRefObject "ns0:SupplierObjectType"
              [mkWireID (Some "ns0:SupplierObjectIDType") "Supplier_ID"
                 (Some "S-1001") None None]) "S-1001").
  - reflexivity.
  - discriminate.
  - reflexivity.
  - reflexivity.
  - intros n Hn. discriminate Hn.
  - reflexivity.
  - reflexivity.
  - reflexivity.
Defined.

(** C1 (as stated) fails.  On a supplier whose id is the empty string the id
    is set and its id-type is in the list [wd_object] builds, yet
    [from_id_list] answers None.  On a currency, whose [workday_id] is read
    under the alias [currency_code], the id is found and the class cannot be
    built from it: [from_id_list] raises ValidationError. *)
Lemma roundtrip_fails :
  (workday_id supplier_blank = Some EmptyString
   /\ exists obj,
        wd_object supplier_blank None = Ok obj
        /\ (exists i, In i (ID obj)
                      /\ Some (_type i) = id_type_default (ref_class supplier_blank))
        /\ from_id_list (ref_class supplier_blank) (id_entries (ID obj)) [] = Ok None)
  /\ (workday_id currency_NOK = Some "NOK"
      /\ exists obj,
           wd_object currency_NOK None = Ok obj
           /\ (exists i, In i (ID obj)
                         /\ Some (_type i) = id_type_default (ref_class currency_NOK))
           /\ from_id_list (ref_class currency_NOK) (id_entries (ID obj)) []
              = Raise (ValidationError "currency_code")).
Proof.
  split; (split; [reflexivity |]);
    (eexists; split; [reflexivity |]; split;
     [eexists; split; [left; reflexivity | reflexivity] | reflexivity]).
Qed.

Lemma init_parent_type_default (cls : RefClass) (kw : list (string * pyval))
    (e : Reference) (t : string) :
  parent_type_default cls = Some t ->
  init cls kw = Ok e ->
  workday_parent_type e = Some t.
Proof.
  intros Hdef H. unfold init in H. bind_inv H as self Hbase.
  destruct (require_fields _ _); [| discriminate H].
  cbn [bind] in H. injection H as <-.
  unfold init_base in Hbase. rewrite Hdef in Hbase.
  bind_inv Hbase as wid Hwid. bind_inv Hbase as u Hmax.
  bind_inv Hbase as wtype Hwtype. bind_inv Hbase as pid Hpid.
  bind_inv Hbase as ptype Hptype.
  injection Hbase as <-. cbn [workday_parent_type].
  destruct (assoc "workday_parent_type" kw) as [v |].
  - bind_inv Hptype as lit Hlit. injection Hptype as <-.
    unfold validate_literal in Hlit.
    destruct v; try discriminate Hlit.
    destruct (String.eqb s t); [| discriminate Hlit].
    now injection Hlit as <-.
  - now injection Hptype as <-.
Qed.

(** C9 (as amended). Nothing ties the parent type to the parent id when an
    entity is built.  What holds: a class that declares a default parent
    type gives it to every instance, and [wd_object] writes [_parent_id] and
    [_parent_type] to the wire ID together, exactly when the parent id is a
    non-empty string, the parent type copied as it is. *)
Theorem parent_scope_as_built (cls : RefClass) (kw : list (string * pyval))
    (e : Reference) (class_name : option string) (obj : RefObject) :
  init cls kw = Ok e ->
  wd_object e class_name = Ok obj ->
  (forall t, parent_type_default cls = Some t -> workday_parent_type e = Some t)
  /\ exists i,
       ID obj = [i]
       /\ (if truthy_str (workday_parent_id e)
           then _parent_id i = workday_parent_id e
                /\ _parent_type i = workday_parent_type e
           else _parent_id i = None /\ _parent_type i = None).
Proof.
  intros Hinit Hobj. split.
  - intros t Ht. exact (init_parent_type_default cls kw e t Ht Hinit).
  - apply wd_object_Ok in Hobj.
    destruct Hobj as [cn [i [-> [_ [_ [_ Hp]]]]]].
    exists i. split; [reflexivity | exact Hp].
Qed.

Lemma parent_scope_as_built_witness :
  (forall t, parent_type_default LedgerAccount = Some t ->
             workday_parent_type ledger_account_6010 = Some t)
  /\ exists i,
       [mkWireID (Some "ns0:Ledger_AccountObjectIDType") "Ledger_Account_ID"
          (Some "6010") (Some "Standard") (Some "Account_Set_ID")] = [i]
       /\ _parent_id i = Some "Standard" /\ _parent_type i = Some "Account_Set_ID".
Proof.
  exact (parent_scope_as_built LedgerAccount ledger_account_kw ledger_account_6010 None
           (mkRefObject "ns0:Ledger_AccountObjectType"
              [mkWireID (Some "ns0:Ledger_AccountObjectIDType") "Ledger_Account_ID"
                 (Some "6010") (Some "Standard") (Some "Account_Set_ID")])
           eq_refl eq_refl).
Defined.

(** C9 (as stated) fails: a supplier reference is built with a parent id
    and no parent type, and [wd_object] accepts it and writes the pair. *)
Lemma parent_id_without_parent_type :
  exists e obj i,
    init Supplier [("workday_id", VStr "S-1001"); ("workday_parent_id", VStr "ORG-1")]
    = Ok e
    /\ workday_parent_id e = Some "ORG-1"
    /\ workday_parent_type e = None
    /\ wd_object e None = Ok obj
    /\ ID obj = [i]
    /\ _parent_id i = Some "ORG-1"
    /\ _parent_type i = None.
Proof.
  do 3 eexists. repeat split.
Qed.

(** ** Accounting journals *)

(** C8. The journal id is fixed by the accounting date and the company's
    Workday id: journals that agree on both have the same id. *)
Theorem accounting_journal_id_deterministic (j1 j2 : AccountingJournalData) :
  accounting_date j1 = accounting_date j2 ->
  workday_id (company_ref (company j1)) = workday_id (company_ref (company j2)) ->
  accounting_journal_id j1 = accounting_journal_id j2.
Proof.
  intros Hdate Hid. unfold accounting_journal_id. rewrite Hdate, Hid. reflexivity.
Qed.

Lemma accounting_journal_id_deterministic_witness :
  accounting_journal_id (journal_of company_NO01 [])
  = accounting_journal_id
      (journal_of (mkCompany (company_ref company_NO01) None None None)
         [mkJournalEntryLineData ledger_account_6010 (Some (VInt 100)) None None None]).
Proof.
  apply accounting_journal_id_deterministic; reflexivity.
Defined.

Example accounting_journal_id_sample :
  accounting_journal_id (journal_of company_NO01 []) = "20230307-NO01".
Proof. reflexivity. Qed.

(** ** Companies *)

Lemma Company_init_country_code (wid nm cc : pyval) (cur : option Reference)
    (c : CompanyModel) :
  Company_init wid nm cc cur = Ok c ->
  validate_opt_str "country_code" cc = Ok (country_code c).
Proof.
  unfold Company_init. intros H.
  bind_inv H as ref Href. bind_inv H as n Hn. bind_inv H as code Hcode.
  bind_inv H as u Hmax. injection H as <-. exact Hcode.
Qed.

(** C6. The country code of a company comes from the first entry of
    [Tax_Status_Data], whatever entries follow it (two entries or more are
    the case [rest <> []]): it is the id that the first entry's
    [Country_Reference] holds under [ISO_3166-1_Alpha-2_Code], as the
    [str | None] field takes it.  Without [Tax_Status_Data] it is None. *)
Theorem company_country_code_first_tax_status (data cdata : pyval) (c : CompanyModel) :
  getitem data "Company_Data" = Ok (VList [cdata]) ->
  workday_company_to_pydantic data = Ok c ->
  (forall entry rest,
      getitem cdata "Tax_Status_Data" = Ok (VList (entry :: rest)) ->
      exists ids code,
        reference_ids entry "Country_Reference" = Ok ids
        /\ get_id_from_list ids (Some "ISO_3166-1_Alpha-2_Code") = Ok code
        /\ validate_opt_str "country_code" code = Ok (country_code c))
  /\ (contains cdata "Tax_Status_Data" = Ok false -> country_code c = None).
Proof.
  intros Hdata H. unfold workday_company_to_pydantic in H.
  rewrite Hdata in H. cbn [bind py_len List.length Nat.eqb py_assert first] in H.
  bind_inv H as accounting Hacc. bind_inv H as cids Hcids.
  bind_inv H as currency_code Hcur. bind_inv H as has_tax Hhas.
  bind_inv H as code Hcode. bind_inv H as org Horg.
  bind_inv H as wid Hwid. bind_inv H as nm Hnm. bind_inv H as cur Hc.
  apply Company_init_country_code in H.
  split.
  - intros entry rest Htax.
    assert (Hin : has_tax = true).
    { unfold getitem in Htax. unfold contains in Hhas.
      destruct cdata; try discriminate Htax.
      destruct (assoc "Tax_Status_Data" d); [| discriminate Htax].
      now injection Hhas as <-. }
    subst has_tax. rewrite Htax in Hcode. cbn [bind first] in Hcode.
    bind_inv Hcode as ids Hids.
    exists ids, code. repeat split; assumption.
  - intros Habsent. rewrite Habsent in Hhas. injection Hhas as <-.
    injection Hcode as <-. simpl in H. now injection H as <-.
Qed.

Lemma company_country_code_first_tax_status_witness :
  workday_company_to_pydantic company_two_jurisdictions = Ok company_NO01_mapped
  /\ (forall entry rest,
         getitem (company_cdata
                    [("Tax_Status_Data", VList [tax_status "NO"; tax_status "SE"])])
           "Tax_Status_Data" = Ok (VList (entry :: rest)) ->
         exists ids code,
           reference_ids entry "Country_Reference" = Ok ids
           /\ get_id_from_list ids (Some "ISO_3166-1_Alpha-2_Code") = Ok code
           /\ validate_opt_str "country_code" code = Ok (Some "NO")).
Proof.
  split; [reflexivity |].
  exact (proj1 (company_country_code_first_tax_status company_two_jurisdictions
                  (company_cdata
                     [("Tax_Status_Data", VList [tax_status "NO"; tax_status "SE"])])
                  company_NO01_mapped eq_refl eq_refl)).
Defined.

Example company_two_jurisdictions_country :
  exists c, workday_company_to_pydantic company_two_jurisdictions = Ok c
            /\ country_code c = Some "NO".
Proof. eexists. split; reflexivity. Qed.

Example company_without_tax_status :
  exists c, workday_company_to_pydantic company_no_tax_status = Ok c
            /\ country_code c = None.
Proof. eexists. split; reflexivity. Qed.

(** ** Conversion rates *)

Lemma lookup_reference_Ok (data : pyval) (key id_type : string) (v : pyval) :
  lookup_reference data key id_type = Ok v ->
  exists ids, reference_ids data key = Ok ids
              /\ get_id_from_list ids (Some id_type) = Ok v.
Proof.
  unfold lookup_reference. intros H. bind_inv H as ids Hids.
  exists ids. split; assumption.
Qed.

(** Replaces a reference lookup at the head of the goal by its value. *)
Ltac use_lookup H :=
  let ids := fresh "ids" in
  let Hids := fresh "Hids" in
  let Hget := fresh "Hget" in
  destruct (lookup_reference_Ok _ _ _ _ H) as [ids [Hids Hget]];
  rewrite Hids; cbn [bind]; rewrite Hget; cbn [bind]; clear ids Hids Hget.

Section ConversionRates.
Variable P : Pydantic.
Variables (data workday_id : pyval) (rate_data : list pyval).
Hypothesis Hwid :
  lookup_reference data "Currency_Conversion_Rate_Reference" "WID" = Ok workday_id.
Hypothesis Hdata :
  getitem data "Currency_Conversion_Rate_Data" = Ok (VList rate_data).

Lemma conversion_rate_cardinality :
  List.length rate_data <> 1 ->
  workday_conversion_rate_to_pydantic P data
  = Raise (AssertionError
      "Code is written expecting that we only have one currency rate data per object, but that is not the case here").
Proof.
  intros Hlen. unfold workday_conversion_rate_to_pydantic.
  use_lookup Hwid. rewrite Hdata. cbn [bind py_len].
  destruct (Nat.eqb_spec (List.length rate_data) 1) as [Heq | _];
    [contradiction | reflexivity].
Qed.

Variables (sub_data from_ref target_ref type_id : pyval).
Hypothesis Hone : rate_data = [sub_data].
Hypothesis Hfrom :
  lookup_reference sub_data "From_Currency_Reference" "Currency_ID" = Ok from_ref.
Hypothesis Htarget :
  lookup_reference sub_data "Target_Currency_Reference" "Currency_ID" = Ok target_ref.
Hypothesis Htype :
  lookup_reference sub_data "Currency_Rate_Type_Reference" "Currency_Rate_Type_ID"
  = Ok type_id.
Hypothesis Hwid_set : truthy workday_id = true.
Hypothesis Hfrom_set : truthy from_ref = true.
Hypothesis Htarget_set : truthy target_ref = true.

Lemma conversion_rate_to_asserts :
  workday_conversion_rate_to_pydantic P data
  = (py_assert (truthy type_id)
       "All currency conversion rates need a 'rate type'-reference" ;;;
     rate <- getitem sub_data "Currency_Rate" ;;
     rate_type_id <- RateTypeID_of type_id ;;
     effective_timestamp <- getitem sub_data "Effective_Timestamp" ;;
     ConversionRate_init P workday_id from_ref target_ref rate rate_type_id
       effective_timestamp).
Proof.
  unfold workday_conversion_rate_to_pydantic.
  use_lookup Hwid. rewrite Hdata, Hone. cbn [bind py_len List.length Nat.eqb py_assert first].
  use_lookup Hfrom. use_lookup Htarget. use_lookup Htype.
  rewrite Hwid_set, Hfrom_set, Htarget_set. reflexivity.
Qed.

Lemma conversion_rate_type_missing :
  truthy type_id = false ->
  workday_conversion_rate_to_pydantic P data
  = Raise (AssertionError "All currency conversion rates need a 'rate type'-reference").
Proof.
  intros Hno. rewrite conversion_rate_to_asserts, Hno. reflexivity.
Qed.

Lemma conversion_rate_maps (w f t : string) (rt : RateTypeID) (rate ts : pyval) :
  workday_id = VStr w ->
  from_ref = VStr f -> String.length f <= 3 ->
  target_ref = VStr t -> String.length t <= 3 ->
  type_id = VStr (RateTypeID_value rt) ->
  getitem sub_data "Currency_Rate" = Ok rate -> float_ok P rate = true ->
  getitem sub_data "Effective_Timestamp" = Ok ts -> datetime_ok P ts = true ->
  workday_conversion_rate_to_pydantic P data
  = Ok (mkConversionRate (Some w) f t rate rt ts).
Proof.
  intros Hw Hf Hflen Ht Htlen Hrt Hrate Hfloat Hts Hdatetime.
  rewrite conversion_rate_to_asserts.
  assert (Htid : truthy type_id = true) by (rewrite Hrt; destruct rt; reflexivity).
  rewrite Htid, Hrate, Hts. cbn [py_assert bind].
  assert (Hof : RateTypeID_of type_id = Ok rt) by (rewrite Hrt; destruct rt; reflexivity).
  rewrite Hof. cbn [bind]. unfold ConversionRate_init.
  rewrite Hw, Hf, Ht. cbn [validate_opt_str validate_str bind check_max_length].
  apply Nat.leb_le in Hflen, Htlen. rewrite Hflen, Htlen. cbn [bind].
  unfold validate_with. rewrite Hfloat, Hdatetime. reflexivity.
Qed.
End ConversionRates.

(** C3 (as amended). For a payload whose [Currency_Conversion_Rate_Reference]
    and [Currency_Conversion_Rate_Data] can be read:
    - any number of rate-data entries other than one raises the cardinality
      assertion;
    - with one entry whose three references can be read, the Workday id and
      both currencies found but no [Currency_Rate_Type_ID], the mapper raises
      the 'rate type'-reference assertion;
    - with one entry, the four ids found, currency codes of at most three
      characters, a rate type that is a member of [RateTypeID] and a rate
      and timestamp pydantic accepts, the mapper returns the ConversionRate. *)
Theorem conversion_rate_mapping (P : Pydantic) (data workday_id : pyval)
    (rate_data : list pyval) :
  lookup_reference data "Currency_Conversion_Rate_Reference" "WID" = Ok workday_id ->
  getitem data "Currency_Conversion_Rate_Data" = Ok (VList rate_data) ->
  (List.length rate_data <> 1 ->
   workday_conversion_rate_to_pydantic P data
   = Raise (AssertionError
       "Code is written expecting that we only have one currency rate data per object, but that is not the case here"))
  /\ (forall sub_data from_ref target_ref type_id,
        rate_data = [sub_data] ->
        lookup_reference sub_data "From_Currency_Reference" "Currency_ID" = Ok from_ref ->
        lookup_reference sub_data "Target_Currency_Reference" "Currency_ID"
        = Ok target_ref ->
        lookup_reference sub_data "Currency_Rate_Type_Reference" "Currency_Rate_Type_ID"
        = Ok type_id ->
        truthy workday_id = true -> truthy from_ref = true -> truthy target_ref = true ->
        (truthy type_id = false ->
         workday_conversion_rate_to_pydantic P data
         = Raise (AssertionError
                    "All currency conversion rates need a 'rate type'-reference"))
        /\ (forall w f t rt rate ts,
              workday_id = VStr w ->
              from_ref = VStr f -> String.length f <= 3 ->
              target_ref = VStr t -> String.length t <= 3 ->
              type_id = VStr (RateTypeID_value rt) ->
              getitem sub_data "Currency_Rate" = Ok rate -> float_ok P rate = true ->
              getitem sub_data "Effective_Timestamp" = Ok ts ->
              datetime_ok P ts = true ->
              workday_conversion_rate_to_pydantic P data
              = Ok (mkConversionRate (Some w) f t rate rt ts))).
Proof.
  intros Hwid Hdata. split.
  - apply (conversion_rate_cardinality P data workday_id rate_data Hwid Hdata).
  - intros sub_data from_ref target_ref type_id Hone Hfrom Htarget Htype Hw Hf Ht. split.
    + eapply conversion_rate_type_missing; eassumption.
    + intros w f t rt rate ts. eapply conversion_rate_maps; eassumption.
Qed.

Lemma conversion_rate_mapping_witness :
  workday_conversion_rate_to_pydantic sample_validators
    (rate_payload [rate_entry_current; rate_entry_current])
  = Raise (AssertionError
      "Code is written expecting that we only have one currency rate data per object, but that is not the case here")
  /\ workday_conversion_rate_to_pydantic sample_validators
       (rate_payload [rate_entry_no_type_id])
     = Raise (AssertionError "All currency conversion rates need a 'rate type'-reference")
  /\ workday_conversion_rate_to_pydantic sample_validators
       (rate_payload [rate_entry_current])
     = Ok (mkConversionRate (Some "9f31") "EUR" "NOK" (VInt 11) current
             (VDateTime (mkDateTime (mkDate 2023 3 7) 0))).
Proof.
  split; [| split].
  - apply (proj1 (conversion_rate_mapping sample_validators
                    (rate_payload [rate_entry_current; rate_entry_current])
                    (VStr "9f31") [rate_entry_current; rate_entry_current]
                    eq_refl eq_refl)).
    simpl. lia.
  - apply (proj1 (proj2 (conversion_rate_mapping sample_validators
                           (rate_payload [rate_entry_no_type_id])
                           (VStr "9f31") [rate_entry_no_type_id] eq_refl eq_refl)
                    rate_entry_no_type_id (VStr "EUR") (VStr "NOK") VNone
                    eq_refl eq_refl eq_refl eq_refl eq_refl eq_refl eq_refl)).
    reflexivity.
  - apply (proj2 (proj2 (conversion_rate_mapping sample_validators
                           (rate_payload [rate_entry_current])
                           (VStr "9f31") [rate_entry_current] eq_refl eq_refl)
                    rate_entry_current (VStr "EUR") (VStr "NOK") (VStr "Current")
                    eq_refl eq_refl eq_refl eq_refl eq_refl eq_refl eq_refl));
      try reflexivity; simpl; lia.
Defined.

(** C3 (as stated) fails twice.  A rate-data entry that lacks the key
    [Currency_Rate_Type_Reference] raises KeyError, not the assertion on the
    missing reference; and an entry with all references present whose rate
    type is not a member of [RateTypeID] does not map: it raises ValueError. *)
Lemma conversion_rate_claim_fails :
  workday_conversion_rate_to_pydantic sample_validators
    (rate_payload [rate_sub_data []])
  = Raise (KeyError "Currency_Rate_Type_Reference")
  /\ workday_conversion_rate_to_pydantic sample_validators
       (rate_payload [rate_sub_data (rate_type_reference "Daily")])
     = Raise (ValueError "'Daily' is not a valid ConversionRate.RateTypeID").
Proof. split; reflexivity. Qed.

(** ** Stable insertion sort *)

Section StableSortFacts.
Variable A : Type.
Variable leb : A -> A -> bool.
(** The elements the order is known to behave on. *)
Variable D : A -> Prop.
Hypothesis leb_total : forall x y, D x -> D y -> leb x y = true \/ leb y x = true.
Hypothesis leb_trans :
  forall x y z, D x -> D y -> D z -> leb x y = true -> leb y z = true -> leb x z = true.

Lemma insert_perm (x : A) (l : list A) : Permutation (x :: l) (insert leb x l).
Proof.
  induction l as [| y l IH]; simpl.
  - apply Permutation_refl.
  - destruct (leb x y).
    + apply Permutation_refl.
    + eapply perm_trans; [apply perm_swap | apply perm_skip, IH].
Qed.

Lemma stable_sort_perm (l : list A) : Permutation l (stable_sort leb l).
Proof.
  induction l as [| x l IH]; simpl.
  - apply perm_nil.
  - eapply perm_trans; [apply perm_skip, IH | apply insert_perm].
Qed.

Lemma insert_sorted (x : A) (l : list A) :
  D x -> Forall D l -> StronglySorted (le_of leb) l -> StronglySorted (le_of leb) (insert leb x l).
Proof.
  intros Hx HD Hs. induction Hs as [| y l Hs IH Hy]; simpl.
  - constructor; [constructor | constructor].
  - inversion HD as [| ? ? Dy Dl]; subst.
    destruct (leb x y) eqn:Hxy.
    + constructor; [constructor; assumption |].
      constructor; [exact Hxy |].
      rewrite Forall_forall in Hy, Dl. apply Forall_forall. intros z Hz.
      apply (leb_trans x y z); auto. apply Hy, Hz.
    + constructor; [apply IH; assumption |].
      assert (Hyx : leb y x = true).
      { destruct (leb_total x y Hx Dy) as [H | H]; [congruence | exact H]. }
      apply (Permutation_Forall (insert_perm x l)).
      constructor; assumption.
Qed.

Lemma stable_sort_sorted (l : list A) :
  Forall D l -> StronglySorted (le_of leb) (stable_sort leb l).
Proof.
  induction l as [| x l IH]; intros HD; simpl.
  - constructor.
  - inversion HD; subst. apply insert_sorted; auto.
    apply (Permutation_Forall (stable_sort_perm l)). assumption.
Qed.

End StableSortFacts.

(** ** The order of sort keys *)

Lemma date_leb_spec (a b : Date) :
  date_leb a b = true <->
  (year a < year b
   \/ (year a = year b /\ (month a < month b \/ (month a = month b /\ day a <= day b))))%Z.
Proof.
  unfold date_leb.
  rewrite orb_true_iff, andb_true_iff, orb_true_iff, andb_true_iff.
  rewrite !Z.ltb_lt, !Z.eqb_eq, Z.leb_le. tauto.
Qed.

Lemma date_eqb_spec (a b : Date) :
  date_eqb a b = true <-> (year a = year b /\ month a = month b /\ day a = day b).
Proof.
  unfold date_eqb. rewrite !andb_true_iff, !Z.eqb_eq. tauto.
Qed.

Ltac date_props :=
  repeat match goal with
         | H : date_eqb _ _ = true |- _ => apply date_eqb_spec in H
         | H : date_eqb _ _ = false |- _ =>
             apply not_true_iff_false in H; rewrite date_eqb_spec in H
         end.

Lemma ascii_compare_Lt_trans (a b c : ascii) :
  Ascii.compare a b = Lt -> Ascii.compare b c = Lt -> Ascii.compare a c = Lt.
Proof.
  unfold Ascii.compare. rewrite !N.compare_lt_iff. apply N.lt_trans.
Qed.

Lemma string_compare_Lt_trans (s t u : string) :
  String.compare s t = Lt -> String.compare t u = Lt -> String.compare s u = Lt.
Proof.
  revert t u. induction s as [| a s IH]; intros [| b t] [| c u]; simpl;
    try discriminate; try reflexivity.
  destruct (Ascii.compare a b) eqn:Hab; try discriminate;
    destruct (Ascii.compare b c) eqn:Hbc; try discriminate; intros H1 H2.
  - apply Ascii.compare_eq_iff in Hab, Hbc. subst.
    assert (Hcc : Ascii.compare c c = Eq).
    { unfold Ascii.compare. apply N.compare_refl. }
    rewrite Hcc. now apply (IH t u).
  - apply Ascii.compare_eq_iff in Hab. subst. now rewrite Hbc.
  - apply Ascii.compare_eq_iff in Hbc. subst. now rewrite Hab.
  - now rewrite (ascii_compare_Lt_trans a b c Hab Hbc).
Qed.

Lemma string_compare_refl (s : string) : String.compare s s = Eq.
Proof.
  induction s as [| a s IH]; simpl; [reflexivity |].
  unfold Ascii.compare. now rewrite N.compare_refl.
Qed.

Lemma string_leb_trans (s t u : string) :
  String.leb s t = true -> String.leb t u = true -> String.leb s u = true.
Proof.
  unfold String.leb.
  destruct (String.compare s t) eqn:Hst; try discriminate;
    destruct (String.compare t u) eqn:Htu; try discriminate; intros _ _.
  - apply String.compare_eq_iff in Hst, Htu. subst.
    now rewrite string_compare_refl.
  - apply String.compare_eq_iff in Hst. subst. now rewrite Htu.
  - apply String.compare_eq_iff in Htu. subst. now rewrite Hst.
  - now rewrite (string_compare_Lt_trans s t u Hst Htu).
Qed.

Lemma string_leb_refl (s : string) : String.leb s s = true.
Proof. unfold String.leb. now rewrite string_compare_refl. Qed.

Lemma py_leb_refl (v : pyval) : py_leb v v = true.
Proof.
  destruct v; simpl; try apply Z.leb_refl.
  - apply string_leb_refl.
  - apply date_leb_spec. lia.
  - destruct (date_eqb (dt_date t) (dt_date t)) eqn:H.
    + apply Z.leb_refl.
    + apply date_leb_spec. lia.
Qed.

Lemma py_leb_total (c : kind) (a b : pyval) :
  has_kind c a -> has_kind c b -> py_leb a b = true \/ py_leb b a = true.
Proof.
  unfold has_kind. intros Ha Hb.
  destruct a, b; simpl in *; try congruence;
    try (rewrite !Z.leb_le; lia).
  - apply String.leb_total.
  - rewrite !date_leb_spec. lia.
  - destruct (date_eqb (dt_date t) (dt_date t0)) eqn:H1;
      destruct (date_eqb (dt_date t0) (dt_date t)) eqn:H2;
      date_props; rewrite ?Z.leb_le, ?date_leb_spec; lia.
Qed.

Lemma py_leb_trans (c : kind) (x y z : pyval) :
  has_kind c x -> has_kind c y -> has_kind c z ->
  py_leb x y = true -> py_leb y z = true -> py_leb x z = true.
Proof.
  unfold has_kind. intros Hx Hy Hz.
  destruct x, y, z; simpl in *; try congruence;
    try (rewrite !Z.leb_le; lia).
  - apply string_leb_trans.
  - rewrite !date_leb_spec. lia.
  - destruct (date_eqb (dt_date t) (dt_date t0)) eqn:H1;
      destruct (date_eqb (dt_date t0) (dt_date t1)) eqn:H2;
      destruct (date_eqb (dt_date t) (dt_date t1)) eqn:H3;
      date_props; rewrite ?Z.leb_le, ?date_leb_spec; lia.
Qed.

(** ** [sorted] *)

Lemma mapM_keyed (key : pyval -> result pyval) (items : list pyval)
    (keyed : list (pyval * pyval)) :
  mapM (fun x => k <- key x ;; Ok (k, x)) items = Ok keyed ->
  map snd keyed = items /\ Forall (keyed_by key) keyed.
Proof.
  revert keyed. induction items as [| x items IH]; intros keyed H; simpl in H.
  - injection H as <-. split; constructor.
  - bind_inv H as kx Hkx. bind_inv H as rest Hrest. injection H as <-.
    bind_inv Hkx as k Hk. injection Hkx as <-.
    destruct (IH rest Hrest) as [Hsnd Hall].
    split; [simpl; now rewrite Hsnd | constructor; [exact Hk | exact Hall]].
Qed.

Lemma one_kind_Forall (keys : list pyval) :
  keys <> [] -> one_kind keys = true -> exists c, Forall (has_kind c) keys.
Proof.
  destruct keys as [| k keys']; [contradiction |]. intros _ H.
  assert (Hc : exists c,
             forallb (fun k' => match kind_of k' with
                                | Some c' => kind_eqb c c'
                                | None => false
                                end) (k :: keys') = true).
  { unfold one_kind in H. destruct (kind_of k) as [c |]; [| discriminate H].
    exists c. exact H. }
  destruct Hc as [c Hc]. exists c.
  rewrite forallb_forall in Hc. apply Forall_forall.
  intros v Hv. specialize (Hc v Hv). unfold has_kind.
  destruct (kind_of v) as [c' |]; [| discriminate].
  destruct c, c'; simpl in Hc; try discriminate; reflexivity.
Qed.

Lemma StronglySorted_snoc {A} (R : A -> A -> Prop) (l : list A) (x : A) :
  StronglySorted R l -> Forall (fun y => R y x) l -> StronglySorted R (l ++ [x]).
Proof.
  induction 1 as [| y l Hs IH Hy]; intros Hx; simpl.
  - constructor; constructor.
  - inversion Hx; subst. constructor; [now apply IH |].
    apply Forall_app. split; [exact Hy | now constructor].
Qed.

Lemma StronglySorted_rev {A} (R : A -> A -> Prop) (l : list A) :
  StronglySorted R l -> StronglySorted (fun a b => R b a) (rev l).
Proof.
  induction 1 as [| x l Hs IH Hx]; simpl.
  - constructor.
  - apply StronglySorted_snoc; [exact IH |].
    apply Forall_forall. intros y Hy. apply in_rev in Hy.
    rewrite Forall_forall in Hx. now apply Hx.
Qed.

Lemma short_list_sorted {A} (R : A -> A -> Prop) (l : list A) :
  List.length l <= 1 -> StronglySorted R l.
Proof.
  destruct l as [| x [| y l]]; simpl; intros H.
  - constructor.
  - constructor; constructor.
  - lia.
Qed.

Lemma keyed_sort_sorted (c : kind) (keyed : list (pyval * pyval)) :
  Forall (has_kind c) (map fst keyed) ->
  StronglySorted (in_key_order false) (stable_sort key_leb keyed).
Proof.
  intros Hkind.
  apply (stable_sort_sorted _ key_leb (fun kx => has_kind c (fst kx))).
  - intros x y Hx Hy. apply (py_leb_total c); assumption.
  - intros x y z Hx Hy Hz. apply (py_leb_trans c); assumption.
  - apply Forall_forall. intros kx Hkx. rewrite Forall_forall in Hkind.
    apply Hkind. now apply in_map.
Qed.

(** What [sorted] returns: the items of its argument, permuted, each with its
    key, in key order. *)
Lemma py_sorted_Ok (key : pyval -> result pyval) (reverse : bool) (v : pyval)
    (out : list pyval) :
  py_sorted key reverse v = Ok out ->
  exists items keyed,
    py_iter v = Ok items
    /\ out = map snd keyed
    /\ Permutation items out
    /\ Forall (keyed_by key) keyed
    /\ StronglySorted (in_key_order reverse) keyed.
Proof.
  unfold py_sorted. intros H.
  bind_inv H as items Hitems. bind_inv H as keyed Hkeyed.
  destruct (mapM_keyed key items keyed Hkeyed) as [Hsnd Hall].
  exists items.
  destruct (Nat.leb_spec (List.length keyed) 1) as [Hshort | Hlong].
  - injection H as <-. exists keyed.
    split; [exact Hitems |]. split; [now rewrite Hsnd |].
    split; [apply Permutation_refl |]. split; [exact Hall |].
    now apply short_list_sorted.
  - assert (Hne : map fst keyed <> []).
    { destruct keyed; [simpl in Hlong; lia | discriminate]. }
    destruct (one_kind (map fst keyed)) eqn:Hone; [| discriminate H].
    destruct (one_kind_Forall _ Hne Hone) as [c Hc].
    injection H as <-.
    destruct reverse.
    + exists (rev (stable_sort key_leb (rev keyed))).
      assert (Hperm : Permutation keyed (rev (stable_sort key_leb (rev keyed)))).
      { eapply perm_trans; [apply Permutation_rev |].
        eapply perm_trans; [apply stable_sort_perm |]. apply Permutation_rev. }
      split; [exact Hitems |]. split; [reflexivity |].
      split; [rewrite <- Hsnd; now apply Permutation_map |].
      split; [exact (Permutation_Forall Hperm Hall) |].
      apply (StronglySorted_rev (in_key_order false)).
      apply (keyed_sort_sorted c). rewrite map_rev. now apply Forall_rev.
    + exists (stable_sort key_leb keyed).
      split; [exact Hitems |]. split; [reflexivity |].
      split; [rewrite <- Hsnd; apply Permutation_map, stable_sort_perm |].
      split; [exact (Permutation_Forall (stable_sort_perm _ _ keyed) Hall) |].
      now apply (keyed_sort_sorted c).
Qed.

Lemma mapM_keyed_returns (key : pyval -> result pyval) (c : kind) (items : list pyval) :
  (forall x, In x items -> exists k, key x = Ok k /\ has_kind c k) ->
  exists keyed,
    mapM (fun x => k <- key x ;; Ok (k, x)) items = Ok keyed
    /\ List.length keyed = List.length items
    /\ Forall (has_kind c) (map fst keyed).
Proof.
  induction items as [| x items IH]; intros Hkeys.
  - exists []. repeat split; constructor.
  - destruct (Hkeys x (or_introl eq_refl)) as [k [Hk Hc]].
    destruct IH as [keyed [Hm [Hlen Hall]]].
    { intros y Hy. apply Hkeys. now right. }
    exists ((k, x) :: keyed). cbn [mapM]. rewrite Hk. cbn [bind]. rewrite Hm. cbn [bind].
    split; [reflexivity |]. split; [simpl; now rewrite Hlen |].
    constructor; assumption.
Qed.

Lemma Forall_one_kind (c : kind) (keys : list pyval) :
  Forall (has_kind c) keys -> one_kind keys = true.
Proof.
  intros Hall. destruct keys as [| k keys']; [reflexivity |].
  unfold one_kind. inversion Hall as [| ? ? Hk _]; subst.
  unfold has_kind in Hk. rewrite Hk. apply forallb_forall. intros v Hv.
  rewrite Forall_forall in Hall. specialize (Hall v Hv). unfold has_kind in Hall.
  rewrite Hall. destruct c; reflexivity.
Qed.

(** [sorted] returns when every item has a key and the keys are of one kind;
    what it returns is as long as its argument. *)
Lemma py_sorted_returns (key : pyval -> result pyval) (reverse : bool) (c : kind)
    (v : pyval) (items : list pyval) :
  py_iter v = Ok items ->
  (forall x, In x items -> exists k, key x = Ok k /\ has_kind c k) ->
  exists out, py_sorted key reverse v = Ok out /\ List.length out = List.length items.
Proof.
  intros Hitems Hkeys. unfold py_sorted. rewrite Hitems. cbn [bind].
  destruct (mapM_keyed_returns key c items Hkeys) as [keyed [Hm [Hlen Hall]]].
  rewrite Hm. cbn [bind].
  destruct (List.length keyed <=? 1)%nat; [exists items; split; reflexivity |].
  rewrite (Forall_one_kind c _ Hall).
  eexists. split; [reflexivity |].
  rewrite length_map, <- Hlen.
  destruct reverse.
  - rewrite length_rev, <- (Permutation_length (stable_sort_perm _ key_leb (rev keyed))).
    apply length_rev.
  - symmetry. apply Permutation_length, stable_sort_perm.
Qed.

(** ** Invoice lines *)

Lemma invoice_line_order (P : Pydantic) (data : pyval) (i : Z)
    (line : SupplierInvoiceLine) :
  _workday_invoice_line_to_pydantic P data i = Ok line -> order line = Some i.
Proof.
  unfold _workday_invoice_line_to_pydantic. intros H.
  bind_inv H as worktags Hw. bind_inv H as tags Ht. bind_inv H as cc Hcc.
  bind_inv H as tro Htro. bind_inv H as descr Hd.
  bind_inv H as ids1 H1. bind_inv H as ta Hta.
  bind_inv H as ids2 H2. bind_inv H as tc Htc.
  bind_inv H as ids3 H3. bind_inv H as sc Hsc.
  bind_inv H as gross Hg.
  unfold SupplierInvoiceLine_init in H.
  bind_inv H as d Hdv. bind_inv H as g Hgv. now injection H as <-.
Qed.

(** The loop over the sorted lines: line [n] of the result is the mapping
    of item [n], numbered [start + n]. *)
Lemma map_lines_Ok (P : Pydantic) (sorted_lines : list pyval) (start : Z)
    (ls : list SupplierInvoiceLine) :
  map_lines P sorted_lines start = Ok ls ->
  map order ls
  = map (fun n => Some (start + Z.of_nat n)%Z) (seq 0 (List.length sorted_lines))
  /\ forall n x, nth_error sorted_lines n = Some x ->
       exists line, nth_error ls n = Some line
                    /\ _workday_invoice_line_to_pydantic P x (start + Z.of_nat n) = Ok line.
Proof.
  revert start ls. induction sorted_lines as [| x rest IH]; intros start ls H; simpl in H.
  - injection H as <-. split; [reflexivity |]. intros [| n] y Hy; discriminate Hy.
  - bind_inv H as l Hl. bind_inv H as ls' Hls. injection H as <-.
    destruct (IH _ _ Hls) as [Hord Hnth]. split.
    + cbn [map List.length seq]. rewrite (invoice_line_order _ _ _ _ Hl), Z.add_0_r.
      f_equal. rewrite Hord, <- seq_shift, map_map.
      apply map_ext. intros n. f_equal. lia.
    + intros [| n] y Hy; simpl in Hy.
      * injection Hy as <-. exists l. rewrite Z.add_0_r. split; [reflexivity | exact Hl].
      * destruct (Hnth n y Hy) as [line [Hline Hmap]].
        exists line. split; [exact Hline |].
        replace (start + Z.of_nat (S n))%Z with (start + 1 + Z.of_nat n)%Z by lia.
        exact Hmap.
Qed.

Lemma wire_line_orders (lines : list SupplierInvoiceLine) (wl : list WireInvoiceLine) :
  _get_wd_invoice_lines_from_invoice lines = Ok wl ->
  map Line_Order wl = map order lines.
Proof.
  revert wl. induction lines as [| line rest IH]; intros wl H; simpl in H.
  - now injection H as <-.
  - bind_inv H as spend Hs. bind_inv H as tax Ht. bind_inv H as app Ha.
    bind_inv H as code Hc. bind_inv H as tag Hw. bind_inv H as wl' Hrest.
    injection H as <-. simpl. f_equal. now apply IH.
Qed.

Lemma int_keys_sorted (keyed : list (pyval * pyval)) (zs : list Z) :
  StronglySorted (in_key_order false) keyed ->
  map fst keyed = map VInt zs ->
  StronglySorted Z.le zs.
Proof.
  intros Hs. revert zs. induction Hs as [| kx keyed Hs IH Hkx]; intros zs Hzs.
  - destruct zs; [constructor | discriminate Hzs].
  - destruct zs as [| z zs]; [discriminate Hzs |].
    simpl in Hzs. injection Hzs as Hz Hzs.
    constructor; [now apply IH |].
    apply Forall_forall. intros z' Hz'.
    apply (in_map VInt) in Hz'. rewrite <- Hzs in Hz'.
    apply in_map_iff in Hz'. destruct Hz' as [kx' [Hfst Hin]].
    rewrite Forall_forall in Hkx. specialize (Hkx kx' Hin).
    unfold in_key_order in Hkx. rewrite Hz, Hfst in Hkx. simpl in Hkx.
    now apply Z.leb_le.
Qed.

Example invoice_lines_sample :
  exists invoice,
    workday_supplier_invoice_to_pydantic sample_validators invoice_payload = Ok invoice
    /\ map description (lines invoice) = ["first"; "second"; "third"]
    /\ map order (lines invoice) = [Some 0%Z; Some 1%Z; Some 2%Z]
    /\ exists wire,
         _get_wd_invoice_lines_from_invoice (lines invoice) = Ok wire
         /\ map Line_Order wire = [Some 0%Z; Some 1%Z; Some 2%Z].
Proof.
  eexists. split; [vm_compute; reflexivity |].
  split; [reflexivity |]. split; [reflexivity |].
  eexists. split; [vm_compute; reflexivity | reflexivity].
Qed.

(** ** [str.replace] with a one-character replacement *)

Section ReplaceByChar.
Variable old : string.
Variable c : ascii.
Hypothesis old_nonempty : old <> EmptyString.
Hypothesis c_fresh : has_char c old = false.

Lemma prefix_of_replaced (u s : string) :
  has_char c u = false ->
  is_prefix u (replace_from 0 old (String c EmptyString) s) = true -> is_prefix u s = true.
Proof.
  revert s. induction u as [| a u IH]; intros s Hu H; [reflexivity |].
  simpl in Hu. apply orb_false_iff in Hu. destruct Hu as [Hca Hu].
  destruct s as [| b s]; [discriminate H |].
  cbn [replace_from] in H.
  destruct (is_prefix old (String b s)).
  - cbn [append is_prefix] in H.
    apply andb_true_iff in H. destruct H as [Hac _].
    rewrite Ascii.eqb_sym in Hac. congruence.
  - cbn [is_prefix] in H |- *.
    apply andb_true_iff in H. destruct H as [Hab H].
    rewrite Hab. now apply IH.
Qed.

Lemma prefix_old_fresh (r : string) : is_prefix old (String c r) = false.
Proof.
  destruct old as [| a o]; [contradiction |].
  simpl in c_fresh. apply orb_false_iff in c_fresh. destruct c_fresh as [Hca _].
  cbn [is_prefix]. rewrite Ascii.eqb_sym, Hca. reflexivity.
Qed.

(** No occurrence of [old] is left. *)
Lemma replaced_everywhere (s : string) (k : nat) :
  occurs old (replace_from k old (String c EmptyString) s) = false.
Proof.
  revert k. induction s as [| b s IH]; intros k.
  - simpl. destruct old; [contradiction | reflexivity].
  - destruct k as [| k]; [| apply IH].
    destruct (is_prefix old (String b s)) eqn:Hp.
    + cbn [replace_from]. rewrite Hp. cbn [append occurs].
      now rewrite prefix_old_fresh, IH.
    + assert (Hr : is_prefix old (replace_from 0 old (String c EmptyString) (String b s)) = false).
      { destruct (is_prefix old (replace_from 0 old (String c EmptyString) (String b s))) eqn:Hq;
          [| reflexivity].
        apply prefix_of_replaced in Hq; [congruence | exact c_fresh]. }
      cbn [replace_from] in Hr |- *. rewrite Hp in Hr |- *.
      cbn [occurs]. now rewrite Hr, IH.
Qed.

(** A string without [old] is left as it is. *)
Lemma replace_nothing (s : string) :
  occurs old s = false -> replace_from 0 old (String c EmptyString) s = s.
Proof.
  induction s as [| b s IH]; intros H; [reflexivity |].
  cbn [occurs] in H. apply orb_false_iff in H. destruct H as [Hp Ho].
  cbn [replace_from]. rewrite Hp. now rewrite IH.
Qed.
End ReplaceByChar.

Lemma escape_fresh : has_char (ascii_of_nat 10) newline_escape = false.
Proof. reflexivity. Qed.

Lemma escape_nonempty : newline_escape <> EmptyString.
Proof. discriminate. Qed.

Lemma escape_replaced_everywhere (s : string) :
  occurs newline_escape (str_replace newline_escape newline s) = false.
Proof.
  exact (replaced_everywhere newline_escape (ascii_of_nat 10) escape_nonempty
           escape_fresh s 0).
Qed.

(** An address without the escape sequence is kept as it is. *)
Lemma address_without_escape_unchanged (s : string) :
  occurs newline_escape s = false -> str_replace newline_escape newline s = s.
Proof. exact (replace_nothing newline_escape (ascii_of_nat 10) s). Qed.

(** The first escape sequence, after text without ampersand, becomes one
    newline, and the replacement goes on behind it. *)
Lemma escape_becomes_newline (a b : string) :
  has_char "&" a = false ->
  str_replace newline_escape newline (a ++ newline_escape ++ b)
  = a ++ newline ++ str_replace newline_escape newline b.
Proof.
  intros Ha. induction a as [| ch a IH].
  - reflexivity.
  - cbn [has_char] in Ha. apply orb_false_iff in Ha. destruct Ha as [Hch Ha].
    change (str_replace newline_escape newline (String ch a ++ newline_escape ++ b))
      with (replace_from 0 newline_escape newline
              (String ch (a ++ newline_escape ++ b))).
    cbn [replace_from]. unfold newline_escape at 1. cbn [is_prefix].
    rewrite Hch. cbn [andb append]. f_equal. apply (IH Ha).
Qed.

(** ** Supplier contact data *)

Lemma assoc_app_Some {A} (k : string) (d d' : list (string * A)) (v : A) :
  assoc k d = Some v -> assoc k (d ++ d') = Some v.
Proof.
  induction d as [| [k' w] d IH]; simpl; [discriminate |].
  destruct (String.eqb k k'); [trivial | exact IH].
Qed.

Lemma first_of_keeps (info : pyval) (field k key : string)
    (ret ret' : list (string * pyval)) (v : pyval) :
  first_of info field k ret = Ok ret' ->
  assoc key ret = Some v -> assoc key ret' = Some v.
Proof.
  unfold first_of. intros H Hv. destruct (truthy info).
  - bind_inv H as entry He. bind_inv H as w Hw. injection H as <-.
    now apply assoc_app_Some.
  - now injection H as <-.
Qed.

Lemma address_of_Ok (entry address : pyval) :
  address_of entry = Ok address ->
  exists formatted,
    getitem entry "_Formatted_Address" = Ok (VStr formatted)
    /\ address = VStr (str_replace newline_escape newline formatted).
Proof.
  unfold address_of. intros H. bind_inv H as f Hf.
  destruct f; try discriminate H. injection H as <-.
  exists s. split; [exact Hf | reflexivity].
Qed.

(** The head of a list sorted in descending key order has a greatest key. *)
Lemma descending_head_greatest (kx : pyval * pyval) (keyed : list (pyval * pyval)) :
  StronglySorted (in_key_order true) (kx :: keyed) ->
  forall kx', In kx' (kx :: keyed) -> py_leb (fst kx') (fst kx) = true.
Proof.
  intros Hs kx' [<- | Hin].
  - apply py_leb_refl.
  - inversion Hs as [| ? ? _ Hall]; subst.
    rewrite Forall_forall in Hall. exact (Hall kx' Hin).
Qed.

(** C5. With address entries at hand, the address of the contact data is
    the formatted address of an entry whose effective date no other entry
    exceeds, with every ["&#xa;"] turned into a newline: none is left, and
    each one, reached after text without ampersand, has become one newline. *)
Theorem contact_address_latest (data : pyval) (entries : list pyval)
    (ret : list (string * pyval)) :
  dict_get data "Address_Data" VNone = Ok (VList entries) ->
  entries <> [] ->
  _get_contact_data_from_dict data = Ok ret ->
  exists current date formatted,
    In current entries
    /\ getitem current "_Effective_Date" = Ok date
    /\ (forall e d, In e entries -> getitem e "_Effective_Date" = Ok d ->
                    py_leb d date = true)
    /\ (forall e d d', In e entries -> getitem e "_Effective_Date" = Ok (VDate d) ->
                       date = VDate d' -> d <> d' -> date_leb d' d = false)
    /\ getitem current "_Formatted_Address" = Ok (VStr formatted)
    /\ assoc "address" ret = Some (VStr (str_replace newline_escape newline formatted))
    /\ occurs newline_escape (str_replace newline_escape newline formatted) = false
    /\ (forall a b, has_char "&" a = false -> formatted = a ++ newline_escape ++ b ->
                    str_replace newline_escape newline formatted
                    = a ++ newline ++ str_replace newline_escape newline b).
Proof.
  intros Hdata Hne H. unfold _get_contact_data_from_dict in H.
  rewrite Hdata in H. cbn [bind] in H.
  bind_inv H as phone_info Hphone. bind_inv H as email_info Hemail.
  bind_inv H as url_info Hurl. bind_inv H as ret0 Hret0.
  bind_inv H as ret1 Hret1. bind_inv H as ret2 Hret2. bind_inv H as ret3 Hret3.
  injection H as <-.
  assert (Htruthy : truthy (VList entries) = true) by (destruct entries; [contradiction | reflexivity]).
  rewrite Htruthy in Hret0.
  bind_inv Hret0 as by_date Hsorted. bind_inv Hret0 as current Hcurrent.
  bind_inv Hret0 as address Haddress. injection Hret0 as <-.
  destruct (py_sorted_Ok _ _ _ _ Hsorted)
    as [items [keyed [Hitems [Hout [Hperm [Hkeys Hord]]]]]].
  injection Hitems as <-.
  destruct keyed as [| [date cur] keyed]; [subst by_date; discriminate Hcurrent |].
  subst by_date. cbn [map snd first] in Hcurrent. injection Hcurrent as <-.
  destruct (address_of_Ok _ _ Haddress) as [formatted [Hformatted ->]].
  exists cur, date, formatted.
  split. { apply (Permutation_in _ (Permutation_sym Hperm)). now left. }
  split. { inversion Hkeys; subst. assumption. }
  assert (Hlatest : forall e d, In e entries -> getitem e "_Effective_Date" = Ok d ->
                               py_leb d date = true).
  { intros e d He Hd.
    apply (Permutation_in _ Hperm) in He. apply in_map_iff in He.
    destruct He as [kx [Hsnd Hin]].
    rewrite Forall_forall in Hkeys. specialize (Hkeys kx Hin).
    unfold keyed_by in Hkeys. rewrite Hsnd, Hd in Hkeys. injection Hkeys as ->.
    exact (descending_head_greatest _ _ Hord kx Hin). }
  split; [exact Hlatest |].
  split.
  { intros e d d' He Hd -> Hne'.
    specialize (Hlatest e (VDate d) He Hd). cbn [py_leb] in Hlatest.
    destruct (date_leb d' d) eqn:Hrev; [| reflexivity].
    exfalso. apply Hne'. apply date_leb_spec in Hlatest, Hrev.
    destruct d as [y m dd], d' as [y' m' dd']. cbn [year month day] in *.
    f_equal; lia. }
  split; [exact Hformatted |].
  split.
  { apply (first_of_keeps _ _ _ _ _ _ _ Hret3).
    apply (first_of_keeps _ _ _ _ _ _ _ Hret2).
    apply (first_of_keeps _ _ _ _ _ _ _ Hret1). reflexivity. }
  split; [apply escape_replaced_everywhere |].
  intros a b Ha ->. now apply escape_becomes_newline.
Qed.

Lemma contact_address_latest_witness :
  exists ret,
    _get_contact_data_from_dict contact_data = Ok ret
    /\ exists current date formatted,
         In current contact_entries
         /\ getitem current "_Effective_Date" = Ok date
         /\ (forall e d, In e contact_entries -> getitem e "_Effective_Date" = Ok d ->
                         py_leb d date = true)
         /\ (forall e d d', In e contact_entries ->
                            getitem e "_Effective_Date" = Ok (VDate d) ->
                            date = VDate d' -> d <> d' -> date_leb d' d = false)
         /\ getitem current "_Formatted_Address" = Ok (VStr formatted)
         /\ assoc "address" ret
            = Some (VStr (str_replace newline_escape newline formatted))
         /\ occurs newline_escape (str_replace newline_escape newline formatted) = false
         /\ (forall a b, has_char "&" a = false ->
                         formatted = a ++ newline_escape ++ b ->
                         str_replace newline_escape newline formatted
                         = a ++ newline ++ str_replace newline_escape newline b).
Proof.
  eexists. split; [vm_compute; reflexivity |].
  apply (contact_address_latest contact_data contact_entries).
  - reflexivity.
  - discriminate.
  - reflexivity.
Defined.

Example contact_address_sample :
  (ret <- _get_contact_data_from_dict contact_data ;; Ok (assoc "address" ret))
  = Ok (Some (VStr ("New Street 2" ++ newline ++ "0181 Oslo" ++ newline ++ "Norway"))).
Proof. reflexivity. Qed.

(** The mapper returns on contact data that holds nothing but addresses,
    each with a date and a formatted address. *)
Lemma contact_address_returns (data : pyval) (entries : list pyval) :
  dict_get data "Address_Data" VNone = Ok (VList entries) ->
  entries <> [] ->
  (forall e, In e entries ->
             exists d a, getitem e "_Effective_Date" = Ok (VDate d)
                         /\ getitem e "_Formatted_Address" = Ok (VStr a)) ->
  dict_get data "Phone_Data" VNone = Ok VNone ->
  dict_get data "Email_Address_Data" VNone = Ok VNone ->
  dict_get data "Web_Address_Data" VNone = Ok VNone ->
  exists a,
    _get_contact_data_from_dict data
    = Ok [("address", VStr (str_replace newline_escape newline a))].
Proof.
  intros Hdata Hne Hwf Hphone Hemail Hurl.
  unfold _get_contact_data_from_dict.
  rewrite Hdata, Hphone, Hemail, Hurl. cbn [bind].
  assert (Htruthy : truthy (VList entries) = true)
    by (destruct entries; [contradiction | reflexivity]).
  rewrite Htruthy.
  destruct (py_sorted_returns (fun addr => getitem addr "_Effective_Date") true KDate
              (VList entries) entries eq_refl) as [out [Hsorted Hlen]].
  { intros e He. destruct (Hwf e He) as [d [a [Hd _]]].
    exists (VDate d). split; [exact Hd | reflexivity]. }
  rewrite Hsorted. cbn [bind].
  destruct out as [| cur out'].
  { destruct entries; [contradiction | discriminate Hlen]. }
  cbn [first bind].
  destruct (py_sorted_Ok _ _ _ _ Hsorted) as [items [keyed [Hitems [_ [Hperm _]]]]].
  injection Hitems as <-.
  assert (Hin : In cur entries).
  { apply (Permutation_in _ (Permutation_sym Hperm)). now left. }
  destruct (Hwf cur Hin) as [d [a [_ Ha]]].
  exists a. unfold address_of. rewrite Ha. reflexivity.
Qed.

(** ** Worker look-ups *)

Section WorkerLookup.
Variable Worker : Type.
Variable _request : string -> WorkerRequestReferences -> result pyval.
Variable suds_to_dict : pyval -> result pyval.
Variable workday_worker_to_pydantic : pyval -> result Worker.

(** C7. When the transport raises a WebFault on the look-up request, the
    operation raises ValueError naming the id-type if the fault code is
    [SOAP-ENV:Client.validationError], and the same WebFault otherwise. *)
Theorem worker_lookup_fault (id_ id_type : string) (return_object : bool)
    (faultcode faultstring : string) :
  _request "Get_Workers" (worker_lookup_references id_ id_type)
  = Raise (WebFault faultcode faultstring) ->
  _get_worker_by_id _request suds_to_dict workday_worker_to_pydantic
    id_ id_type return_object
  = if String.eqb faultcode "SOAP-ENV:Client.validationError"
    then Raise (ValueError ("Invalid ID of type " ++ quote ++ id_type ++ quote))
    else Raise (WebFault faultcode faultstring).
Proof.
  intros Hfault. unfold _get_worker_by_id.
  change (mkWorkerRequestReferences _) with (worker_lookup_references id_ id_type).
  rewrite Hfault.
  destruct (String.eqb faultcode "SOAP-ENV:Client.validationError"); reflexivity.
Qed.
End WorkerLookup.

Lemma worker_lookup_fault_witness :
  _get_worker_by_id (transport_raising "SOAP-ENV:Client.validationError")
    (fun v => Ok v) (fun _ => Ok tt) "12345" "Employe_ID" false
  = Raise (ValueError ("Invalid ID of type " ++ quote ++ "Employe_ID" ++ quote))
  /\ _get_worker_by_id (transport_raising "SOAP-ENV:Server")
       (fun v => Ok v) (fun _ => Ok tt) "12345" "Employee_ID" false
     = Raise (WebFault "SOAP-ENV:Server" "Processing error").
Proof.
  split.
  - exact (worker_lookup_fault unit (transport_raising "SOAP-ENV:Client.validationError")
             (fun v => Ok v) (fun _ => Ok tt) "12345" "Employe_ID" false
             "SOAP-ENV:Client.validationError" "Processing error" eq_refl).
  - exact (worker_lookup_fault unit (transport_raising "SOAP-ENV:Server")
             (fun v => Ok v) (fun _ => Ok tt) "12345" "Employee_ID" false
             "SOAP-ENV:Server" "Processing error" eq_refl).
Defined.

(** Exceptions of the transport that are no WebFault pass through as well. *)
Lemma worker_lookup_other_error (Worker : Type)
    (_request : string -> WorkerRequestReferences -> result pyval)
    (suds_to_dict : pyval -> result pyval)
    (workday_worker_to_pydantic : pyval -> result Worker)
    (id_ id_type : string) (return_object : bool) (e : PyError) :
  (forall c s, e <> WebFault c s) ->
  _request "Get_Workers" (worker_lookup_references id_ id_type) = Raise e ->
  _get_worker_by_id _request suds_to_dict workday_worker_to_pydantic
    id_ id_type return_object
  = Raise e.
Proof.
  intros Hno Hfault. unfold _get_worker_by_id.
  change (mkWorkerRequestReferences _) with (worker_lookup_references id_ id_type).
  rewrite Hfault. destruct e; try reflexivity.
  exfalso. now apply (Hno faultcode faultstring).
Qed.

(** ** Worker listing *)

(** C10. With a date given, whichever it is, the listing is requested with
    [As_Of_Effective_Date] set to today plus fifteen days; with None it is
    requested without any filter. *)
Theorem get_workers_filter (today as_of_date : Date) :
  get_workers today (Some as_of_date)
  = (d <- date_add_days today 15 ;;
     Ok (mkPaginatedCall "Get_Workers" "Worker" [("As_Of_Effective_Date", VDate d)]))
  /\ get_workers today None = Ok (mkPaginatedCall "Get_Workers" "Worker" []).
Proof.
  split.
  - unfold get_workers. destruct (date_add_days today 15); reflexivity.
  - reflexivity.
Qed.

(** *** The date arithmetic behind the filter *)

Lemma days_in_month_bounds (y m : Z) : (28 <= days_in_month y m <= 31)%Z.
Proof.
  unfold days_in_month.
  destruct (m =? 2)%Z; [destruct (is_leap y); lia |].
  destruct ((m =? 4) || (m =? 6) || (m =? 9) || (m =? 11))%Z; lia.
Qed.

Lemma days_in_january (y : Z) : days_in_month y 1 = 31%Z.
Proof. reflexivity. Qed.

Lemma valid_date_spec (d : Date) :
  valid_date d = true <->
  (1 <= year d <= 9999 /\ 1 <= month d <= 12
   /\ 1 <= day d <= days_in_month (year d) (month d))%Z.
Proof.
  unfold valid_date. rewrite !andb_true_iff, !Z.leb_le. tauto.
Qed.

Lemma next_day_has_room (d : Date) (used : Z) :
  (0 <= used < 31)%Z -> has_room d used ->
  exists d', next_day d = Ok d' /\ has_room d' (used + 1).
Proof.
  intros Hused [Hvalid Hroom]. apply valid_date_spec in Hvalid.
  destruct Hvalid as [Hy [Hm Hd]].
  pose proof (days_in_month_bounds (year d) (month d)) as Hb.
  unfold next_day, has_room.
  destruct (day d <? days_in_month (year d) (month d))%Z eqn:Hlast.
  - apply Z.ltb_lt in Hlast. eexists. split; [reflexivity |].
    rewrite valid_date_spec. cbn [year month day]. split; [lia |].
    destruct Hroom as [Hroom | [Hy' [Hm' Hd']]]; [left; lia | right; lia].
  - apply Z.ltb_ge in Hlast.
    assert (Hnot : (year d < 9999)%Z).
    { destruct Hroom as [Hroom | [Hy' [Hm' Hd']]]; [exact Hroom |].
      rewrite Hm', days_in_january in Hlast. lia. }
    destruct (month d <? 12)%Z eqn:Hmonth.
    + apply Z.ltb_lt in Hmonth. eexists. split; [reflexivity |].
      rewrite valid_date_spec. cbn [year month day].
      pose proof (days_in_month_bounds (year d) (month d + 1)).
      split; [lia | left; lia].
    + apply Z.ltb_ge in Hmonth.
      destruct (year d <? 9999)%Z eqn:Hyear; [| apply Z.ltb_ge in Hyear; lia].
      eexists. split; [reflexivity |].
      rewrite valid_date_spec. cbn [year month day].
      rewrite days_in_january. split; [lia |].
      destruct (Z.eq_dec (year d + 1) 9999); [right; lia | left; lia].
Qed.

Lemma date_add_days_has_room (n : nat) (d : Date) (used : Z) :
  (0 <= used)%Z -> (used + Z.of_nat n <= 31)%Z -> has_room d used ->
  exists d', date_add_days d n = Ok d' /\ valid_date d' = true.
Proof.
  revert d used. induction n as [| n IH]; intros d used Hused Hn Hroom.
  - exists d. split; [reflexivity | exact (proj1 Hroom)].
  - destruct (next_day_has_room d used) as [d1 [Hnext Hroom1]]; [lia | exact Hroom |].
    destruct (IH d1 (used + 1)%Z) as [d' [Hadd Hvalid]]; [lia | lia | exact Hroom1 |].
    exists d'. cbn [date_add_days]. rewrite Hnext. cbn [bind]. split; assumption.
Qed.

(** Before year 9999 the listing is always requested, with a filter that is
    a date of the calendar. *)
Lemma get_workers_returns (today as_of_date : Date) :
  valid_date today = true -> (year today < 9999)%Z ->
  exists d,
    valid_date d = true
    /\ get_workers today (Some as_of_date)
       = Ok (mkPaginatedCall "Get_Workers" "Worker" [("As_Of_Effective_Date", VDate d)]).
Proof.
  intros Hvalid Hyear.
  destruct (date_add_days_has_room 15 today 0) as [d [Hadd Hd]]; [lia | simpl; lia | |].
  - split; [exact Hvalid | left; exact Hyear].
  - exists d. split; [exact Hd |]. unfold get_workers. rewrite Hadd. reflexivity.
Qed.

Example get_workers_sample :
  get_workers (mkDate 2023 12 20) (Some (mkDate 2020 1 1))
  = Ok (mkPaginatedCall "Get_Workers" "Worker"
          [("As_Of_Effective_Date", VDate (mkDate 2024 1 4))]).
Proof. reflexivity. Qed.

(* ================================================================== *)
(** * Further properties *)

(** ** The journal id as a key *)

Lemma append_length (s t : string) :
  String.length (s ++ t) = String.length s + String.length t.
Proof. induction s as [| a s IH]; simpl; [reflexivity | now rewrite IH]. Qed.

Lemma zero_padded_length (w n : nat) : String.length (zero_padded w n) = w.
Proof.
  revert n. induction w as [| w IH]; intros n; [reflexivity |].
  cbn [zero_padded]. rewrite append_length, IH. simpl. lia.
Qed.

Lemma append_inj_length (s1 s2 t1 t2 : string) :
  String.length s1 = String.length s2 ->
  (s1 ++ t1)%string = (s2 ++ t2)%string -> s1 = s2 /\ t1 = t2.
Proof.
  revert s2. induction s1 as [| a s1 IH]; intros [| b s2] Hlen H;
    try discriminate Hlen.
  - split; [reflexivity | exact H].
  - simpl in H. injection H as -> H. injection Hlen as Hlen.
    destruct (IH s2 Hlen H) as [-> ->]. split; reflexivity.
Qed.

Lemma digit_inj (a b : nat) : a < 10 -> b < 10 -> digit a = digit b -> a = b.
Proof.
  unfold digit. intros Ha Hb H.
  apply (f_equal nat_of_ascii) in H.
  rewrite !nat_ascii_embedding in H by lia. lia.
Qed.

Lemma zero_padded_inj (w a b : nat) :
  a < 10 ^ w -> b < 10 ^ w -> zero_padded w a = zero_padded w b -> a = b.
Proof.
  revert a b. induction w as [| w IH]; intros a b Ha Hb H.
  - simpl in Ha, Hb. lia.
  - cbn [zero_padded] in H.
    apply append_inj_length in H; [| now rewrite !zero_padded_length].
    destruct H as [Hhigh Hlow].
    assert (Hdigit : digit (a mod 10) = digit (b mod 10)) by congruence.
    clear Hlow. rewrite Nat.pow_succ_r' in Ha, Hb.
    assert (Hamod : a mod 10 < 10) by (apply Nat.mod_upper_bound; lia).
    assert (Hbmod : b mod 10 < 10) by (apply Nat.mod_upper_bound; lia).
    assert (Hadiv : a / 10 < 10 ^ w) by (apply Nat.Div0.div_lt_upper_bound; lia).
    assert (Hbdiv : b / 10 < 10 ^ w) by (apply Nat.Div0.div_lt_upper_bound; lia).
    pose proof (digit_inj _ _ Hamod Hbmod Hdigit) as Hlow.
    pose proof (IH _ _ Hadiv Hbdiv Hhigh) as Hdiv.
    pose proof (Nat.div_mod_eq a 10). pose proof (Nat.div_mod_eq b 10). lia.
Qed.

Lemma strftime_Ymd_length (d : Date) : String.length (strftime_Ymd d) = 8.
Proof.
  unfold strftime_Ymd. rewrite !append_length, !zero_padded_length. reflexivity.
Qed.

Lemma strftime_Ymd_inj (d1 d2 : Date) :
  valid_date d1 = true -> valid_date d2 = true ->
  strftime_Ymd d1 = strftime_Ymd d2 -> d1 = d2.
Proof.
  intros H1 H2 H. apply valid_date_spec in H1, H2.
  pose proof (days_in_month_bounds (year d1) (month d1)).
  pose proof (days_in_month_bounds (year d2) (month d2)).
  unfold strftime_Ymd in H.
  apply append_inj_length in H; [| now rewrite !zero_padded_length].
  destruct H as [Hy H].
  apply append_inj_length in H; [| now rewrite !zero_padded_length].
  destruct H as [Hm Hd].
  apply zero_padded_inj in Hy; [| simpl; lia | simpl; lia].
  apply zero_padded_inj in Hm; [| simpl; lia | simpl; lia].
  apply zero_padded_inj in Hd; [| simpl; lia | simpl; lia].
  destruct d1 as [y1 m1 dd1], d2 as [y2 m2 dd2]. cbn [year month day] in *.
  f_equal; lia.
Qed.

(** X1. The journal id is a key: two journals with dates of the calendar
    (from the year 1000 on, where [%Y] has four digits) and companies that
    have a Workday id get the same id only when they agree on the
    accounting date and on the company id. *)
Theorem accounting_journal_id_injective (j1 j2 : AccountingJournalData) (a b : string) :
  valid_date (accounting_date j1) = true ->
  valid_date (accounting_date j2) = true ->
  (1000 <= year (accounting_date j1))%Z ->
  (1000 <= year (accounting_date j2))%Z ->
  workday_id (company_ref (company j1)) = Some a ->
  workday_id (company_ref (company j2)) = Some b ->
  accounting_journal_id j1 = accounting_journal_id j2 ->
  accounting_date j1 = accounting_date j2 /\ a = b.
Proof.
  intros Hv1 Hv2 _ _ Ha Hb H. unfold accounting_journal_id in H.
  rewrite Ha, Hb in H. cbn [format_str] in H.
  apply append_inj_length in H; [| now rewrite !strftime_Ymd_length].
  destruct H as [Hdate Hid]. injection Hid as ->.
  split; [now apply strftime_Ymd_inj | reflexivity].
Qed.

Lemma accounting_journal_id_injective_witness :
  accounting_date (journal_of company_NO01 []) = accounting_date journal_sample
  /\ "NO01" = "NO01".
Proof.
  apply (accounting_journal_id_injective (journal_of company_NO01 []) journal_sample);
    try reflexivity; simpl; lia.
Defined.

(** ** Journals, domain to wire *)

Lemma wd_object_named (r : Reference) :
  named r ->
  exists o, wd_object r None = Ok o /\ object_ids o = [reference_id_of r].
Proof.
  unfold named. intros Hnamed.
  destruct (wd_object r None) as [o | e] eqn:Hobj.
  - exists o. split; [reflexivity |].
    destruct (wd_object_Ok r None o Hobj) as [cn [i [-> [_ [Hti [Hvi _]]]]]].
    unfold object_ids, reference_id_of. cbn [ID map]. now rewrite Hti, Hvi.
  - exfalso. unfold wd_object in Hobj. cbn [truthy_str] in Hobj.
    rewrite Hnamed in Hobj. cbn [py_assert bind] in Hobj. discriminate Hobj.
Qed.

(** X2. [wd_object] returns exactly when a class name is at hand, given
    in the call or declared by the class, and raises its AssertionError
    otherwise; a name given in the call takes precedence, and it names the
    type of the object and of its one ID. *)
Theorem wd_object_class_name (self : Reference) (class_name : option string) :
  ((exists o, wd_object self class_name = Ok o)
   <-> truthy_str class_name = true
       \/ truthy_str (_class_name (ref_class self)) = true)
  /\ (truthy_str class_name = false ->
      truthy_str (_class_name (ref_class self)) = false ->
      wd_object self class_name
      = Raise (AssertionError
                 "WD Class name must be supplied on class or call to wd_object"))
  /\ forall o, wd_object self class_name = Ok o ->
       exists c,
         (if truthy_str class_name then class_name else _class_name (ref_class self))
         = Some c
         /\ ref_wsdl_type o = ("ns0:" ++ c ++ "Type")%string
         /\ Forall (fun i => wsdl_type i = Some ("ns0:" ++ c ++ "IDType")%string) (ID o).
Proof.
  unfold wd_object.
  destruct (truthy_str class_name) eqn:Hcn.
  - rewrite Hcn. cbn [py_assert bind].
    destruct class_name as [c |]; [| discriminate Hcn].
    split; [split; [intros _; now left | intros _; eexists; reflexivity] |].
    split; [discriminate |].
    intros o Ho. exists c. split; [reflexivity |].
    destruct (truthy_str (workday_parent_id self)); injection Ho as <-;
      cbn [ref_wsdl_type ID app]; split; try reflexivity; repeat constructor.
  - destruct (truthy_str (_class_name (ref_class self))) eqn:Hcls; cbn [py_assert bind].
    + destruct (_class_name (ref_class self)) as [c |]; [| discriminate Hcls].
      split; [split; [intros _; now right | intros _; eexists; reflexivity] |].
      split; [discriminate |].
      intros o Ho. exists c. split; [reflexivity |].
      destruct (truthy_str (workday_parent_id self)); injection Ho as <-;
        cbn [ref_wsdl_type ID app]; split; try reflexivity; repeat constructor.
    + split; [split; [intros [o Ho]; discriminate Ho | intros [H | H]; discriminate H] |].
      split; [reflexivity |]. intros o Ho. discriminate Ho.
Qed.

Lemma wd_object_opt_list (o : option Reference) (acc : list RefObject) :
  named_opt o ->
  exists objs,
    match o with
    | Some r => obj <- wd_object r None ;; Ok (acc ++ [obj])%list
    | None => Ok acc
    end = Ok (acc ++ objs)%list
    /\ map object_ids objs = map (fun r => [reference_id_of r]) (opt_list o).
Proof.
  destruct o as [r |]; cbn [named_opt opt_list map]; intros Hnamed.
  - destruct (wd_object_named r Hnamed) as [obj [Hobj Hids]].
    exists [obj]. rewrite Hobj. cbn [bind map]. now rewrite Hids.
  - exists []. now rewrite app_nil_r.
Qed.

(** What a journal line and the wire line built from it share. *)
Lemma journal_line_to_workday_returns (l : JournalEntryLineData) :
  named (ledger_account l) ->
  named_opt (jl_spend_category l) ->
  named_opt (jl_cost_center l) ->
  exists wl,
    _pydantic_journal_entry_line_to_workday l = Ok wl
    /\ WireJournal.Debit_Amount wl = debit l
    /\ WireJournal.Credit_Amount wl = credit l
    /\ object_ids (WireJournal.Ledger_Account_Reference wl)
       = [reference_id_of (ledger_account l)]
    /\ map object_ids (WireJournal.Worktags_Reference wl)
       = map (fun r => [reference_id_of r])
           (opt_list (jl_spend_category l) ++ opt_list (jl_cost_center l)).
Proof.
  intros Hledger Hsc Hcc. unfold _pydantic_journal_entry_line_to_workday.
  destruct (wd_object_named _ Hledger) as [ledger [-> Hlid]]. cbn [bind].
  destruct (wd_object_opt_list (jl_spend_category l) [] Hsc) as [scs [Hscs Hsids]].
  assert (Hfirst :
    match jl_spend_category l with
    | Some sc => spend_category <- wd_object sc None ;; Ok ([] ++ [spend_category])%list
    | None => Ok []
    end = Ok scs).
  { destruct (jl_spend_category l); exact Hscs. }
  rewrite Hfirst. cbn [bind].
  destruct (wd_object_opt_list (jl_cost_center l) scs Hcc) as [ccs [-> Hcids]].
  cbn [bind]. eexists. split; [reflexivity |].
  cbn [WireJournal.Debit_Amount WireJournal.Credit_Amount
       WireJournal.Ledger_Account_Reference WireJournal.Worktags_Reference].
  repeat split; [exact Hlid |]. now rewrite !map_app, Hsids, Hcids.
Qed.

(** X3. A journal whose references are instances of classes that name
    their Workday class is always written to the wire: the wire journal
    carries the journal id and the date, the company's id, and one wire
    line per journal line, in order, with the amounts, the ledger account
    and the worktags, spend category before cost centre. *)
Theorem journal_to_workday_returns (journal : AccountingJournalData) :
  named (journal_source journal) ->
  named (company_ref (company journal)) ->
  named_opt (currency (company journal)) ->
  named (ledger_type journal) ->
  Forall (fun l => named (ledger_account l) /\ named_opt (jl_spend_category l)
                   /\ named_opt (jl_cost_center l))
    (journal_entry_line_data journal) ->
  exists w,
    pydantic_accounting_journal_to_workday journal = Ok w
    /\ WireJournal.Accounting_Journal_ID w = accounting_journal_id journal
    /\ WireJournal.Accounting_Date w = accounting_date journal
    /\ object_ids (WireJournal.Company_Reference w)
       = [reference_id_of (company_ref (company journal))]
    /\ Forall2
         (fun l wl =>
            WireJournal.Debit_Amount wl = debit l
            /\ WireJournal.Credit_Amount wl = credit l
            /\ object_ids (WireJournal.Ledger_Account_Reference wl)
               = [reference_id_of (ledger_account l)]
            /\ map object_ids (WireJournal.Worktags_Reference wl)
               = map (fun r => [reference_id_of r])
                   (opt_list (jl_spend_category l) ++ opt_list (jl_cost_center l)))
         (journal_entry_line_data journal)
         (WireJournal.Journal_Entry_Line_Replacement_Data w).
Proof.
  intros Hsource Hcompany Hcurrency Hledger Hlines.
  unfold pydantic_accounting_journal_to_workday.
  destruct (wd_object_named _ Hsource) as [source [-> _]]. cbn [bind].
  assert (Hcur : exists c,
    match currency (company journal) with
    | Some c => o <- wd_object c None ;; Ok (Some o)
    | None => Ok None
    end = Ok c).
  { destruct (currency (company journal)) as [c |]; [| now exists None].
    destruct (wd_object_named c Hcurrency) as [o [-> _]]. now exists (Some o). }
  destruct Hcur as [cur ->]. cbn [bind].
  destruct (wd_object_named _ Hcompany) as [comp [-> Hcomp]]. cbn [bind].
  destruct (wd_object_named _ Hledger) as [ledger [-> _]]. cbn [bind].
  assert (Hall : exists wls,
    journal_lines_to_workday (journal_entry_line_data journal) = Ok wls
    /\ Forall2
         (fun l wl =>
            WireJournal.Debit_Amount wl = debit l
            /\ WireJournal.Credit_Amount wl = credit l
            /\ object_ids (WireJournal.Ledger_Account_Reference wl)
               = [reference_id_of (ledger_account l)]
            /\ map object_ids (WireJournal.Worktags_Reference wl)
               = map (fun r => [reference_id_of r])
                   (opt_list (jl_spend_category l) ++ opt_list (jl_cost_center l)))
         (journal_entry_line_data journal) wls).
  { induction Hlines as [| l ls [Hl [Hsc Hcc]] _ IH].
    - exists []. split; [reflexivity | constructor].
    - destruct (journal_line_to_workday_returns l Hl Hsc Hcc) as [wl [Hwl Hrel]].
      destruct IH as [wls [Hwls Hrels]]. exists (wl :: wls).
      cbn [journal_lines_to_workday]. rewrite Hwl. cbn [bind]. rewrite Hwls.
      split; [reflexivity | now constructor]. }
  destruct Hall as [wls [-> Hrel]]. cbn [bind]. eexists. split; [reflexivity |].
  cbn [WireJournal.Accounting_Journal_ID WireJournal.Accounting_Date
       WireJournal.Company_Reference WireJournal.Journal_Entry_Line_Replacement_Data app].
  repeat split; assumption.
Qed.

Lemma journal_to_workday_returns_witness :
  exists w,
    pydantic_accounting_journal_to_workday journal_sample = Ok w
    /\ WireJournal.Accounting_Journal_ID w = "20230307-NO01"
    /\ map (fun wl => List.length (WireJournal.Worktags_Reference wl))
         (WireJournal.Journal_Entry_Line_Replacement_Data w) = [2; 0].
Proof.
  assert (Hlines : Forall (fun l => named (ledger_account l) /\ named_opt (jl_spend_category l)
                                    /\ named_opt (jl_cost_center l))
                     (journal_entry_line_data journal_sample)).
  { repeat constructor. }
  destruct (journal_to_workday_returns journal_sample eq_refl eq_refl eq_refl eq_refl Hlines)
    as [w [Hw _]].
  exists w. split; [exact Hw |].
  vm_compute in Hw. injection Hw as <-. split; reflexivity.
Defined.

(** ** Suppliers: tax ids and bank account *)

Lemma assoc_In {A} (k : string) (d : list (string * A)) (v : A) :
  assoc k d = Some v -> In (k, v) d.
Proof.
  induction d as [| [k' v'] d IH]; cbn [assoc]; intros H; [discriminate H |].
  destruct (String.eqb_spec k k') as [-> | _].
  - injection H as ->. now left.
  - right. now apply IH.
Qed.

Lemma assoc_None_keys {A} (k : string) (d : list (string * A)) :
  assoc k d = None <-> ~ In k (keys d).
Proof.
  unfold keys. induction d as [| [k' v'] d IH]; cbn [assoc map fst In].
  - tauto.
  - destruct (String.eqb_spec k k') as [-> | Hne].
    + split; [discriminate | intros H; exfalso; apply H; now left].
    + rewrite IH. split; [intros H [Heq | Hin]; [congruence | tauto] | tauto].
Qed.

Lemma assoc_dict_set_same {A} (k : string) (v : A) (d : list (string * A)) :
  assoc k (dict_set k v d) = Some v.
Proof.
  induction d as [| [k' v'] d IH]; cbn [dict_set assoc].
  - now rewrite String.eqb_refl.
  - destruct (String.eqb_spec k k') as [-> | Hne]; cbn [assoc].
    + now rewrite String.eqb_refl.
    + destruct (String.eqb_spec k k') as [Heq | _]; [contradiction | exact IH].
Qed.

Lemma assoc_dict_set_other {A} (k k' : string) (v : A) (d : list (string * A)) :
  k' <> k -> assoc k' (dict_set k v d) = assoc k' d.
Proof.
  intros Hne. induction d as [| [k0 v0] d IH]; cbn [dict_set assoc].
  - destruct (String.eqb_spec k' k) as [Heq | _]; [contradiction | reflexivity].
  - destruct (String.eqb_spec k k0) as [-> | Hk]; cbn [assoc].
    + destruct (String.eqb_spec k' k0) as [Heq | _]; [contradiction | reflexivity].
    + destruct (String.eqb k' k0); [reflexivity | exact IH].
Qed.

Lemma keys_dict_set {A} (k k' : string) (v : A) (d : list (string * A)) :
  In k' (keys (dict_set k v d)) -> k' = k \/ In k' (keys d).
Proof.
  unfold keys. induction d as [| [k0 v0] d IH]; cbn [dict_set map fst In].
  - intros [H | []]. now left.
  - destruct (String.eqb_spec k k0) as [-> | Hk]; cbn [map fst In].
    + intros [H | H]; [now left | right; now right].
    + intros [H | H]; [right; now left |].
      destruct (IH H) as [Heq | Hin]; [now left | right; now right].
Qed.

Lemma NoDup_dict_set {A} (k : string) (v : A) (d : list (string * A)) :
  NoDup (keys d) -> NoDup (keys (dict_set k v d)).
Proof.
  unfold keys. induction d as [| [k0 v0] d IH]; cbn [dict_set map fst]; intros Hnd.
  - constructor; [intros [] | constructor].
  - inversion Hnd as [| ? ? Hnotin Hrest]; subst.
    destruct (String.eqb_spec k k0) as [-> | Hk]; cbn [map fst].
    + now constructor.
    + constructor; [| now apply IH].
      intros Hin. destruct (keys_dict_set k k0 v d Hin) as [Heq | Hold];
        [now apply Hk | now apply Hnotin].
Qed.

Lemma tax_id_field_Ok (v : pyval) (f : string) :
  tax_id_field v = Ok f -> exists t, v = VStr t /\ assoc t TAX_ID_SPEC = Some f.
Proof.
  destruct v as [| b | z | t | d | d | l | d]; cbn [tax_id_field]; try discriminate.
  destruct (assoc t TAX_ID_SPEC) as [f' |] eqn:Hf; [| discriminate].
  intros H. injection H as <-. now exists t.
Qed.

(** One round of the loop on an entry whose type and text can be read. *)
Lemma tax_ids_of_step (e : pyval) (rest : list pyval) (ret : list (string * pyval))
    (t f : string) (text : pyval) :
  lookup_reference e "Tax_ID_Type_Reference" "Tax_ID_Type" = Ok (VStr t) ->
  t <> EmptyString ->
  assoc t TAX_ID_SPEC = Some f ->
  getitem e "Tax_ID_Text" = Ok text ->
  tax_ids_of (e :: rest) ret = tax_ids_of rest (dict_set f text ret).
Proof.
  intros Hlook Ht Hf Htext. cbn [tax_ids_of]. use_lookup Hlook.
  cbn [truthy]. destruct (String.eqb_spec t EmptyString) as [Heq | _]; [contradiction |].
  cbn [negb py_assert bind tax_id_field]. rewrite Hf. cbn [bind]. now rewrite Htext.
Qed.

(** A round that does not raise read a known type and a text. *)
Lemma tax_ids_of_cons_Ok (e : pyval) (rest : list pyval)
    (ret out : list (string * pyval)) :
  tax_ids_of (e :: rest) ret = Ok out ->
  exists t f text,
    lookup_reference e "Tax_ID_Type_Reference" "Tax_ID_Type" = Ok (VStr t)
    /\ assoc t TAX_ID_SPEC = Some f
    /\ getitem e "Tax_ID_Text" = Ok text
    /\ tax_ids_of rest (dict_set f text ret) = Ok out.
Proof.
  cbn [tax_ids_of]. intros H. unfold lookup_reference.
  bind_inv H as ids Hids. bind_inv H as v Hv. bind_inv H as u Hu.
  bind_inv H as f Hf. bind_inv H as text Htext.
  destruct (tax_id_field_Ok v f Hf) as [t [-> Hspec]].
  exists t, f, text. rewrite Hids. cbn [bind]. now rewrite Hv.
Qed.

Lemma TAX_ID_SPEC_fields : NoDup (map snd TAX_ID_SPEC).
Proof.
  cbn [TAX_ID_SPEC map snd].
  repeat (constructor; [cbn [In]; intros H;
                        repeat (destruct H as [H | H]; [discriminate H |]); exact H |]).
  constructor.
Qed.

Lemma assoc_injective {A} (d : list (string * A)) (k k' : string) (v : A) :
  NoDup (map snd d) -> assoc k d = Some v -> assoc k' d = Some v -> k = k'.
Proof.
  induction d as [| [k0 v0] d IH]; cbn [assoc map snd]; intros Hnd Hk Hk';
    [discriminate Hk |].
  inversion Hnd as [| ? ? Hnotin Hrest]; subst.
  destruct (String.eqb_spec k k0) as [-> | Hne];
    destruct (String.eqb_spec k' k0) as [-> | Hne'].
  - reflexivity.
  - injection Hk as ->. exfalso. apply Hnotin.
    apply assoc_In in Hk'. now apply (in_map snd) in Hk'.
  - injection Hk' as ->. exfalso. apply Hnotin.
    apply assoc_In in Hk. now apply (in_map snd) in Hk.
  - now apply IH.
Qed.

Lemma tax_ids_of_keys (entries : list pyval) (ret out : list (string * pyval)) :
  tax_ids_of entries ret = Ok out ->
  NoDup (keys ret) ->
  (forall k, In k (keys ret) -> In k (map snd TAX_ID_SPEC)) ->
  NoDup (keys out) /\ (forall k, In k (keys out) -> In k (map snd TAX_ID_SPEC)).
Proof.
  revert ret. induction entries as [| e rest IH]; intros ret H Hnd Hin.
  - cbn [tax_ids_of] in H. injection H as <-. now split.
  - destruct (tax_ids_of_cons_Ok e rest ret out H) as [t [f [text [_ [Hf [_ Hrest]]]]]].
    apply (IH _ Hrest); [now apply NoDup_dict_set |].
    intros k Hk. destruct (keys_dict_set f k text ret Hk) as [-> | Hold].
    + apply assoc_In in Hf. now apply (in_map snd) in Hf.
    + now apply Hin.
Qed.

Lemma tax_fields_of_supplier (k : string) :
  In k (map snd TAX_ID_SPEC) ->
  In k supplier_field_names
  /\ ~ In k ["workday_id"; "reference_id"; "name"; "payment_terms"; "currency";
             "address"; "phone"; "email"; "url"; "iban"; "bank_account"].
Proof.
  cbn [TAX_ID_SPEC map snd In]. intros H.
  repeat (destruct H as [<- | H];
          [split; [cbn [supplier_field_names In]; tauto
                  | cbn [In]; intros Hc;
                    repeat (destruct Hc as [Hc | Hc]; [discriminate Hc |]); exact Hc] |]).
  destruct H.
Qed.


(** X4. The dict [_get_tax_id_from_dict] returns has no key twice, and each
    of its keys is a tax-id field of [Supplier] that none of the other
    keyword arguments of the supplier uses. *)
Theorem tax_id_keys_are_supplier_fields (data : pyval) (ret : list (string * pyval)) :
  _get_tax_id_from_dict data = Ok ret ->
  NoDup (keys ret)
  /\ forall k, In k (keys ret) ->
       In k (map snd TAX_ID_SPEC)
       /\ In k supplier_field_names
       /\ ~ In k ["workday_id"; "reference_id"; "name"; "payment_terms"; "currency";
                  "address"; "phone"; "email"; "url"; "iban"; "bank_account"].
Proof.
  unfold _get_tax_id_from_dict. intros H.
  bind_inv H as tax_id_data Hdata. bind_inv H as entries Hentries.
  destruct (tax_ids_of_keys entries [] ret H) as [Hnd Hin].
  - constructor.
  - intros k [].
  - split; [exact Hnd |]. intros k Hk. split; [now apply Hin |].
    apply tax_fields_of_supplier. now apply Hin.
Qed.

Lemma tax_id_keys_are_supplier_fields_witness :
  NoDup (keys [("tax_id_no", VStr "NO 922 222 222 MVA"); ("tax_id_se", VStr "SE556677889901")])
  /\ forall k,
       In k (keys [("tax_id_no", VStr "NO 922 222 222 MVA");
                   ("tax_id_se", VStr "SE556677889901")]) ->
       In k (map snd TAX_ID_SPEC)
       /\ In k supplier_field_names
       /\ ~ In k ["workday_id"; "reference_id"; "name"; "payment_terms"; "currency";
                  "address"; "phone"; "email"; "url"; "iban"; "bank_account"].
Proof.
  apply (tax_id_keys_are_supplier_fields tax_widget_sample). reflexivity.
Defined.

Lemma tax_ids_of_app (pre post : list pyval) (ret : list (string * pyval)) :
  tax_ids_of (pre ++ post) ret = (r <- tax_ids_of pre ret ;; tax_ids_of post r).
Proof.
  revert ret. induction pre as [| e pre IH]; intros ret; [reflexivity |].
  cbn [app tax_ids_of].
  destruct (reference_ids e "Tax_ID_Type_Reference") as [ids | err]; [| reflexivity].
  cbn [bind]. destruct (get_id_from_list ids (Some "Tax_ID_Type")) as [v | err];
    [| reflexivity].
  cbn [bind]. destruct (py_assert (truthy v) _) as [u | err]; [| reflexivity].
  cbn [bind]. destruct (tax_id_field v) as [f | err]; [| reflexivity].
  cbn [bind]. destruct (getitem e "Tax_ID_Text") as [text | err]; [| reflexivity].
  cbn [bind]. apply IH.
Qed.

(** Entries of other types leave the field of a type as it is. *)
Lemma tax_ids_of_keeps (t f : string) (text : pyval) (post : list pyval)
    (ret out : list (string * pyval)) :
  assoc t TAX_ID_SPEC = Some f ->
  (forall e', In e' post ->
     lookup_reference e' "Tax_ID_Type_Reference" "Tax_ID_Type" <> Ok (VStr t)) ->
  assoc f ret = Some text ->
  tax_ids_of post ret = Ok out ->
  assoc f out = Some text.
Proof.
  intros Hf. revert ret. induction post as [| e post IH]; intros ret Hother Hret H.
  - cbn [tax_ids_of] in H. now injection H as <-.
  - destruct (tax_ids_of_cons_Ok e post ret out H) as [t' [f' [text' [Hlook [Hf' [_ Hrest]]]]]].
    apply (IH (dict_set f' text' ret)); [| | exact Hrest].
    + intros e' He'. apply Hother. now right.
    + rewrite assoc_dict_set_other; [exact Hret |].
      intros Heq. subst f'. apply (Hother e); [now left |].
      now rewrite (assoc_injective TAX_ID_SPEC t t' f TAX_ID_SPEC_fields Hf Hf').
Qed.

(** X5. Of several tax ids of one type the last one is kept: the field of
    the type holds the text of the last entry of that type. *)
Theorem tax_id_last_entry_wins (data : pyval) (pre post : list pyval) (e : pyval)
    (t f : string) (text : pyval) (ret : list (string * pyval)) :
  dict_get data "Tax_ID_Data" (VList []) = Ok (VList (pre ++ e :: post)) ->
  lookup_reference e "Tax_ID_Type_Reference" "Tax_ID_Type" = Ok (VStr t) ->
  assoc t TAX_ID_SPEC = Some f ->
  getitem e "Tax_ID_Text" = Ok text ->
  (forall e', In e' post ->
     lookup_reference e' "Tax_ID_Type_Reference" "Tax_ID_Type" <> Ok (VStr t)) ->
  _get_tax_id_from_dict data = Ok ret ->
  assoc f ret = Some text.
Proof.
  intros Hdata Hlook Hf Htext Hother H. unfold _get_tax_id_from_dict in H.
  rewrite Hdata in H. cbn [bind py_iter] in H.
  rewrite tax_ids_of_app in H. bind_inv H as mid Hmid.
  destruct (tax_ids_of_cons_Ok e post mid ret H) as [t' [f' [text' [Hlook' [Hf' [Htext' Hrest]]]]]].
  assert (t' = t) by congruence. subst t'.
  assert (f' = f) by congruence. subst f'.
  assert (text' = text) by congruence. subst text'.
  apply (tax_ids_of_keeps t f text post (dict_set f text mid) ret Hf Hother); [| exact Hrest].
  apply assoc_dict_set_same.
Qed.

Lemma tax_id_last_entry_wins_witness :
  assoc "tax_id_no" [("tax_id_no", VStr "NO 922 222 222 MVA");
                     ("tax_id_se", VStr "SE556677889901")]
  = Some (VStr "NO 922 222 222 MVA").
Proof.
  apply (tax_id_last_entry_wins tax_widget_sample
           [tax_id_entry "NOR-VAT" "NO 911 111 111"; tax_id_entry "SWE-MOMSNR" "SE556677889901"]
           [] (tax_id_entry "NOR-VAT" "NO 922 222 222 MVA") "NOR-VAT");
    try reflexivity.
  intros e' [].
Defined.

Lemma tax_ids_of_returns (entries : list pyval) (ret : list (string * pyval)) :
  Forall tax_entry_ok entries -> exists out, tax_ids_of entries ret = Ok out.
Proof.
  intros Hall. revert ret.
  induction Hall as [| e rest [t [f [text [Hlook [Ht [Hf Htext]]]]]] _ IH]; intros ret.
  - now exists ret.
  - rewrite (tax_ids_of_step e rest ret t f text Hlook Ht Hf Htext). apply IH.
Qed.

(** X6. After entries of known types, an entry whose reference holds no
    tax-id type raises the AssertionError of the loop, whatever follows. *)
Theorem tax_id_type_missing (data : pyval) (pre post : list pyval) (e v : pyval) :
  dict_get data "Tax_ID_Data" (VList []) = Ok (VList (pre ++ e :: post)) ->
  Forall tax_entry_ok pre ->
  lookup_reference e "Tax_ID_Type_Reference" "Tax_ID_Type" = Ok v ->
  truthy v = false ->
  _get_tax_id_from_dict data
  = Raise (AssertionError "Tax ID type is an expected reference in this object").
Proof.
  intros Hdata Hpre Hlook Hfalse. unfold _get_tax_id_from_dict. rewrite Hdata.
  cbn [bind py_iter]. rewrite tax_ids_of_app.
  destruct (tax_ids_of_returns pre [] Hpre) as [mid ->]. cbn [bind].
  cbn [tax_ids_of]. use_lookup Hlook. now rewrite Hfalse.
Qed.

Lemma tax_id_type_missing_witness :
  _get_tax_id_from_dict tax_widget_untyped
  = Raise (AssertionError "Tax ID type is an expected reference in this object").
Proof.
  apply (tax_id_type_missing tax_widget_untyped
           [tax_id_entry "NOR-VAT" "NO 911 111 111"] [tax_id_entry "ISL-VSK" "12345"]
           tax_id_entry_untyped VNone).
  - reflexivity.
  - constructor; [| constructor].
    exists "NOR-VAT", "tax_id_no", (VStr "NO 911 111 111").
    repeat split; try reflexivity. discriminate.
  - reflexivity.
  - reflexivity.
Defined.

(** X7. After entries of known types, an entry of a tax-id type that
    [TAX_ID_SPEC] does not list raises KeyError for that type, whatever
    follows. *)
Theorem tax_id_type_unknown (data : pyval) (pre post : list pyval) (e : pyval)
    (t : string) :
  dict_get data "Tax_ID_Data" (VList []) = Ok (VList (pre ++ e :: post)) ->
  Forall tax_entry_ok pre ->
  lookup_reference e "Tax_ID_Type_Reference" "Tax_ID_Type" = Ok (VStr t) ->
  t <> EmptyString ->
  assoc t TAX_ID_SPEC = None ->
  _get_tax_id_from_dict data = Raise (KeyError t).
Proof.
  intros Hdata Hpre Hlook Ht Hnone. unfold _get_tax_id_from_dict. rewrite Hdata.
  cbn [bind py_iter]. rewrite tax_ids_of_app.
  destruct (tax_ids_of_returns pre [] Hpre) as [mid ->]. cbn [bind].
  cbn [tax_ids_of]. use_lookup Hlook.
  cbn [truthy]. destruct (String.eqb_spec t EmptyString) as [Heq | _]; [contradiction |].
  cbn [negb py_assert bind tax_id_field]. now rewrite Hnone.
Qed.

Lemma tax_id_type_unknown_witness :
  _get_tax_id_from_dict tax_widget_unknown = Raise (KeyError "ISL-VSK").
Proof.
  apply (tax_id_type_unknown tax_widget_unknown
           [tax_id_entry "NOR-VAT" "NO 911 111 111"] [tax_id_entry "SWE-MOMSNR" "SE55"]
           (tax_id_entry "ISL-VSK" "12345") "ISL-VSK").
  - reflexivity.
  - constructor; [| constructor].
    exists "NOR-VAT", "tax_id_no", (VStr "NO 911 111 111").
    repeat split; try reflexivity. discriminate.
  - reflexivity.
  - discriminate.
  - reflexivity.
Defined.

(** With entries of known types only, the dict is returned. *)
Lemma tax_ids_returned (data : pyval) (entries : list pyval) :
  dict_get data "Tax_ID_Data" (VList []) = Ok (VList entries) ->
  Forall tax_entry_ok entries ->
  exists ret, _get_tax_id_from_dict data = Ok ret.
Proof.
  intros Hdata Hall. unfold _get_tax_id_from_dict. rewrite Hdata.
  cbn [bind py_iter]. now apply tax_ids_of_returns.
Qed.

(** X8. The account data always has the two keys [iban] and
    [bank_account], in this order; they are read from the first settlement
    account only, and are None when there is no settlement account. *)
Theorem account_data_of_first_account (data : pyval) (ret : list (string * pyval)) :
  _get_account_data_from_dict data = Ok ret ->
  exists iban bank_account,
    ret = [("iban", iban); ("bank_account", bank_account)]
    /\ (forall account others,
          dict_get data "Settlement_Account_Data" VNone = Ok (VList (account :: others)) ->
          dict_get account "IBAN" VNone = Ok iban
          /\ dict_get account "Bank_Account_Number" VNone = Ok bank_account)
    /\ (forall settlement,
          dict_get data "Settlement_Account_Data" VNone = Ok settlement ->
          truthy settlement = false -> iban = VNone /\ bank_account = VNone).
Proof.
  unfold _get_account_data_from_dict. intros H.
  bind_inv H as settlement Hsettlement. bind_inv H as used Hused.
  bind_inv H as iban Hiban. bind_inv H as bank Hbank. injection H as <-.
  exists iban, bank. split; [reflexivity |]. split.
  - intros account others Hdata. rewrite Hdata in Hsettlement.
    injection Hsettlement as <-. cbn [truthy first] in Hused. injection Hused as <-.
    now split.
  - intros settlement' Hdata Hfalse. rewrite Hdata in Hsettlement.
    injection Hsettlement as <-. rewrite Hfalse in Hused. injection Hused as <-.
    cbn [dict_get assoc] in Hiban, Hbank. split; congruence.
Qed.

Lemma account_data_of_first_account_witness :
  exists iban bank_account,
    [("iban", VStr "NO9386011117947"); ("bank_account", VNone)]
    = [("iban", iban); ("bank_account", bank_account)]
    /\ (forall account others,
          dict_get account_widget_sample "Settlement_Account_Data" VNone
          = Ok (VList (account :: others)) ->
          dict_get account "IBAN" VNone = Ok iban
          /\ dict_get account "Bank_Account_Number" VNone = Ok bank_account)
    /\ (forall settlement,
          dict_get account_widget_sample "Settlement_Account_Data" VNone = Ok settlement ->
          truthy settlement = false -> iban = VNone /\ bank_account = VNone).
Proof.
  apply (account_data_of_first_account account_widget_sample). reflexivity.
Defined.

(** ** What the functions raise *)

Lemma raises_only_bind {A B} (Q : PyError -> Prop) (c : result A) (k : A -> result B) :
  raises_only Q c -> (forall a, raises_only Q (k a)) -> raises_only Q (bind c k).
Proof. destruct c as [a | e]; cbn [bind raises_only]; auto. Qed.

Lemma raises_only_Ok {A} (Q : PyError -> Prop) (a : A) : raises_only Q (Ok a).
Proof. exact I. Qed.

Lemma raises_only_Raise {A} (Q : PyError -> Prop) (c : result A) (e : PyError) :
  raises_only Q c -> c = Raise e -> Q e.
Proof. intros H ->. exact H. Qed.

Create HintDb raises.
#[local] Hint Resolve raises_only_Ok : raises.

Lemma raises_key {A} (Q : PyError -> Prop) (k : string) :
  ordinary Q -> raises_only Q (@Raise A (KeyError k)).
Proof. intros HQ. exact (ord_key HQ k). Qed.

Lemma raises_index {A} (Q : PyError -> Prop) :
  ordinary Q -> raises_only Q (@Raise A IndexError).
Proof. intros HQ. exact (ord_index HQ). Qed.

Lemma raises_type {A} (Q : PyError -> Prop) :
  ordinary Q -> raises_only Q (@Raise A TypeError).
Proof. intros HQ. exact (ord_type HQ). Qed.

Lemma raises_attribute {A} (Q : PyError -> Prop) (a : string) :
  ordinary Q -> raises_only Q (@Raise A (AttributeError a)).
Proof. intros HQ. exact (ord_attribute HQ a). Qed.

Lemma raises_validation {A} (Q : PyError -> Prop) (f : string) :
  ordinary Q -> raises_only Q (@Raise A (ValidationError f)).
Proof. intros HQ. exact (ord_validation HQ f). Qed.

#[local] Hint Resolve raises_key raises_index raises_type raises_attribute
  raises_validation : raises.

(** Goes through a chain of binds, leaving what the hints do not settle. *)
Ltac raises_chain :=
  repeat first [ solve [eauto with raises]
               | apply raises_only_bind; [eauto with raises | intros] ].

Lemma getitem_raises (Q : PyError -> Prop) (d : pyval) (k : string) :
  ordinary Q -> raises_only Q (getitem d k).
Proof.
  intros HQ. destruct d; cbn [getitem]; eauto with raises.
  destruct (assoc k d); eauto with raises.
Qed.

Lemma dict_get_raises (Q : PyError -> Prop) (d : pyval) (k : string) (default : pyval) :
  ordinary Q -> raises_only Q (dict_get d k default).
Proof.
  intros HQ. destruct d; cbn [dict_get]; eauto with raises.
  destruct (assoc k d); exact I.
Qed.

Lemma first_raises (Q : PyError -> Prop) (v : pyval) :
  ordinary Q -> raises_only Q (first v).
Proof.
  intros HQ. destruct v as [| b | z | s | d | d | l | d]; cbn [first];
    eauto with raises.
  - destruct s; eauto with raises.
  - destruct l; eauto with raises.
Qed.

Lemma py_iter_raises (Q : PyError -> Prop) (v : pyval) :
  ordinary Q -> raises_only Q (py_iter v).
Proof. intros HQ. destruct v; cbn [py_iter]; eauto with raises. Qed.

#[local] Hint Resolve getitem_raises dict_get_raises first_raises py_iter_raises : raises.

Lemma reference_ids_raises (Q : PyError -> Prop) (data : pyval) (k : string) :
  ordinary Q -> raises_only Q (reference_ids data k).
Proof. intros HQ. unfold reference_ids. raises_chain. Qed.

Lemma scan_id_list_raises (Q : PyError -> Prop) (l : list pyval) (id_type : option string) :
  ordinary Q -> raises_only Q (scan_id_list l id_type).
Proof.
  intros HQ. induction l as [| entry rest IH]; cbn [scan_id_list]; [exact I |].
  apply raises_only_bind; [eauto with raises | intros t].
  destruct (type_matches t id_type); eauto with raises.
Qed.

Lemma get_id_from_list_raises (Q : PyError -> Prop) (ids : pyval) (id_type : option string) :
  ordinary Q -> raises_only Q (get_id_from_list ids id_type).
Proof.
  intros HQ. unfold get_id_from_list.
  apply raises_only_bind; [eauto with raises | intros]. now apply scan_id_list_raises.
Qed.

#[local] Hint Resolve reference_ids_raises get_id_from_list_raises : raises.

Lemma validate_str_raises (Q : PyError -> Prop) (field : string) (v : pyval) :
  ordinary Q -> raises_only Q (validate_str field v).
Proof. intros HQ. destruct v; cbn [validate_str]; eauto with raises. Qed.

#[local] Hint Resolve validate_str_raises : raises.

Lemma validate_opt_str_raises (Q : PyError -> Prop) (field : string) (v : pyval) :
  ordinary Q -> raises_only Q (validate_opt_str field v).
Proof.
  intros HQ. destruct v; cbn [validate_opt_str]; try exact I; raises_chain.
Qed.

Lemma check_max_length_raises (Q : PyError -> Prop) (field : string) (max : option nat)
    (s : option string) :
  ordinary Q -> raises_only Q (check_max_length field max s).
Proof.
  intros HQ. destruct max as [n |], s as [s |]; cbn [check_max_length]; try exact I.
  destruct (String.length s <=? n)%nat; eauto with raises.
Qed.

Lemma validate_literal_raises (Q : PyError -> Prop) (field lit : string) (v : pyval) :
  ordinary Q -> raises_only Q (validate_literal field lit v).
Proof.
  intros HQ. destruct v; cbn [validate_literal]; eauto with raises.
  destruct (String.eqb s lit); eauto with raises.
Qed.

Lemma require_fields_raises (Q : PyError -> Prop) (required : list string)
    (kw : list (string * pyval)) :
  ordinary Q -> raises_only Q (require_fields required kw).
Proof.
  intros HQ. induction required as [| f rest IH]; cbn [require_fields]; [exact I |].
  destruct (assoc f kw); eauto with raises.
Qed.

#[local] Hint Resolve validate_opt_str_raises check_max_length_raises
  validate_literal_raises require_fields_raises : raises.

Lemma init_base_raises (Q : PyError -> Prop) (cls : RefClass) (kw : list (string * pyval)) :
  ordinary Q -> raises_only Q (init_base cls kw).
Proof.
  intros HQ. unfold init_base.
  apply raises_only_bind; [| intros wid].
  { destruct (assoc _ kw), (id_required cls); raises_chain. }
  apply raises_only_bind; [eauto with raises | intros _].
  apply raises_only_bind; [| intros wtype].
  { destruct (assoc "workday_id_type" kw), (id_type_default cls); eauto with raises. }
  apply raises_only_bind; [| intros pid].
  { destruct (assoc "workday_parent_id" kw), (parent_id_required cls); raises_chain. }
  apply raises_only_bind; [| intros ptype; exact I].
  destruct (assoc "workday_parent_type" kw), (parent_type_default cls); raises_chain.
Qed.

#[local] Hint Resolve init_base_raises : raises.

Lemma init_raises (Q : PyError -> Prop) (cls : RefClass) (kw : list (string * pyval)) :
  ordinary Q -> raises_only Q (init cls kw).
Proof. intros HQ. unfold init. raises_chain. Qed.

#[local] Hint Resolve init_raises : raises.

Lemma from_id_list_raises (Q : PyError -> Prop) (cls : RefClass) (ids : pyval)
    (extra : list (string * pyval)) :
  ordinary Q -> raises_only Q (from_id_list cls ids extra).
Proof.
  intros HQ. unfold from_id_list.
  apply raises_only_bind; [eauto with raises | intros workday_id].
  destruct (truthy workday_id); [| exact I].
  destruct (assoc "workday_id" extra); raises_chain.
Qed.

#[local] Hint Resolve from_id_list_raises : raises.

Lemma mapM_raises {A B} (Q : PyError -> Prop) (f : A -> result B) (l : list A) :
  (forall x, raises_only Q (f x)) -> raises_only Q (mapM f l).
Proof.
  intros Hf. induction l as [| x xs IH]; cbn [mapM]; [exact I |]. raises_chain.
Qed.

Lemma py_sorted_raises (Q : PyError -> Prop) (key : pyval -> result pyval)
    (reverse : bool) (v : pyval) :
  ordinary Q -> (forall x, raises_only Q (key x)) -> raises_only Q (py_sorted key reverse v).
Proof.
  intros HQ Hkey. unfold py_sorted.
  apply raises_only_bind; [eauto with raises | intros items].
  apply raises_only_bind; [| intros keyed].
  { apply mapM_raises. intros x. raises_chain. }
  destruct (List.length keyed <=? 1)%nat; [exact I |].
  destruct (one_kind (map fst keyed)); eauto with raises.
Qed.

Lemma address_of_raises (Q : PyError -> Prop) (current : pyval) :
  ordinary Q -> raises_only Q (address_of current).
Proof.
  intros HQ. unfold address_of.
  apply raises_only_bind; [eauto with raises | intros formatted].
  destruct formatted; eauto with raises.
Qed.

Lemma first_of_raises (Q : PyError -> Prop) (info : pyval) (field k : string)
    (ret : list (string * pyval)) :
  ordinary Q -> raises_only Q (first_of info field k ret).
Proof. intros HQ. unfold first_of. destruct (truthy info); raises_chain. Qed.

#[local] Hint Resolve address_of_raises first_of_raises : raises.

Lemma contact_data_raises (Q : PyError -> Prop) (data : pyval) :
  ordinary Q -> raises_only Q (_get_contact_data_from_dict data).
Proof.
  intros HQ. unfold _get_contact_data_from_dict.
  do 4 (apply raises_only_bind; [eauto with raises | intros]).
  apply raises_only_bind; [| intros; raises_chain].
  destruct (truthy a); [| exact I].
  apply raises_only_bind; [| intros; raises_chain].
  apply py_sorted_raises; [exact HQ | intros x; eauto with raises].
Qed.

Lemma account_data_raises (Q : PyError -> Prop) (data : pyval) :
  ordinary Q -> raises_only Q (_get_account_data_from_dict data).
Proof.
  intros HQ. unfold _get_account_data_from_dict.
  apply raises_only_bind; [eauto with raises | intros settlement].
  apply raises_only_bind; [destruct (truthy settlement); eauto with raises | intros].
  raises_chain.
Qed.

Lemma tax_id_field_raises (Q : PyError -> Prop) (key : pyval) :
  ordinary Q -> raises_only Q (tax_id_field key).
Proof.
  intros HQ. destruct key; cbn [tax_id_field]; eauto with raises.
  destruct (assoc s TAX_ID_SPEC); eauto with raises.
Qed.

Lemma py_assert_raises (Q : PyError -> Prop) (cond : bool) (msg : string) :
  Q (AssertionError msg) -> raises_only Q (py_assert cond msg).
Proof. intros HQ. destruct cond; [exact I | exact HQ]. Qed.

#[local] Hint Resolve tax_id_field_raises py_assert_raises : raises.

Lemma tax_id_data_raises (Q : PyError -> Prop) (data : pyval) :
  ordinary Q -> (forall msg, Q (AssertionError msg)) ->
  raises_only Q (_get_tax_id_from_dict data).
Proof.
  intros HQ HA. unfold _get_tax_id_from_dict.
  apply raises_only_bind; [eauto with raises | intros tax_id_data].
  apply raises_only_bind; [eauto with raises | intros entries].
  generalize (@nil (string * pyval)).
  induction entries as [| e rest IH]; intros ret; cbn [tax_ids_of]; [exact I |].
  raises_chain.
Qed.

Lemma kwargs_add_raises (Q : PyError -> Prop) (kw more : list (string * pyval)) :
  ordinary Q -> raises_only Q (kwargs_add kw more).
Proof.
  intros HQ. revert kw. induction more as [| [k v] rest IH]; intros kw;
    cbn [kwargs_add]; [exact I |].
  destruct (assoc k kw); eauto with raises.
Qed.

Lemma validate_optional_fields_raises (Q : PyError -> Prop) (fields : list string)
    (kw : list (string * pyval)) :
  ordinary Q -> raises_only Q (validate_optional_fields fields kw).
Proof.
  intros HQ. induction fields as [| f rest IH]; cbn [validate_optional_fields]; [exact I |].
  raises_chain.
Qed.

Lemma Supplier_init_raises (Q : PyError -> Prop) (kw : list (string * pyval)) :
  ordinary Q -> raises_only Q (Supplier_init kw).
Proof.
  intros HQ. unfold Supplier_init.
  apply raises_only_bind; [eauto with raises | intros ref].
  apply raises_only_bind; [now apply validate_optional_fields_raises | intros; exact I].
Qed.

#[local] Hint Resolve contact_data_raises account_data_raises tax_id_data_raises
  kwargs_add_raises Supplier_init_raises : raises.

Lemma ordinary_not_NoSupplierID : ordinary not_NoSupplierID.
Proof. constructor; unfold not_NoSupplierID; intros; discriminate. Qed.

(** ** Suppliers *)

(** X9. [workday_supplier_to_pydantic] raises NoSupplierID exactly when the
    supplier data can be read and holds no Supplier_ID, or one that is
    false (None, the empty string): none of the later steps raises it. *)
Theorem supplier_without_id (data : pyval) :
  workday_supplier_to_pydantic data = Raise NoSupplierID
  <-> exists sup_data sup_id,
        getitem data "Supplier_Data" = Ok sup_data
        /\ dict_get sup_data "Supplier_ID" VNone = Ok sup_id
        /\ truthy sup_id = false.
Proof.
  pose proof ordinary_not_NoSupplierID as HQ.
  assert (HA : forall msg, not_NoSupplierID (AssertionError msg))
    by (intros msg; discriminate).
  unfold workday_supplier_to_pydantic. split.
  - intros H.
    destruct (getitem data "Supplier_Data") as [sup_data | e] eqn:Hdata.
    2:{ exfalso. cbn [bind] in H. injection H as ->.
        apply (raises_only_Raise not_NoSupplierID _ _ (getitem_raises _ data _ HQ) Hdata).
        reflexivity. }
    cbn [bind] in H.
    destruct (dict_get sup_data "Supplier_ID" VNone) as [sup_id | e] eqn:Hid.
    2:{ exfalso. cbn [bind] in H. injection H as ->.
        apply (raises_only_Raise not_NoSupplierID _ _
                 (dict_get_raises _ sup_data _ VNone HQ) Hid).
        reflexivity. }
    cbn [bind] in H. exists sup_data, sup_id.
    split; [reflexivity | split; [exact Hid |]].
    destruct (truthy sup_id); [| reflexivity]. cbn [negb] in H.
    exfalso. refine (raises_only_Raise not_NoSupplierID _ _ _ H eq_refl).
    repeat (apply raises_only_bind; [solve [eauto with raises] | intros]).
    apply raises_only_bind.
    { match goal with |- context [truthy ?x] => destruct (truthy x) end; raises_chain. }
    intros. raises_chain.
  - intros [sup_data [sup_id [-> [Hid Hfalse]]]]. cbn [bind].
    rewrite Hid. cbn [bind]. now rewrite Hfalse.
Qed.

Lemma string_in_spec (s : string) (l : list string) : string_in s l = true <-> In s l.
Proof.
  unfold string_in. rewrite existsb_exists. split.
  - intros [x [Hin Heq]]. apply String.eqb_eq in Heq. now subst x.
  - intros Hin. exists s. split; [exact Hin | apply String.eqb_refl].
Qed.

(** Two lists of names that a run of [string_in] finds disjoint. *)
Lemma disjoint_names (A B : list string) :
  forallb (fun k => negb (string_in k B)) A = true ->
  forall k, In k A -> ~ In k B.
Proof.
  intros H k HA HB. rewrite forallb_forall in H. specialize (H k HA).
  apply string_in_spec in HB. rewrite HB in H. discriminate H.
Qed.

Lemma assoc_app_None {A} (k : string) (d d' : list (string * A)) :
  assoc k d = None -> assoc k (d ++ d') = assoc k d'.
Proof.
  induction d as [| [k' w] d IH]; cbn [assoc app]; [reflexivity |].
  destruct (String.eqb k k'); [discriminate | exact IH].
Qed.

Lemma assoc_of_In {A} (k : string) (v : A) (d : list (string * A)) :
  NoDup (keys d) -> In (k, v) d -> assoc k d = Some v.
Proof.
  unfold keys. induction d as [| [k' w] d IH]; cbn [assoc map fst In]; intros Hnd Hin;
    [destruct Hin |].
  inversion Hnd as [| ? ? Hnotin Hrest]; subst.
  destruct Hin as [Heq | Hin].
  - injection Heq as -> ->. now rewrite String.eqb_refl.
  - destruct (String.eqb_spec k k') as [-> | _]; [| now apply IH].
    exfalso. apply Hnotin. now apply (in_map fst) in Hin.
Qed.

Lemma keys_app {A} (d d' : list (string * A)) : keys (d ++ d') = (keys d ++ keys d')%list.
Proof. apply map_app. Qed.

Lemma NoDup_keys_app {A} (d d' : list (string * A)) :
  NoDup (keys d) -> NoDup (keys d') ->
  (forall k, In k (keys d') -> ~ In k (keys d)) ->
  NoDup (keys (d ++ d')).
Proof.
  intros Hd Hd' Hdis. rewrite keys_app. unfold keys in *.
  induction d as [| [k v] d IH]; cbn [map fst app]; [exact Hd' |].
  inversion Hd as [| ? ? Hnotin Hrest]; subst. constructor.
  - rewrite in_app_iff. intros [Hin | Hin]; [now apply Hnotin |].
    apply (Hdis k Hin). now left.
  - apply IH; [exact Hrest |]. intros k' Hk' Hin. apply (Hdis k' Hk'). now right.
Qed.

(** Keyword arguments merge when no name comes twice. *)
Lemma kwargs_add_Ok (kw more : list (string * pyval)) :
  NoDup (keys more) ->
  (forall k, In k (keys more) -> ~ In k (keys kw)) ->
  kwargs_add kw more = Ok (kw ++ more)%list.
Proof.
  revert kw. induction more as [| [k v] rest IH]; intros kw Hnd Hdis;
    cbn [kwargs_add].
  - now rewrite app_nil_r.
  - unfold keys in Hnd. cbn [map fst] in Hnd.
    inversion Hnd as [| ? ? Hnotin Hrest]; subst.
    assert (Hnone : assoc k kw = None).
    { apply assoc_None_keys. apply Hdis. now left. }
    rewrite Hnone, IH.
    + now rewrite <- app_assoc.
    + exact Hrest.
    + intros k' Hk'. rewrite keys_app, in_app_iff. intros [Hin | [<- | []]].
      * apply (Hdis k'); [now right | exact Hin].
      * now apply Hnotin.
Qed.

Lemma first_of_Ok (info : pyval) (field k : string) (ret ret' : list (string * pyval)) :
  first_of info field k ret = Ok ret' ->
  ret' = ret \/ exists v, ret' = (ret ++ [(k, v)])%list.
Proof.
  unfold first_of. intros H. destruct (truthy info).
  - bind_inv H as entry He. bind_inv H as v Hv. injection H as <-. right. now exists v.
  - injection H as <-. now left.
Qed.

Lemma contact_data_keys (data : pyval) (ret : list (string * pyval)) :
  _get_contact_data_from_dict data = Ok ret ->
  NoDup (keys ret)
  /\ forall k, In k (keys ret) -> In k ["address"; "phone"; "email"; "url"].
Proof.
  unfold _get_contact_data_from_dict. intros H.
  bind_inv H as address_info Ha. bind_inv H as phone_info Hp.
  bind_inv H as email_info He. bind_inv H as url_info Hu.
  bind_inv H as r1 H1. bind_inv H as r2 H2. bind_inv H as r3 H3.
  bind_inv H as r4 H4. injection H as <-.
  assert (Hr1 : r1 = [] \/ exists v, r1 = [("address", v)]).
  { destruct (truthy address_info).
    - bind_inv H1 as by_date Hs. bind_inv H1 as current Hc. bind_inv H1 as a Haddr.
      injection H1 as <-. right. now exists a.
    - injection H1 as <-. now left. }
  apply first_of_Ok in H2, H3, H4.
  destruct Hr1 as [-> | [v1 ->]];
    destruct H2 as [-> | [v2 ->]];
    destruct H3 as [-> | [v3 ->]];
    destruct H4 as [-> | [v4 ->]];
    cbn [app keys map fst];
    (split; [repeat (constructor; [cbn [In]; intros Hin;
                                   repeat (destruct Hin as [Hin | Hin];
                                           [discriminate Hin |]); exact Hin |]);
             constructor
            | cbn [In]; tauto]).
Qed.

Lemma account_data_keys (data : pyval) (ret : list (string * pyval)) :
  _get_account_data_from_dict data = Ok ret -> keys ret = ["iban"; "bank_account"].
Proof.
  unfold _get_account_data_from_dict. intros H.
  bind_inv H as settlement Hsettlement. bind_inv H as used Hused.
  bind_inv H as iban Hiban. bind_inv H as bank Hbank. now injection H as <-.
Qed.

Lemma tax_id_data_keys (data : pyval) (ret : list (string * pyval)) :
  _get_tax_id_from_dict data = Ok ret ->
  NoDup (keys ret) /\ forall k, In k (keys ret) -> In k (map snd TAX_ID_SPEC).
Proof.
  unfold _get_tax_id_from_dict. intros H.
  bind_inv H as tax_id_data Hdata. bind_inv H as entries Hentries.
  apply (tax_ids_of_keys entries [] ret H); [constructor | intros k []].
Qed.

Lemma validate_optional_fields_Ok (fields : list string) (kw : list (string * pyval))
    (vs : list (string * option string)) :
  validate_optional_fields fields kw = Ok vs ->
  forall f, In f fields ->
    validate_opt_str f (match assoc f kw with Some v => v | None => VNone end)
    = Ok (match assoc f vs with Some v => v | None => None end).
Proof.
  revert vs. induction fields as [| f0 rest IH]; intros vs H f Hin; [destruct Hin |].
  cbn [validate_optional_fields] in H.
  bind_inv H as v0 Hv0. bind_inv H as vs' Hvs'. injection H as <-.
  cbn [assoc]. destruct (String.eqb_spec f f0) as [-> | Hne]; [exact Hv0 |].
  destruct Hin as [Heq | Hin]; [congruence |]. now apply (IH vs').
Qed.

(** The three dicts of a supplier merge into the keyword arguments. *)
Lemma supplier_keywords_merge (explicit contact account tax : list (string * pyval))
    (cd ad td : pyval) :
  keys explicit = supplier_explicit_keywords ->
  _get_contact_data_from_dict cd = Ok contact ->
  _get_account_data_from_dict ad = Ok account ->
  _get_tax_id_from_dict td = Ok tax ->
  (kw <- kwargs_add explicit contact ;;
   kw <- kwargs_add kw account ;;
   kwargs_add kw tax) = Ok (explicit ++ contact ++ account ++ tax)%list
  /\ NoDup (keys (contact ++ account ++ tax))
  /\ forall k, In k (keys (contact ++ account ++ tax)) ->
       In k supplier_field_names /\ ~ In k (keys explicit).
Proof.
  intros Hexplicit Hcontact Haccount Htax.
  destruct (contact_data_keys cd contact Hcontact) as [Hcnd Hcin].
  pose proof (account_data_keys ad account Haccount) as Hakeys.
  destruct (tax_id_data_keys td tax Htax) as [Htnd Htin].
  assert (Hand : NoDup (keys account)).
  { rewrite Hakeys. repeat constructor; cbn [In]; intuition discriminate. }
  assert (Htax_other : forall k, In k (keys tax) ->
            In k supplier_field_names
            /\ ~ In k ["workday_id"; "reference_id"; "name"; "payment_terms"; "currency";
                       "address"; "phone"; "email"; "url"; "iban"; "bank_account"]).
  { intros k Hk. apply tax_fields_of_supplier. now apply Htin. }
  assert (Hc_e : forall k, In k (keys contact) -> ~ In k (keys explicit)).
  { intros k Hk. rewrite Hexplicit.
    apply (disjoint_names ["address"; "phone"; "email"; "url"]); [reflexivity |].
    now apply Hcin. }
  assert (Ha_ec : forall k, In k (keys account) -> ~ In k (keys (explicit ++ contact))).
  { intros k Hk. rewrite keys_app, in_app_iff, Hexplicit. rewrite Hakeys in Hk.
    intros [Hin | Hin].
    - revert Hin. now apply (disjoint_names ["iban"; "bank_account"]).
    - apply Hcin in Hin. revert Hin.
      now apply (disjoint_names ["iban"; "bank_account"]). }
  assert (Ht_eca : forall k, In k (keys tax) ->
            ~ In k (keys ((explicit ++ contact) ++ account))).
  { intros k Hk. destruct (Htax_other k Hk) as [_ Hnot].
    rewrite !keys_app, !in_app_iff, Hexplicit, Hakeys.
    intros [[Hin | Hin] | Hin]; apply Hnot.
    - unfold supplier_explicit_keywords in Hin. cbn [In] in *. tauto.
    - apply Hcin in Hin. cbn [In] in *. tauto.
    - cbn [In] in *. tauto. }
  split; [| split].
  - rewrite (kwargs_add_Ok explicit contact Hcnd Hc_e). cbn [bind].
    rewrite (kwargs_add_Ok _ account Hand Ha_ec). cbn [bind].
    rewrite (kwargs_add_Ok _ tax Htnd Ht_eca). now rewrite <- !app_assoc.
  - apply NoDup_keys_app; [exact Hcnd | |].
    + apply NoDup_keys_app; [exact Hand | exact Htnd |].
      intros k Hk Hin. apply (Ht_eca k Hk). rewrite keys_app, in_app_iff. now right.
    + intros k Hk Hin. rewrite keys_app, in_app_iff in Hk. destruct Hk as [Hk | Hk].
      * apply (Ha_ec k Hk). rewrite keys_app, in_app_iff. now right.
      * apply (Ht_eca k Hk). rewrite !keys_app, !in_app_iff. left. now right.
  - intros k Hk. rewrite !keys_app, !in_app_iff in Hk.
    destruct Hk as [Hk | [Hk | Hk]].
    + split; [| now apply Hc_e]. apply Hcin in Hk.
      unfold supplier_field_names. cbn [In] in *. tauto.
    + split.
      * rewrite Hakeys in Hk. unfold supplier_field_names. cbn [In] in *. tauto.
      * intros Hin. apply (Ha_ec k Hk). rewrite keys_app, in_app_iff. now left.
    + split; [now apply Htax_other |].
      intros Hin. apply (Ht_eca k Hk). rewrite !keys_app, !in_app_iff. left. now left.
Qed.

(** X10. Whenever [workday_supplier_to_pydantic] returns a supplier, each
    item of the tax-id, account and contact dicts it read has reached the
    field of its name: the value of the field is the validated item, and
    no item is lost to another keyword of the same name. *)
Theorem supplier_fields_from_data (data : pyval) (s : SupplierModel) :
  workday_supplier_to_pydantic data = Ok s ->
  exists sup_data tax_widget account_widget business_entity contact_widget
         tax account contact,
    getitem data "Supplier_Data" = Ok sup_data
    /\ dict_get sup_data "Tax_ID_Widget_Data" (VDict []) = Ok tax_widget
    /\ _get_tax_id_from_dict tax_widget = Ok tax
    /\ dict_get sup_data "Settlement_Account_Widget_Data" (VDict []) = Ok account_widget
    /\ _get_account_data_from_dict account_widget = Ok account
    /\ getitem sup_data "Business_Entity_Data" = Ok business_entity
    /\ dict_get business_entity "Contact_Data" (VDict []) = Ok contact_widget
    /\ _get_contact_data_from_dict contact_widget = Ok contact
    /\ forall k v, In (k, v) (contact ++ account ++ tax) ->
         validate_opt_str k v = Ok (supplier_field s k).
Proof.
  unfold workday_supplier_to_pydantic. intros H.
  bind_inv H as sup_data Hsup. bind_inv H as sup_id Hid.
  destruct (negb (truthy sup_id)); [discriminate H |].
  bind_inv H as tax_widget Htw. bind_inv H as tax Htax.
  bind_inv H as account_widget Haw. bind_inv H as account Haccount.
  bind_inv H as business_entity Hbe. bind_inv H as contact_widget Hcw.
  bind_inv H as contact Hcontact.
  bind_inv H as currency_ref Hcr. bind_inv H as reference_id Hrid.
  bind_inv H as name Hname. bind_inv H as terms_ref Htr. bind_inv H as terms_ids Hti.
  bind_inv H as payment_terms Hpt. bind_inv H as currency Hcur.
  exists sup_data, tax_widget, account_widget, business_entity, contact_widget,
    tax, account, contact.
  repeat (split; [assumption |]).
  intros k v Hin.
  destruct (supplier_keywords_merge
              [("workday_id", sup_id); ("reference_id", reference_id);
               ("name", name); ("payment_terms", payment_terms); ("currency", currency)]
              contact account tax contact_widget account_widget tax_widget
              eq_refl Hcontact Haccount Htax) as [Hmerge [Hnd Hkeys]].
  assert (Hkw : exists kw, Supplier_init kw = Ok s
                           /\ kw = ([("workday_id", sup_id); ("reference_id", reference_id);
                                     ("name", name); ("payment_terms", payment_terms);
                                     ("currency", currency)]
                                    ++ contact ++ account ++ tax)%list).
  { destruct (kwargs_add _ contact) as [kw1 | e1]; [| discriminate Hmerge].
    cbn [bind] in Hmerge, H.
    destruct (kwargs_add kw1 account) as [kw2 | e2]; [| discriminate Hmerge].
    cbn [bind] in Hmerge, H. rewrite Hmerge in H. cbn [bind] in H.
    eexists. split; [exact H | reflexivity]. }
  destruct Hkw as [kw [Hinit Hkw]].
  unfold Supplier_init in Hinit. bind_inv Hinit as ref Href.
  bind_inv Hinit as fields Hfields. injection Hinit as <-.
  assert (Hk : In k (keys (contact ++ account ++ tax))).
  { apply (in_map fst) in Hin. exact Hin. }
  destruct (Hkeys k Hk) as [Hfield Hnot].
  pose proof (validate_optional_fields_Ok _ _ _ Hfields k Hfield) as Hv.
  unfold supplier_field. cbn [supplier_fields].
  assert (Hassoc : assoc k kw = Some v).
  { rewrite Hkw, assoc_app_None; [now apply assoc_of_In |].
    now apply assoc_None_keys. }
  now rewrite Hassoc in Hv.
Qed.

Lemma supplier_fields_from_data_witness :
  exists sup_data tax_widget account_widget business_entity contact_widget
         tax account contact,
    getitem supplier_payload "Supplier_Data" = Ok sup_data
    /\ dict_get sup_data "Tax_ID_Widget_Data" (VDict []) = Ok tax_widget
    /\ _get_tax_id_from_dict tax_widget = Ok tax
    /\ dict_get sup_data "Settlement_Account_Widget_Data" (VDict []) = Ok account_widget
    /\ _get_account_data_from_dict account_widget = Ok account
    /\ getitem sup_data "Business_Entity_Data" = Ok business_entity
    /\ dict_get business_entity "Contact_Data" (VDict []) = Ok contact_widget
    /\ _get_contact_data_from_dict contact_widget = Ok contact
    /\ forall k v, In (k, v) (contact ++ account ++ tax) ->
         validate_opt_str k v = Ok (supplier_field supplier_sample k).
Proof.
  apply (supplier_fields_from_data supplier_payload supplier_sample). reflexivity.
Defined.

(** The supplier of the sample payload: the later Norwegian tax id, the
    first account, the latest address. *)
Example supplier_sample_fields :
  workday_supplier_to_pydantic supplier_payload = Ok supplier_sample
  /\ supplier_field supplier_sample "tax_id_no" = Some "NO 922 222 222 MVA"
  /\ supplier_field supplier_sample "iban" = Some "NO9386011117947"
  /\ supplier_field supplier_sample "bank_account" = None
  /\ supplier_field supplier_sample "email" = Some "post@example.no"
  /\ supplier_field supplier_sample "currency" = Some "NOK".
Proof. repeat split; reflexivity. Qed.

(** ** Invoice lines *)

Lemma cost_center_of_app (pre post : list pyval) (cc : option Reference) :
  cost_center_of (pre ++ post) cc = (c <- cost_center_of pre cc ;; cost_center_of post c).
Proof.
  revert cc. induction pre as [| tag pre IH]; intros cc; [reflexivity |].
  cbn [app cost_center_of].
  destruct (getitem tag "ID") as [ids | e]; [| reflexivity]. cbn [bind].
  destruct (from_id_list CostCenterWorktag ids []) as [c | e]; [| reflexivity].
  cbn [bind]. apply IH.
Qed.

Lemma cost_center_of_cons (tag : pyval) (rest : list pyval) (cc : option Reference) :
  cost_center_of (tag :: rest) cc
  = (c <- cost_center_tag tag ;;
     cost_center_of rest (match c with Some c' => Some c' | None => cc end)).
Proof.
  cbn [cost_center_of]. unfold cost_center_tag.
  destruct (getitem tag "ID") as [ids | e]; [| reflexivity]. cbn [bind].
  destruct (from_id_list CostCenterWorktag ids []); reflexivity.
Qed.

(** Tags that are no cost centre leave the cost centre as it is. *)
Lemma cost_center_of_others (post : list pyval) (cc out : option Reference) :
  (forall tag, In tag post -> cost_center_tag tag = Ok None) ->
  cost_center_of post cc = Ok out -> out = cc.
Proof.
  revert cc. induction post as [| tag post IH]; intros cc Hother H.
  - cbn [cost_center_of] in H. now injection H as <-.
  - rewrite cost_center_of_cons in H. bind_inv H as c Hc.
    destruct c as [c |].
    + rewrite (Hother tag) in Hc by now left. discriminate Hc.
    + apply (IH cc); [| exact H]. intros t Ht. apply Hother. now right.
Qed.

Lemma invoice_line_Ok (P : Pydantic) (data : pyval) (i : Z) (line : SupplierInvoiceLine) :
  _workday_invoice_line_to_pydantic P data i = Ok line ->
  exists worktags tags,
    getitem data "Worktags_Reference" = Ok worktags
    /\ py_iter worktags = Ok tags
    /\ cost_center_of tags None = Ok (cost_center line)
    /\ match tax_rate_options_of data with
       | Ok t => tax_rate_options_data line = Some t
       | Raise (KeyError _) | Raise (AssertionError _) => tax_rate_options_data line = None
       | Raise _ => False
       end
    /\ reference_of TaxApplicability data "Tax_Applicability_Reference"
       = Ok (tax_applicability line)
    /\ reference_of TaxCode data "Tax_Code_Reference" = Ok (tax_code line)
    /\ reference_of SpendCategory data "Spend_Category_Reference"
       = Ok (spend_category line).
Proof.
  unfold _workday_invoice_line_to_pydantic, reference_of. intros H.
  bind_inv H as worktags Hw. bind_inv H as tags Ht. bind_inv H as cc Hcc.
  bind_inv H as tro Htro. bind_inv H as descr Hd.
  bind_inv H as ids1 H1. bind_inv H as ta Hta.
  bind_inv H as ids2 H2. bind_inv H as tc Htc.
  bind_inv H as ids3 H3. bind_inv H as sc Hsc.
  bind_inv H as gross Hg.
  unfold SupplierInvoiceLine_init in H.
  bind_inv H as d Hdv. bind_inv H as g Hgv. injection H as <-.
  cbn [cost_center tax_rate_options_data tax_applicability tax_code spend_category].
  exists worktags, tags. rewrite H1, H2, H3. cbn [bind].
  repeat (split; [assumption |]). split; [| repeat split; assumption].
  destruct (tax_rate_options_of data) as [t | []]; try discriminate Htro;
    now injection Htro as <-.
Qed.

(** X11. Of the worktags of an invoice line, the last one that carries a
    cost-centre id gives the cost centre of the line; tags without one
    (project tags and the like) are passed over. *)
Theorem line_cost_center_last_tag (P : Pydantic) (data : pyval) (i : Z)
    (line : SupplierInvoiceLine) (pre post : list pyval) (tag : pyval) (c : Reference) :
  _workday_invoice_line_to_pydantic P data i = Ok line ->
  getitem data "Worktags_Reference" = Ok (VList (pre ++ tag :: post)) ->
  cost_center_tag tag = Ok (Some c) ->
  (forall tag', In tag' post -> cost_center_tag tag' = Ok None) ->
  cost_center line = Some c.
Proof.
  intros H Htags Htag Hother.
  destruct (invoice_line_Ok P data i line H) as [worktags [tags [Hw [Hiter [Hcc _]]]]].
  rewrite Htags in Hw. injection Hw as <-. cbn [py_iter] in Hiter.
  injection Hiter as <-. rewrite cost_center_of_app in Hcc.
  bind_inv Hcc as mid Hmid. rewrite cost_center_of_cons, Htag in Hcc. cbn [bind] in Hcc.
  now apply (cost_center_of_others post (Some c)).
Qed.

Lemma line_cost_center_last_tag_witness :
  cost_center line_tagged
  = Some (mkReference CostCenterWorktag (Some "CC-20") "Cost_Center_Reference_ID" None None).
Proof.
  apply (line_cost_center_last_tag sample_validators wire_line_tagged 0 line_tagged
           [wire_reference [wire_id "Cost_Center_Reference_ID" "CC-10"]]
           [wire_reference [wire_id "Project_ID" "P-7"]]
           (wire_reference [wire_id "WID" "77aa";
                            wire_id "Cost_Center_Reference_ID" "CC-20"])).
  - reflexivity.
  - reflexivity.
  - reflexivity.
  - intros tag' [<- | []]. reflexivity.
Defined.

Lemma init_ref_class (cls : RefClass) (kw : list (string * pyval)) (r : Reference) :
  init cls kw = Ok r -> ref_class r = cls.
Proof.
  unfold init. intros H. bind_inv H as self Hbase. bind_inv H as u Hu.
  injection H as <-. unfold init_base in Hbase.
  bind_inv Hbase as wid Hwid. bind_inv Hbase as u' Hmax.
  bind_inv Hbase as wtype Hwtype. bind_inv Hbase as pid Hpid.
  bind_inv Hbase as ptype Hptype. now injection Hbase as <-.
Qed.

Lemma from_id_list_instance (cls : RefClass) (ids : pyval) (extra : list (string * pyval))
    (o : option Reference) :
  from_id_list cls ids extra = Ok o -> instance_of cls o.
Proof.
  unfold from_id_list. intros H. bind_inv H as workday_id Hid.
  destruct (truthy workday_id); [| now injection H as <-].
  destruct (assoc "workday_id" extra); [discriminate H |].
  bind_inv H as self Hself. injection H as <-. cbn [instance_of].
  exact (init_ref_class _ _ _ Hself).
Qed.

Lemma reference_of_instance (cls : RefClass) (data : pyval) (key : string)
    (o : option Reference) :
  reference_of cls data key = Ok o -> instance_of cls o.
Proof.
  unfold reference_of. intros H. bind_inv H as ids Hids.
  now apply (from_id_list_instance cls ids []).
Qed.

Lemma cost_center_of_instance (tags : list pyval) (cc out : option Reference) :
  instance_of CostCenterWorktag cc ->
  cost_center_of tags cc = Ok out -> instance_of CostCenterWorktag out.
Proof.
  revert cc. induction tags as [| tag rest IH]; intros cc Hcc H.
  - cbn [cost_center_of] in H. now injection H as <-.
  - rewrite cost_center_of_cons in H. bind_inv H as c Hc.
    refine (IH _ _ H). destruct c as [c |]; [| exact Hcc].
    unfold cost_center_tag in Hc. bind_inv Hc as ids Hids.
    now apply (from_id_list_instance CostCenterWorktag ids [] (Some c)).
Qed.

Lemma tax_rate_options_of_Ok (data : pyval) (t : TaxRateOptionsData) :
  tax_rate_options_of data = Ok t
  <-> reference_of TaxOption data "Tax_Option_1_Reference" = Ok (Some (tax_option t))
      /\ reference_of TaxRate data "Tax_Rate_1_Reference" = Ok (Some (tax_rate t))
      /\ reference_of TaxRecoverability data "Tax_Recoverability_1_Reference"
         = Ok (Some (tax_recoverability t)).
Proof.
  unfold tax_rate_options_of, reference_of. split.
  - intros H. bind_inv H as ids1 H1. bind_inv H as o Ho.
    bind_inv H as ids2 H2. bind_inv H as r Hr.
    bind_inv H as ids3 H3. bind_inv H as c Hc.
    rewrite H1, H2, H3. cbn [bind].
    destruct o as [o |], r as [r |], c as [c |]; try discriminate H.
    injection H as <-. cbn [tax_option tax_rate tax_recoverability].
    repeat split; assumption.
  - intros [Ho [Hr Hc]].
    bind_inv Ho as ids1 H1. bind_inv Hr as ids2 H2. bind_inv Hc as ids3 H3.
    rewrite H1. cbn [bind]. rewrite Ho. cbn [bind].
    rewrite H2. cbn [bind]. rewrite Hr. cbn [bind].
    rewrite H3. cbn [bind]. rewrite Hc. cbn [bind]. now destruct t.
Qed.

(** X12. The tax rate options of a mapped line are all or nothing: they
    are set exactly when the tax option, the tax rate and the tax
    recoverability are all found in the wire line, and hold these three. *)
Theorem line_tax_rate_options_all_or_nothing (P : Pydantic) (data : pyval) (i : Z)
    (line : SupplierInvoiceLine) (t : TaxRateOptionsData) :
  _workday_invoice_line_to_pydantic P data i = Ok line ->
  tax_rate_options_data line = Some t
  <-> reference_of TaxOption data "Tax_Option_1_Reference" = Ok (Some (tax_option t))
      /\ reference_of TaxRate data "Tax_Rate_1_Reference" = Ok (Some (tax_rate t))
      /\ reference_of TaxRecoverability data "Tax_Recoverability_1_Reference"
         = Ok (Some (tax_recoverability t)).
Proof.
  intros H. rewrite <- tax_rate_options_of_Ok.
  destruct (invoice_line_Ok P data i line H) as [worktags [tags [_ [_ [_ [Htro _]]]]]].
  destruct (tax_rate_options_of data) as [t' | e].
  - rewrite Htro. split; congruence.
  - split; [| discriminate]. intros Hsome. destruct e; try contradiction; congruence.
Qed.

Lemma line_tax_rate_options_all_or_nothing_witness :
  tax_rate_options_data line_tagged = Some tax_options_sample
  <-> reference_of TaxOption wire_line_tagged "Tax_Option_1_Reference"
      = Ok (Some (tax_option tax_options_sample))
      /\ reference_of TaxRate wire_line_tagged "Tax_Rate_1_Reference"
         = Ok (Some (tax_rate tax_options_sample))
      /\ reference_of TaxRecoverability wire_line_tagged "Tax_Recoverability_1_Reference"
         = Ok (Some (tax_recoverability tax_options_sample)).
Proof.
  apply (line_tax_rate_options_all_or_nothing sample_validators wire_line_tagged 0).
  reflexivity.
Defined.

(** The sample line has its tax rate options, the plain one has none. *)
Example line_tax_rate_options_sample :
  tax_rate_options_data line_tagged = Some tax_options_sample
  /\ tax_rate_options_data line_plain = None.
Proof. split; reflexivity. Qed.

Lemma ordinary_not_assertion : ordinary not_assertion.
Proof. constructor; unfold not_assertion; cbn [is_assertion]; intros; tauto. Qed.

Lemma cost_center_of_raises (Q : PyError -> Prop) (tags : list pyval)
    (cc : option Reference) :
  ordinary Q -> raises_only Q (cost_center_of tags cc).
Proof.
  intros HQ. revert cc. induction tags as [| tag rest IH]; intros cc;
    cbn [cost_center_of]; [exact I |].
  raises_chain.
Qed.

Lemma validate_with_raises (Q : PyError -> Prop) (ok : pyval -> bool) (field : string)
    (v : pyval) :
  ordinary Q -> raises_only Q (validate_with ok field v).
Proof. intros HQ. unfold validate_with. destruct (ok v); eauto with raises. Qed.

#[local] Hint Resolve cost_center_of_raises validate_with_raises : raises.

(** X13. Mapping an invoice line never raises an AssertionError: the
    assertions of the tax block are caught with its KeyErrors, and nothing
    else in the mapper asserts. *)
Theorem invoice_line_never_asserts (P : Pydantic) (data : pyval) (i : Z) :
  raises_only not_assertion (_workday_invoice_line_to_pydantic P data i).
Proof.
  pose proof ordinary_not_assertion as HQ.
  unfold _workday_invoice_line_to_pydantic.
  do 3 (apply raises_only_bind; [solve [eauto with raises] | intros]).
  apply raises_only_bind.
  { destruct (tax_rate_options_of data) as [t | e]; [exact I |].
    destruct e; try exact I; unfold not_assertion; cbn [raises_only is_assertion]; tauto. }
  intros. unfold SupplierInvoiceLine_init. raises_chain.
Qed.

Lemma invoice_line_typed (P : Pydantic) (data : pyval) (i : Z) (line : SupplierInvoiceLine) :
  _workday_invoice_line_to_pydantic P data i = Ok line -> line_typed line.
Proof.
  intros H.
  destruct (invoice_line_Ok P data i line H)
    as [worktags [tags [_ [_ [Hcc [Htro [Hta [Htc Hsc]]]]]]]].
  unfold line_typed. repeat split.
  - exact (reference_of_instance _ _ _ _ Hsc).
  - exact (reference_of_instance _ _ _ _ Hta).
  - exact (reference_of_instance _ _ _ _ Htc).
  - exact (cost_center_of_instance tags None _ I Hcc).
  - destruct (tax_rate_options_data line) as [t |]; [| exact I].
    destruct (tax_rate_options_of data) as [t' | e] eqn:Ht.
    + injection Htro as <-. apply tax_rate_options_of_Ok in Ht.
      destruct Ht as [Ho [Hr Hc]].
      repeat split.
      * exact (reference_of_instance _ _ _ _ Hr).
      * exact (reference_of_instance _ _ _ _ Hc).
      * exact (reference_of_instance _ _ _ _ Ho).
    + destruct e; try contradiction; discriminate Htro.
Qed.

Lemma map_lines_typed (P : Pydantic) (sorted_lines : list pyval) (start : Z)
    (ls : list SupplierInvoiceLine) :
  map_lines P sorted_lines start = Ok ls -> Forall line_typed ls.
Proof.
  revert start ls. induction sorted_lines as [| x rest IH]; intros start ls H;
    cbn [map_lines] in H.
  - injection H as <-. constructor.
  - bind_inv H as l Hl. bind_inv H as ls' Hls. injection H as <-.
    constructor; [exact (invoice_line_typed _ _ _ _ Hl) | exact (IH _ _ Hls)].
Qed.

(** An instance of a class of the repository that names its Workday class
    is written to the wire. *)
Lemma wd_object_opt_instance (cls : RefClass) (o : option Reference) :
  truthy_str (_class_name cls) = true ->
  instance_of cls o ->
  exists w, wd_object_opt o = Ok w
            /\ map object_ids (opt_list w) = map (fun r => [reference_id_of r]) (opt_list o).
Proof.
  intros Hcls Ho. destruct o as [r |]; cbn [wd_object_opt opt_list map].
  - cbn [instance_of] in Ho.
    assert (Hnamed : named r) by (unfold named; now rewrite Ho).
    destruct (wd_object_named r Hnamed) as [obj [-> Hids]]. cbn [bind].
    exists (Some obj). cbn [opt_list map]. now rewrite Hids.
  - now exists None.
Qed.

Lemma wd_object_instance (cls : RefClass) (r : Reference) :
  truthy_str (_class_name cls) = true ->
  ref_class r = cls ->
  exists obj, wd_object r None = Ok obj /\ object_ids obj = [reference_id_of r].
Proof.
  intros Hcls Hr. apply wd_object_named. unfold named. now rewrite Hr.
Qed.

Lemma invoice_lines_written (ls : list SupplierInvoiceLine) :
  Forall line_typed ls ->
  exists wls, _get_wd_invoice_lines_from_invoice ls = Ok wls
              /\ Forall2 line_written ls wls.
Proof.
  induction 1 as [| l ls [Hsc [Hta [Htc [Hcc Htro]]]] _ [wls [IHl IHr]]].
  - exists []. split; [reflexivity | constructor].
  - cbn [_get_wd_invoice_lines_from_invoice].
    destruct (wd_object_opt_instance SpendCategory _ eq_refl Hsc) as [spend [-> Hspend]].
    cbn [bind].
    assert (Htax : exists wt,
      match tax_rate_options_data l with
      | Some tax_opts =>
          r <- wd_object (tax_rate tax_opts) None ;;
          c <- wd_object (tax_recoverability tax_opts) None ;;
          o <- wd_object (tax_option tax_opts) None ;;
          Ok (Some (mkWireTaxRateOptions r c o))
      | None => Ok None
      end = Ok wt
      /\ map (fun t => (object_ids (Tax_Rate_1_Reference t),
                        object_ids (Tax_Recoverability_1_Reference t),
                        object_ids (Tax_Option_1_Reference t)))
           (opt_list wt)
         = map (fun t => ([reference_id_of (tax_rate t)],
                          [reference_id_of (tax_recoverability t)],
                          [reference_id_of (tax_option t)]))
             (opt_list (tax_rate_options_data l))).
    { destruct (tax_rate_options_data l) as [t |]; [| now exists None].
      destruct Htro as [Hr [Hc Ho]].
      destruct (wd_object_instance TaxRate _ eq_refl Hr) as [r [-> Hrid]].
      destruct (wd_object_instance TaxRecoverability _ eq_refl Hc) as [c [-> Hcid]].
      destruct (wd_object_instance TaxOption _ eq_refl Ho) as [o [-> Hoid]].
      cbn [bind]. eexists. split; [reflexivity |].
      cbn [opt_list map Tax_Rate_1_Reference Tax_Recoverability_1_Reference
           Tax_Option_1_Reference].
      now rewrite Hrid, Hcid, Hoid. }
    destruct Htax as [wt [-> Hwt]]. cbn [bind].
    destruct (wd_object_opt_instance TaxApplicability _ eq_refl Hta) as [app [-> Happ]].
    cbn [bind].
    destruct (wd_object_opt_instance TaxCode _ eq_refl Htc) as [code [-> Hcode]].
    cbn [bind].
    destruct (wd_object_opt_instance CostCenterWorktag _ eq_refl Hcc) as [tag [-> Htag]].
    cbn [bind]. rewrite IHl. cbn [bind].
    eexists. split; [reflexivity |]. constructor; [| exact IHr].
    unfold line_written.
    cbn [Line_Order Item_Description Extended_Amount Spend_Category_Reference
         Tax_Applicability_Reference Tax_Code_Reference Worktags_Reference
         Tax_Rate_Options_Data].
    repeat split; assumption.
Qed.

(** C4. Wire to domain: the lines of the invoice are the wire lines sorted
    ascending by [Line_Order], mapped one by one, and line [n] of the result
    has order [n].  Domain to wire: lines whose references are instances of
    the classes the model declares for them are always written, one wire
    line per line, and the [Line_Order] of every wire line is the [order]
    its domain line holds; so are the lines of the invoice just read. *)
Theorem invoice_lines_sorted_and_reindexed (P : Pydantic) (data inv wire_lines : pyval)
    (invoice : SupplierInvoiceModel) :
  getitem data "Supplier_Invoice_Data" = Ok (VList [inv]) ->
  getitem inv "Invoice_Line_Replacement_Data" = Ok wire_lines ->
  workday_supplier_invoice_to_pydantic P data = Ok invoice ->
  (exists (items : list pyval) (sorted_lines : list (pyval * pyval)),
      py_iter wire_lines = Ok items
      /\ Permutation items (map snd sorted_lines)
      /\ Forall (keyed_by (fun _line => getitem _line "Line_Order")) sorted_lines
      /\ StronglySorted (in_key_order false) sorted_lines
      /\ (forall zs, map fst sorted_lines = map VInt zs -> StronglySorted Z.le zs)
      /\ map order (lines invoice)
         = map (fun n => Some (Z.of_nat n)) (seq 0 (List.length sorted_lines))
      /\ forall n kl, nth_error sorted_lines n = Some kl ->
           exists line,
             nth_error (lines invoice) n = Some line
             /\ _workday_invoice_line_to_pydantic P (snd kl) (Z.of_nat n) = Ok line)
  /\ (forall domain_lines wire,
        _get_wd_invoice_lines_from_invoice domain_lines = Ok wire ->
        map Line_Order wire = map order domain_lines)
  /\ (forall domain_lines,
        Forall line_typed domain_lines ->
        exists wire,
          _get_wd_invoice_lines_from_invoice domain_lines = Ok wire
          /\ List.length wire = List.length domain_lines
          /\ map Line_Order wire = map order domain_lines)
  /\ (exists wire,
        _get_wd_invoice_lines_from_invoice (lines invoice) = Ok wire
        /\ map Line_Order wire
           = map (fun n => Some (Z.of_nat n)) (seq 0 (List.length (lines invoice)))).
Proof.
  intros Hdata Hlines H.
  assert (Hwritten : forall domain_lines,
            Forall line_typed domain_lines ->
            exists wire,
              _get_wd_invoice_lines_from_invoice domain_lines = Ok wire
              /\ List.length wire = List.length domain_lines
              /\ map Line_Order wire = map order domain_lines).
  { intros domain_lines Htyped.
    destruct (invoice_lines_written domain_lines Htyped) as [wire [Hwire Hrel]].
    exists wire. split; [exact Hwire |].
    split; [symmetry; exact (Forall2_length Hrel) | exact (wire_line_orders _ _ Hwire)]. }
  unfold workday_supplier_invoice_to_pydantic in H.
  rewrite Hdata in H. cbn [bind py_len List.length Nat.eqb py_assert first] in H.
  rewrite Hlines in H. cbn [bind] in H.
  bind_inv H as sorted Hsorted. bind_inv H as ls Hls.
  assert (Hinv : lines invoice = ls).
  { bind_inv H as ids1 H1. bind_inv H as company_ref Hc.
    bind_inv H as ids2 H2. bind_inv H as currency_ref Hcur.
    bind_inv H as ids3 H3. bind_inv H as supplier_ref Hsup.
    bind_inv H as u1 Hu1. bind_inv H as u2 Hu2. bind_inv H as u3 Hu3.
    bind_inv H as ids4 H4. bind_inv H as wid Hwid. bind_inv H as number Hnum.
    bind_inv H as company Hcompany. bind_inv H as currency Hcurrency.
    bind_inv H as supplier Hsupplier.
    bind_inv H as idate Hidate. bind_inv H as ddate Hddate.
    bind_inv H as total Htotal. bind_inv H as tax Htax.
    unfold SupplierInvoice_init in H.
    bind_inv H as ref Href. bind_inv H as n Hn. bind_inv H as d1 Hd1.
    bind_inv H as d2 Hd2. bind_inv H as t1 Ht1. bind_inv H as t2 Ht2.
    now injection H as <-. }
  clear H. rewrite Hinv.
  destruct (py_sorted_Ok _ _ _ _ Hsorted)
    as [items [keyed [Hitems [Hout [Hperm [Hkeys Hord]]]]]].
  destruct (map_lines_Ok P sorted 0 ls Hls) as [Horders Hnth].
  assert (Hlen : List.length ls = List.length keyed).
  { apply (f_equal (@List.length _)) in Horders.
    rewrite !length_map, length_seq in Horders. now rewrite Horders, Hout, length_map. }
  split; [| split; [exact wire_line_orders | split; [exact Hwritten |]]].
  - exists items, keyed.
    split; [exact Hitems |]. split; [now rewrite <- Hout |].
    split; [exact Hkeys |]. split; [exact Hord |].
    split; [intros zs; now apply int_keys_sorted |].
    split.
    + rewrite Horders, Hout, length_map. reflexivity.
    + intros n kl Hkl. apply (Hnth n (snd kl)).
      rewrite Hout, nth_error_map, Hkl. reflexivity.
  - destruct (Hwritten ls (map_lines_typed P sorted 0 ls Hls)) as [wire [Hwire [_ Hwo]]].
    exists wire. split; [exact Hwire |].
    rewrite Hwo, Horders, Hlen, Hout, length_map. reflexivity.
Qed.

Lemma invoice_lines_sorted_and_reindexed_witness :
  exists invoice,
    workday_supplier_invoice_to_pydantic sample_validators invoice_payload = Ok invoice
    /\ ((exists (items : list pyval) (sorted_lines : list (pyval * pyval)),
           py_iter invoice_wire_lines = Ok items
           /\ Permutation items (map snd sorted_lines)
           /\ Forall (keyed_by (fun _line => getitem _line "Line_Order")) sorted_lines
           /\ StronglySorted (in_key_order false) sorted_lines
           /\ (forall zs, map fst sorted_lines = map VInt zs -> StronglySorted Z.le zs)
           /\ map order (lines invoice)
              = map (fun n => Some (Z.of_nat n)) (seq 0 (List.length sorted_lines))
           /\ forall n kl, nth_error sorted_lines n = Some kl ->
                exists line,
                  nth_error (lines invoice) n = Some line
                  /\ _workday_invoice_line_to_pydantic sample_validators (snd kl)
                       (Z.of_nat n) = Ok line)
        /\ (forall domain_lines wire,
              _get_wd_invoice_lines_from_invoice domain_lines = Ok wire ->
              map Line_Order wire = map order domain_lines)
        /\ (forall domain_lines,
              Forall line_typed domain_lines ->
              exists wire,
                _get_wd_invoice_lines_from_invoice domain_lines = Ok wire
                /\ List.length wire = List.length domain_lines
                /\ map Line_Order wire = map order domain_lines)
        /\ (exists wire,
              _get_wd_invoice_lines_from_invoice (lines invoice) = Ok wire
              /\ map Line_Order wire
                 = map (fun n => Some (Z.of_nat n))
                     (seq 0 (List.length (lines invoice)))))
    /\ map order (lines invoice) = [Some 0%Z; Some 1%Z; Some 2%Z]
    /\ (exists wire,
          _get_wd_invoice_lines_from_invoice (lines invoice) = Ok wire
          /\ map Line_Order wire = [Some 0%Z; Some 1%Z; Some 2%Z])
    /\ (exists wire,
          _get_wd_invoice_lines_from_invoice domain_lines_201 = Ok wire
          /\ map Line_Order wire = [Some 2%Z; Some 0%Z; Some 1%Z]
          /\ map Item_Description wire = ["third"; "first"; "second"]).
Proof.
  exists invoice_sample.
  assert (Hmapped : workday_supplier_invoice_to_pydantic sample_validators invoice_payload
                    = Ok invoice_sample) by reflexivity.
  pose proof (invoice_lines_sorted_and_reindexed sample_validators invoice_payload
                invoice_inv invoice_wire_lines invoice_sample eq_refl eq_refl Hmapped)
    as Hclaim.
  split; [exact Hmapped |]. split; [exact Hclaim |].
  destruct Hclaim as [_ [_ [Hwritten [wire [Hwire Horders]]]]].
  split; [reflexivity |]. split.
  - exists wire. split; [exact Hwire | exact Horders].
  - assert (Htyped : Forall line_typed domain_lines_201).
    { repeat constructor. }
    destruct (Hwritten domain_lines_201 Htyped) as [wire' [Hwire' [_ Horders']]].
    exists wire'. split; [exact Hwire' |]. split; [exact Horders' |].
    vm_compute in Hwire'. injection Hwire' as <-. reflexivity.
Defined.

Lemma Company_init_class (wid nm cc : pyval) (cur : option Reference) (c : CompanyModel) :
  Company_init wid nm cc cur = Ok c -> ref_class (company_ref c) = Company.
Proof.
  unfold Company_init. intros H.
  bind_inv H as ref Href. bind_inv H as n Hn. bind_inv H as code Hcode.
  bind_inv H as u Hmax. injection H as <-. exact (init_ref_class _ _ _ Href).
Qed.

(** X14. Every invoice read from the wire can be written back: the
    outbound mapper returns, whatever the attachments, and the wire invoice
    has the invoice number, no default tax option, and one wire line per
    line, in order, numbered from 0, with the description, the amount and
    the references of its line. *)
Theorem invoice_read_then_written (P : Pydantic)
    (mime_from_buffer : list Byte.byte -> string) (date_str : pyval -> string)
    (data : pyval) (invoice : SupplierInvoiceModel) (attachments : option (list File)) :
  workday_supplier_invoice_to_pydantic P data = Ok invoice ->
  exists w,
    pydantic_supplier_invoice_to_workday mime_from_buffer date_str invoice attachments = Ok w
    /\ WireInvoice.Invoice_Number w = invoice_number invoice
    /\ WireInvoice.Default_Tax_Option_Reference w = None
    /\ map Line_Order (WireInvoice.Invoice_Line_Replacement_Data w)
       = map (fun n => Some (Z.of_nat n)) (seq 0 (List.length (lines invoice)))
    /\ Forall2 line_written (lines invoice) (WireInvoice.Invoice_Line_Replacement_Data w).
Proof.
  intros H. unfold workday_supplier_invoice_to_pydantic in H.
  bind_inv H as data_list Hdl. bind_inv H as n Hn. bind_inv H as u Hu.
  bind_inv H as inv Hinv. bind_inv H as wire_lines Hwl.
  bind_inv H as sorted_lines Hsorted. bind_inv H as ls Hls.
  bind_inv H as ids1 H1. bind_inv H as company_id Hcid.
  bind_inv H as ids2 H2. bind_inv H as currency_id Hcur.
  bind_inv H as ids3 H3. bind_inv H as supplier_id Hsup.
  bind_inv H as u1 Hu1. bind_inv H as u2 Hu2. bind_inv H as u3 Hu3.
  bind_inv H as ids4 H4. bind_inv H as workday_id Hwid.
  bind_inv H as number Hnumber.
  bind_inv H as company Hcompany. bind_inv H as currency Hcurrency.
  bind_inv H as supplier Hsupplier.
  bind_inv H as idate Hidate. bind_inv H as ddate Hddate.
  bind_inv H as total Htotal. bind_inv H as tax Htax.
  unfold SupplierInvoice_init in H.
  bind_inv H as ref Href. bind_inv H as num Hnum. bind_inv H as d1 Hd1.
  bind_inv H as d2 Hd2. bind_inv H as tot Htot. bind_inv H as tx Htx.
  injection H as <-.
  unfold pydantic_supplier_invoice_to_workday.
  cbn [inv_company inv_currency inv_supplier inv_tax_option lines invoice_number
       invoice_date due_date inv_total_amount].
  destruct (wd_object_instance Company _ eq_refl (Company_init_class _ _ _ _ _ Hcompany))
    as [co [-> _]]. cbn [bind].
  destruct (wd_object_instance Currency _ eq_refl (init_ref_class _ _ _ Hcurrency))
    as [cu [-> _]]. cbn [bind].
  destruct (wd_object_instance Supplier _ eq_refl (init_ref_class _ _ _ Hsupplier))
    as [su [-> _]]. cbn [bind wd_object_opt].
  destruct (invoice_lines_written ls (map_lines_typed _ _ _ _ Hls)) as [wls [Hwls Hrel]].
  rewrite Hwls. cbn [bind]. eexists. split; [reflexivity |].
  cbn [WireInvoice.Invoice_Number WireInvoice.Default_Tax_Option_Reference
       WireInvoice.Invoice_Line_Replacement_Data].
  repeat split; [| exact Hrel].
  rewrite (wire_line_orders _ _ Hwls).
  destruct (map_lines_Ok _ _ _ _ Hls) as [Hord _]. rewrite Hord.
  assert (Hlen : List.length ls = List.length sorted_lines).
  { apply (f_equal (@List.length _)) in Hord. now rewrite !length_map, length_seq in Hord. }
  rewrite Hlen. apply map_ext. intros k. reflexivity.
Qed.

Lemma invoice_read_then_written_witness :
  exists w,
    pydantic_supplier_invoice_to_workday (fun _ => "application/pdf") (fun _ => "2023-03-07")
      invoice_sample None = Ok w
    /\ WireInvoice.Invoice_Number w = invoice_number invoice_sample
    /\ WireInvoice.Default_Tax_Option_Reference w = None
    /\ map Line_Order (WireInvoice.Invoice_Line_Replacement_Data w)
       = map (fun n => Some (Z.of_nat n)) (seq 0 (List.length (lines invoice_sample)))
    /\ Forall2 line_written (lines invoice_sample)
         (WireInvoice.Invoice_Line_Replacement_Data w).
Proof.
  apply (invoice_read_then_written sample_validators _ _ invoice_payload).
  reflexivity.
Defined.

(** ** Worker lookup, the answered request *)

Section WorkerAnswered.
Variable Worker : Type.
Variable _request : string -> WorkerRequestReferences -> result pyval.
Variable suds_to_dict : pyval -> result pyval.
Variable workday_worker_to_pydantic : pyval -> result Worker.

(** X15. When the request is answered, the lookup uses the first worker
    of the response and no other: it is returned as it is when the object
    is asked for and mapped otherwise, and an exception of the mapping,
    a WebFault included, is raised unchanged.  A response without workers
    raises IndexError. *)
Theorem worker_lookup_first_worker (id_ id_type : string)
    (response response_data : pyval) (workers : list pyval) :
  _request "Get_Workers" (worker_lookup_references id_ id_type) = Ok response ->
  getattr response "Response_Data" = Ok response_data ->
  getattr response_data "Worker" = Ok (VList workers) ->
  match workers with
  | [] =>
      forall return_object,
        _get_worker_by_id _request suds_to_dict workday_worker_to_pydantic
          id_ id_type return_object = Raise IndexError
  | worker :: _ =>
      _get_worker_by_id _request suds_to_dict workday_worker_to_pydantic
        id_ id_type true = Ok (inr worker)
      /\ _get_worker_by_id _request suds_to_dict workday_worker_to_pydantic
           id_ id_type false
         = match suds_to_dict worker with
           | Ok d => match workday_worker_to_pydantic d with
                     | Ok w => Ok (inl w)
                     | Raise e => Raise e
                     end
           | Raise e => Raise e
           end
  end.
Proof.
  intros Hresponse Hdata Hworkers. unfold _get_worker_by_id.
  change (mkWorkerRequestReferences _) with (worker_lookup_references id_ id_type).
  rewrite Hresponse. cbn [bind]. rewrite Hdata. cbn [bind]. rewrite Hworkers. cbn [bind].
  destruct workers as [| worker others]; cbn [first bind].
  - intros return_object. reflexivity.
  - split; [reflexivity |].
    destruct (suds_to_dict worker) as [d | e]; [| reflexivity]. cbn [bind].
    destruct (workday_worker_to_pydantic d); reflexivity.
Qed.
End WorkerAnswered.

Lemma worker_lookup_first_worker_witness :
  _get_worker_by_id (transport_returning [VStr "worker A"; VStr "worker B"])
    (fun v => Ok v)
    (fun _ => @Raise unit (WebFault "SOAP-ENV:Client.validationError" "bad"))
    "12345" "Employee_ID" true
  = Ok (inr (VStr "worker A"))
  /\ _get_worker_by_id (transport_returning [VStr "worker A"; VStr "worker B"])
       (fun v => Ok v)
       (fun _ => @Raise unit (WebFault "SOAP-ENV:Client.validationError" "bad"))
       "12345" "Employee_ID" false
     = Raise (WebFault "SOAP-ENV:Client.validationError" "bad").
Proof.
  exact (worker_lookup_first_worker unit
           (transport_returning [VStr "worker A"; VStr "worker B"])
           (fun v => Ok v)
           (fun _ => Raise (WebFault "SOAP-ENV:Client.validationError" "bad"))
           "12345" "Employee_ID"
           (VDict [("Response_Data",
                    VDict [("Worker", VList [VStr "worker A"; VStr "worker B"])])])
           (VDict [("Worker", VList [VStr "worker A"; VStr "worker B"])])
           [VStr "worker A"; VStr "worker B"] eq_refl eq_refl eq_refl).
Defined.

(** ** Conversion rates, domain to wire *)

(** X16. [pydantic_conversion_rate_to_workday] writes each currency code
    under Currency_ID and the rate type under Currency_Rate_Type_ID, as the
    one id of its reference; the value written for the rate type is one
    that [RateTypeID] takes back to the rate type of the rate, so the
    inbound mapper accepts it; the Workday id of the rate is written
    nowhere. *)
Theorem conversion_rate_references_written (rate_ : ConversionRate) :
  let w := pydantic_conversion_rate_to_workday rate_ in
  object_ids (WireRate.From_Currency_Reference w)
  = [("Currency_ID", Some (from_currency_iso rate_))]
  /\ object_ids (WireRate.Target_Currency_Reference w)
     = [("Currency_ID", Some (to_currency_iso rate_))]
  /\ (exists v,
        object_ids (WireRate.Currency_Rate_Type_Reference w)
        = [("Currency_Rate_Type_ID", Some v)]
        /\ RateTypeID_of (VStr v) = Ok (rate_type_id rate_))
  /\ WireRate.Currency_Rate w = rate rate_
  /\ WireRate.Effective_Timestamp w = effective_timestamp rate_
  /\ WireRate.Calculate_Inverse_Rate w = true.
Proof.
  cbv zeta. unfold pydantic_conversion_rate_to_workday, object_ids.
  cbn [WireRate.From_Currency_Reference WireRate.Target_Currency_Reference
       WireRate.Currency_Rate_Type_Reference WireRate.Currency_Rate
       WireRate.Effective_Timestamp WireRate.Calculate_Inverse_Rate ID app map
       _type value].
  repeat apply conj; try reflexivity.
  exists (RateTypeID_value (rate_type_id rate_)). split; [reflexivity |].
  destruct (rate_type_id rate_); reflexivity.
Qed.

(** ** The smaller inbound mappers *)

(** A value of length one whose first item can be subscripted by a key is
    a list of one item. *)
Lemma singleton_of_len (v sub w : pyval) (n : nat) (k : string) :
  py_len v = Ok n -> (n =? 1)%nat = true -> first v = Ok sub -> getitem sub k = Ok w ->
  v = VList [sub].
Proof.
  intros Hlen Hn Hfirst Hget. apply Nat.eqb_eq in Hn. subst n.
  destruct v as [| b | z | s | d | d | l | d]; try discriminate Hlen.
  - destruct s as [| c s]; [discriminate Hfirst |].
    cbn [first] in Hfirst. injection Hfirst as <-. discriminate Hget.
  - destruct l as [| x [| y l]]; try discriminate Hlen.
    cbn [first] in Hfirst. now injection Hfirst as <-.
  - discriminate Hfirst.
Qed.

(** X17. A conversion rate type is returned only for data with a Workday
    id and exactly one entry of rate-type data, a list of one; its fields
    are the validated id, text id, description and default flag of that
    entry. *)
Theorem rate_type_returned (data : pyval) (t : ConversionRateType) :
  workday_conversion_rate_type_to_pydantic data = Ok t ->
  exists workday_id sub_data text description is_default_,
    lookup_reference data "Currency_Rate_Type_Reference" "WID" = Ok workday_id
    /\ truthy workday_id = true
    /\ getitem data "Currency_Rate_Type_Data" = Ok (VList [sub_data])
    /\ getitem sub_data "Currency_Rate_Type_ID" = Ok text
    /\ getitem sub_data "Currency_Rate_Type_Description" = Ok description
    /\ getitem sub_data "Currency_Rate_Type_Default" = Ok is_default_
    /\ validate_str "workday_id" workday_id = Ok (crt_workday_id t)
    /\ validate_opt_str "text_id" text = Ok (text_id t)
    /\ validate_str "description" description = Ok (crt_description t)
    /\ validate_bool "is_default" is_default_ = Ok (is_default t).
Proof.
  unfold workday_conversion_rate_type_to_pydantic, lookup_reference. intros H.
  bind_inv H as ids Hids. bind_inv H as workday_id Hwid. bind_inv H as u Hu.
  bind_inv H as type_data Htd. bind_inv H as n Hn. bind_inv H as u' Hcard.
  bind_inv H as sub_data Hsub. bind_inv H as text Htext.
  bind_inv H as description Hdescr. bind_inv H as dflt Hdflt.
  unfold ConversionRateType_init in H.
  bind_inv H as wid Hvwid. bind_inv H as tid Hvtid. bind_inv H as descr Hvdescr.
  bind_inv H as flag Hvflag. injection H as <-.
  exists workday_id, sub_data, text, description, dflt.
  rewrite Hids. cbn [bind crt_workday_id text_id crt_description is_default].
  assert (Htruthy : truthy workday_id = true).
  { destruct (truthy workday_id); [reflexivity | discriminate Hu]. }
  assert (Hone : (n =? 1)%nat = true).
  { destruct (n =? 1)%nat; [reflexivity | discriminate Hcard]. }
  rewrite (singleton_of_len type_data sub_data text n _ Hn Hone Hsub Htext) in Htd.
  repeat split; assumption.
Qed.

Lemma rate_type_returned_witness :
  exists workday_id sub_data text description is_default_,
    lookup_reference rate_type_payload "Currency_Rate_Type_Reference" "WID" = Ok workday_id
    /\ truthy workday_id = true
    /\ getitem rate_type_payload "Currency_Rate_Type_Data" = Ok (VList [sub_data])
    /\ getitem sub_data "Currency_Rate_Type_ID" = Ok text
    /\ getitem sub_data "Currency_Rate_Type_Description" = Ok description
    /\ getitem sub_data "Currency_Rate_Type_Default" = Ok is_default_
    /\ validate_str "workday_id" workday_id = Ok (crt_workday_id rate_type_sample)
    /\ validate_opt_str "text_id" text = Ok (text_id rate_type_sample)
    /\ validate_str "description" description = Ok (crt_description rate_type_sample)
    /\ validate_bool "is_default" is_default_ = Ok (is_default rate_type_sample).
Proof.
  apply (rate_type_returned rate_type_payload rate_type_sample). reflexivity.
Defined.

(** X18. Without a Workday id in the reference, the rate-type mapper
    raises its first AssertionError whatever the rest of the data holds,
    the rate-type data need not even be there. *)
Theorem rate_type_without_workday_id (data workday_id : pyval) :
  lookup_reference data "Currency_Rate_Type_Reference" "WID" = Ok workday_id ->
  truthy workday_id = false ->
  workday_conversion_rate_type_to_pydantic data
  = Raise (AssertionError "All currency conversion rate types need a Workday ID").
Proof.
  intros Hwid Hfalse. unfold workday_conversion_rate_type_to_pydantic.
  use_lookup Hwid. now rewrite Hfalse.
Qed.

Lemma rate_type_without_workday_id_witness :
  workday_conversion_rate_type_to_pydantic
    (VDict [("Currency_Rate_Type_Reference",
             wire_reference [wire_id "Currency_Rate_Type_ID" "Current"])])
  = Raise (AssertionError "All currency conversion rate types need a Workday ID").
Proof.
  apply (rate_type_without_workday_id _ VNone); reflexivity.
Defined.

(** X19. A spend category is returned only when the Spend_Category_ID of
    the reference equals the Resource_Category_ID of the data; its Workday
    id is that id, of type Spend_Category_ID. *)
Theorem spend_category_ids_agree (data : pyval) (c : SpendCategoryModel) :
  workday_spend_category_to_pydantic data = Ok c ->
  exists cat_data ref_id resource_id s,
    getitem data "Resource_Category_Data" = Ok cat_data
    /\ lookup_reference data "Resource_Category_Reference" "Spend_Category_ID" = Ok ref_id
    /\ getitem cat_data "Resource_Category_ID" = Ok resource_id
    /\ py_eq ref_id resource_id = true
    /\ validate_str "workday_id" ref_id = Ok s
    /\ workday_id (spend_category_ref c) = Some s
    /\ workday_id_type (spend_category_ref c) = "Spend_Category_ID".
Proof.
  unfold workday_spend_category_to_pydantic, lookup_reference. intros H.
  bind_inv H as cat_data Hcat. bind_inv H as ids Hids. bind_inv H as ref_id Href.
  bind_inv H as resource_id Hres. bind_inv H as u Heq.
  bind_inv H as name Hname. bind_inv H as inactive_ Hinactive.
  bind_inv H as ref Hinit. bind_inv H as nm Hnm. bind_inv H as flag Hflag.
  injection H as <-. cbn [spend_category_ref].
  unfold init in Hinit. bind_inv Hinit as self Hbase. bind_inv Hinit as u1 Hu1.
  injection Hinit as <-. unfold init_base in Hbase.
  cbn [SpendCategory plain_ref id_alias id_required id_max_length id_type_default
       parent_id_required parent_type_default assoc String.eqb Ascii.eqb Bool.eqb
       check_max_length bind] in Hbase.
  bind_inv Hbase as wid Hwid. bind_inv Hwid as s Hs. injection Hwid as <-.
  injection Hbase as <-.
  exists cat_data, ref_id, resource_id, s. rewrite Hids. cbn [bind workday_id workday_id_type].
  repeat split; try assumption.
  destruct (py_eq ref_id resource_id); [reflexivity | discriminate Heq].
Qed.

Lemma spend_category_ids_agree_witness :
  exists cat_data ref_id resource_id s,
    getitem spend_category_payload "Resource_Category_Data" = Ok cat_data
    /\ lookup_reference spend_category_payload "Resource_Category_Reference"
         "Spend_Category_ID" = Ok ref_id
    /\ getitem cat_data "Resource_Category_ID" = Ok resource_id
    /\ py_eq ref_id resource_id = true
    /\ validate_str "workday_id" ref_id = Ok s
    /\ workday_id (spend_category_ref spend_category_sample) = Some s
    /\ workday_id_type (spend_category_ref spend_category_sample) = "Spend_Category_ID".
Proof.
  apply (spend_category_ids_agree spend_category_payload spend_category_sample).
  reflexivity.
Defined.

(** X20. When the two ids differ the spend-category mapper raises its
    AssertionError, before the name and the inactive flag are read. *)
Theorem spend_category_ids_differ (data cat_data ref_id resource_id : pyval) :
  getitem data "Resource_Category_Data" = Ok cat_data ->
  lookup_reference data "Resource_Category_Reference" "Spend_Category_ID" = Ok ref_id ->
  getitem cat_data "Resource_Category_ID" = Ok resource_id ->
  py_eq ref_id resource_id = false ->
  workday_spend_category_to_pydantic data
  = Raise (AssertionError
             "The Resource_Category_ID and Spend_Category_ID are expected to be equal").
Proof.
  intros Hcat Href Hres Hne. unfold workday_spend_category_to_pydantic.
  rewrite Hcat. cbn [bind]. use_lookup Href. rewrite Hres. cbn [bind]. now rewrite Hne.
Qed.

Lemma spend_category_ids_differ_witness :
  workday_spend_category_to_pydantic spend_category_mismatch
  = Raise (AssertionError
             "The Resource_Category_ID and Spend_Category_ID are expected to be equal").
Proof.
  apply (spend_category_ids_differ spend_category_mismatch
           (VDict [("Resource_Category_ID", VStr "SC-5")]) (VStr "SC-4") (VStr "SC-5"));
    reflexivity.
Defined.

(** X21. When neither id is there, None equals None: the assertion of the
    spend-category mapper passes, and it is pydantic that rejects the
    missing Workday id. *)
Theorem spend_category_without_ids (data cat_data name inactive_ : pyval) :
  getitem data "Resource_Category_Data" = Ok cat_data ->
  lookup_reference data "Resource_Category_Reference" "Spend_Category_ID" = Ok VNone ->
  getitem cat_data "Resource_Category_ID" = Ok VNone ->
  getitem cat_data "Resource_Category_Name" = Ok name ->
  getitem cat_data "Inactive" = Ok inactive_ ->
  workday_spend_category_to_pydantic data = Raise (ValidationError "workday_id").
Proof.
  intros Hcat Href Hres Hname Hinactive. unfold workday_spend_category_to_pydantic.
  rewrite Hcat. cbn [bind]. use_lookup Href. rewrite Hres.
  cbn [py_eq py_assert bind]. rewrite Hname. cbn [bind]. rewrite Hinactive. reflexivity.
Qed.

Lemma spend_category_without_ids_witness :
  workday_spend_category_to_pydantic spend_category_no_ids
  = Raise (ValidationError "workday_id").
Proof.
  apply (spend_category_without_ids spend_category_no_ids
           (VDict [("Resource_Category_ID", VNone);
                   ("Resource_Category_Name", VStr "Fruit");
                   ("Inactive", VBool false)])
           (VStr "Fruit") (VBool false)); reflexivity.
Defined.

(** X22. A cost centre is returned only for data whose reference holds a
    Cost_Center_Reference_ID; that id is its Workday id, and its name is
    the organization name of the data. *)
Theorem cost_center_returned (data : pyval) (c : CostCenterModel) :
  workday_cost_center_to_pydantic data = Ok c ->
  exists cost_center_id cc_data organization name s,
    lookup_reference data "Cost_Center_Reference" "Cost_Center_Reference_ID"
    = Ok cost_center_id
    /\ truthy cost_center_id = true
    /\ getitem data "Cost_Center_Data" = Ok cc_data
    /\ getitem cc_data "Organization_Data" = Ok organization
    /\ getitem organization "Organization_Name" = Ok name
    /\ validate_str "workday_id" cost_center_id = Ok s
    /\ workday_id (cost_center_ref c) = Some s
    /\ workday_id_type (cost_center_ref c) = "Cost_Center_Reference_ID"
    /\ validate_opt_str "name" name = Ok (cost_center_name c).
Proof.
  unfold workday_cost_center_to_pydantic, lookup_reference. intros H.
  bind_inv H as ids Hids. bind_inv H as cost_center_id Hid. bind_inv H as u Hu.
  bind_inv H as cc_data Hcc. bind_inv H as organization Horg. bind_inv H as name Hname.
  bind_inv H as ref Hinit. bind_inv H as nm Hnm. injection H as <-.
  cbn [cost_center_ref cost_center_name].
  unfold init in Hinit. bind_inv Hinit as self Hbase. bind_inv Hinit as u1 Hu1.
  injection Hinit as <-. unfold init_base in Hbase.
  cbn [CostCenterWorktag plain_ref id_alias id_required id_max_length id_type_default
       parent_id_required parent_type_default assoc String.eqb Ascii.eqb Bool.eqb
       check_max_length bind] in Hbase.
  bind_inv Hbase as wid Hwid. bind_inv Hwid as s Hs. injection Hwid as <-.
  injection Hbase as <-.
  exists cost_center_id, cc_data, organization, name, s.
  rewrite Hids. cbn [bind workday_id workday_id_type].
  repeat split; try assumption.
  destruct (truthy cost_center_id); [reflexivity | discriminate Hu].
Qed.

Lemma cost_center_returned_witness :
  exists cost_center_id cc_data organization name s,
    lookup_reference cost_center_payload "Cost_Center_Reference" "Cost_Center_Reference_ID"
    = Ok cost_center_id
    /\ truthy cost_center_id = true
    /\ getitem cost_center_payload "Cost_Center_Data" = Ok cc_data
    /\ getitem cc_data "Organization_Data" = Ok organization
    /\ getitem organization "Organization_Name" = Ok name
    /\ validate_str "workday_id" cost_center_id = Ok s
    /\ workday_id (cost_center_ref cost_center_sample) = Some s
    /\ workday_id_type (cost_center_ref cost_center_sample) = "Cost_Center_Reference_ID"
    /\ validate_opt_str "name" name = Ok (cost_center_name cost_center_sample).
Proof.
  apply (cost_center_returned cost_center_payload cost_center_sample). reflexivity.
Defined.

(** ** Companies: the currency *)

(** X23. A company has a currency exactly when the accounting data holds
    a Currency_ID that is true; the currency then is an instance of
    [Currency] with that code, of at most three characters, as its Workday
    id.  (The company is built through the alias [currency_code], which
    [from_id_list] does not use.) *)
Theorem company_currency_optional (data : pyval) (c : CompanyModel) :
  workday_company_to_pydantic data = Ok c ->
  exists cdata accounting currency_code,
    getitem data "Company_Data" = Ok (VList [cdata])
    /\ getitem cdata "Accounting_Data" = Ok accounting
    /\ lookup_reference accounting "Currency_Reference" "Currency_ID" = Ok currency_code
    /\ match currency c with
       | None => truthy currency_code = false
       | Some r =>
           truthy currency_code = true
           /\ ref_class r = Currency
           /\ workday_id_type r = "Currency_ID"
           /\ exists s, validate_str "currency_code" currency_code = Ok s
                        /\ workday_id r = Some s
                        /\ String.length s <= 3
       end.
Proof.
  unfold workday_company_to_pydantic, lookup_reference. intros H.
  bind_inv H as company_data Hcd. bind_inv H as n Hn. bind_inv H as u Hcard.
  bind_inv H as cdata Hfirst. bind_inv H as accounting Hacc.
  bind_inv H as ids Hids. bind_inv H as currency_code Hcode.
  bind_inv H as has_tax Hhas. bind_inv H as country Hcountry.
  bind_inv H as organization Horg. bind_inv H as wid Hwid. bind_inv H as name Hname.
  bind_inv H as cur Hcur.
  assert (Hone : (n =? 1)%nat = true).
  { destruct (n =? 1)%nat; [reflexivity | discriminate Hcard]. }
  rewrite (singleton_of_len company_data cdata accounting n _ Hn Hone Hfirst Hacc) in Hcd.
  exists cdata, accounting, currency_code. rewrite Hids. cbn [bind].
  repeat (split; [assumption |]).
  unfold Company_init in H. bind_inv H as ref Href. bind_inv H as nm Hnm.
  bind_inv H as cc Hcc. bind_inv H as u2 Hu2. injection H as <-. cbn [currency].
  destruct (truthy currency_code).
  - bind_inv Hcur as r Hr. injection Hcur as <-. split; [reflexivity |].
    split; [exact (init_ref_class _ _ _ Hr) |].
    unfold init in Hr. bind_inv Hr as self Hbase. bind_inv Hr as u3 Hu3.
    injection Hr as <-. unfold init_base in Hbase.
    cbn [Currency id_alias id_required id_max_length id_type_default
         parent_id_required parent_type_default assoc String.eqb Ascii.eqb Bool.eqb
         bind] in Hbase.
    bind_inv Hbase as w Hw. bind_inv Hw as s Hs. injection Hw as <-.
    bind_inv Hbase as u4 Hmax. injection Hbase as <-.
    cbn [workday_id workday_id_type]. split; [reflexivity |].
    exists s. repeat split; try assumption.
    cbn [check_max_length] in Hmax.
    destruct (Nat.leb_spec (String.length s) 3) as [Hle | Hgt];
      [exact Hle | discriminate Hmax].
  - now injection Hcur as <-.
Qed.

Lemma company_currency_optional_witness :
  exists cdata accounting currency_code,
    getitem company_no_tax_status "Company_Data" = Ok (VList [cdata])
    /\ getitem cdata "Accounting_Data" = Ok accounting
    /\ lookup_reference accounting "Currency_Reference" "Currency_ID" = Ok currency_code
    /\ match currency company_NO01_untaxed with
       | None => truthy currency_code = false
       | Some r =>
           truthy currency_code = true
           /\ ref_class r = Currency
           /\ workday_id_type r = "Currency_ID"
           /\ exists s, validate_str "currency_code" currency_code = Ok s
                        /\ workday_id r = Some s
                        /\ String.length s <= 3
       end.
Proof.
  apply (company_currency_optional company_no_tax_status company_NO01_untaxed).
  reflexivity.
Defined.

(** ** Files *)

Lemma list_ind3 {A} (P : list A -> Prop) :
  P [] -> (forall x, P [x]) -> (forall x y, P [x; y]) ->
  (forall x y z l, P l -> P (x :: y :: z :: l)) ->
  forall l, P l.
Proof.
  intros H0 H1 H2 H3 l.
  assert (Hall : forall n l', List.length l' <= n -> P l').
  { induction n as [| n IH]; intros l' Hlen.
    - destruct l'; [exact H0 | cbn [List.length] in Hlen; lia].
    - destruct l' as [| x [| y [| z l']]]; auto.
      apply H3, IH. cbn [List.length] in Hlen. lia. }
  exact (Hall (List.length l) l (le_n _)).
Qed.

Lemma b64_sextet_char (n : nat) : n < 64 -> b64_sextet (b64_char n) = Some n.
Proof.
  intros Hn. do 64 (destruct n as [| n]; [reflexivity |]). lia.
Qed.

Lemma b64_char_not_pad (n : nat) : n < 64 -> Ascii.eqb (b64_char n) b64_pad = false.
Proof.
  intros Hn. do 64 (destruct n as [| n]; [reflexivity |]). lia.
Qed.

Lemma byte_of_to_nat (x : Byte.byte) : byte_of (Byte.to_nat x) = Some x.
Proof. apply Byte.of_to_nat. Qed.

Lemma to_nat_bound (x : Byte.byte) : Byte.to_nat x < 256.
Proof. pose proof (Byte.to_nat_bounded x). lia. Qed.

(** The arithmetic of three bytes in four sextets. *)
Lemma sextets_first (a b : nat) :
  b < 256 -> a / 4 * 4 + (a mod 4 * 16 + b / 16) / 16 = a.
Proof.
  intros Hb. pose proof (Nat.div_mod_eq a 4).
  assert (b / 16 < 16) by (apply Nat.Div0.div_lt_upper_bound; lia).
  rewrite Nat.div_add_l by lia. rewrite (Nat.div_small (b / 16)) by lia. lia.
Qed.

Lemma sextets_second (a b c : nat) :
  b < 256 -> c < 256 ->
  (a mod 4 * 16 + b / 16) mod 16 * 16 + (b mod 16 * 4 + c / 64) / 4 = b.
Proof.
  intros Hb Hc. pose proof (Nat.div_mod_eq b 16).
  assert (b / 16 < 16) by (apply Nat.Div0.div_lt_upper_bound; lia).
  assert (c / 64 < 4) by (apply Nat.Div0.div_lt_upper_bound; lia).
  replace (a mod 4 * 16 + b / 16) with (b / 16 + a mod 4 * 16) by lia.
  rewrite Nat.Div0.mod_add, (Nat.mod_small (b / 16)) by lia.
  rewrite Nat.div_add_l by lia. rewrite (Nat.div_small (c / 64)) by lia. lia.
Qed.

Lemma sextets_third (b c : nat) :
  c < 256 -> (b mod 16 * 4 + c / 64) mod 4 * 64 + c mod 64 = c.
Proof.
  intros Hc. pose proof (Nat.div_mod_eq c 64).
  assert (c / 64 < 4) by (apply Nat.Div0.div_lt_upper_bound; lia).
  replace (b mod 16 * 4 + c / 64) with (c / 64 + b mod 16 * 4) by lia.
  rewrite Nat.Div0.mod_add, (Nat.mod_small (c / 64)) by lia. lia.
Qed.

Lemma sextet_bounds (a b c : nat) :
  a < 256 -> b < 256 -> c < 256 ->
  a / 4 < 64 /\ a mod 4 * 16 + b / 16 < 64 /\ b mod 16 * 4 + c / 64 < 64 /\ c mod 64 < 64.
Proof.
  intros Ha Hb Hc.
  assert (a / 4 < 64) by (apply Nat.Div0.div_lt_upper_bound; lia).
  assert (b / 16 < 16) by (apply Nat.Div0.div_lt_upper_bound; lia).
  assert (c / 64 < 4) by (apply Nat.Div0.div_lt_upper_bound; lia).
  pose proof (Nat.mod_upper_bound a 4). pose proof (Nat.mod_upper_bound b 16).
  pose proof (Nat.mod_upper_bound c 64). lia.
Qed.

Lemma b64decode_encode (content : list Byte.byte) :
  b64decode (b64encode content) = Some content.
Proof.
  induction content as [| x | x y | x y z rest IH] using list_ind3.
  - reflexivity.
  - pose proof (to_nat_bound x) as Hx.
    destruct (sextet_bounds (Byte.to_nat x) 0 0 Hx) as [H1 [H2 _]]; try lia.
    cbn [b64encode b64decode]. cbv zeta.
    rewrite Nat.add_0_r in H2.
    rewrite (b64_sextet_char _ H1), (b64_sextet_char _ H2).
    pose proof (sextets_first (Byte.to_nat x) 0) as Hfirst.
    rewrite Nat.add_0_r in Hfirst. rewrite Hfirst by lia.
    rewrite byte_of_to_nat. reflexivity.
  - pose proof (to_nat_bound x) as Hx. pose proof (to_nat_bound y) as Hy.
    destruct (sextet_bounds (Byte.to_nat x) (Byte.to_nat y) 0 Hx Hy) as [H1 [H2 [H3 _]]];
      try lia.
    cbn [b64encode b64decode]. cbv zeta.
    rewrite Nat.add_0_r in H3.
    rewrite (b64_sextet_char _ H1), (b64_sextet_char _ H2).
    rewrite (sextets_first _ _ Hy), byte_of_to_nat.
    rewrite (b64_char_not_pad _ H3), (b64_sextet_char _ H3).
    pose proof (sextets_second (Byte.to_nat x) (Byte.to_nat y) 0 Hy) as Hsecond.
    rewrite Nat.add_0_r in Hsecond. rewrite Hsecond by lia.
    rewrite byte_of_to_nat. reflexivity.
  - pose proof (to_nat_bound x) as Hx. pose proof (to_nat_bound y) as Hy.
    pose proof (to_nat_bound z) as Hz.
    destruct (sextet_bounds _ _ _ Hx Hy Hz) as [H1 [H2 [H3 H4]]].
    cbn [b64encode b64decode]. cbv zeta.
    rewrite (b64_sextet_char _ H1), (b64_sextet_char _ H2).
    rewrite (sextets_first _ _ Hy), byte_of_to_nat.
    rewrite (b64_char_not_pad _ H3), (b64_sextet_char _ H3).
    rewrite (sextets_second _ _ _ Hy Hz), byte_of_to_nat.
    rewrite (b64_char_not_pad _ H4), (b64_sextet_char _ H4), IH.
    rewrite (sextets_third _ _ Hz), byte_of_to_nat. reflexivity.
Qed.

Lemma b64encode_length (content : list Byte.byte) :
  String.length (b64encode content) = 4 * ((List.length content + 2) / 3).
Proof.
  induction content as [| x | x y | x y z rest IH] using list_ind3;
    try reflexivity.
  cbn [b64encode List.length]. cbv zeta. cbn [String.length]. rewrite IH.
  replace (S (S (S (List.length rest))) + 2) with (1 * 3 + (List.length rest + 2)) by lia.
  rewrite Nat.div_add_l by lia. lia.
Qed.

(** X24. The document [File.wd_object] builds carries the content in
    padded base64, four characters for every three bytes begun, from which
    the content is decoded back; the content type is the one given unless
    it is missing or empty, when the buffer is sniffed; a missing or empty
    comment is left out. *)
Theorem File_wd_object_content (mime_from_buffer : list Byte.byte -> string) (self : File) :
  let doc := File_wd_object mime_from_buffer self in
  b64decode (WireDocument.File_Content doc) = Some (file_content self)
  /\ String.length (WireDocument.File_Content doc)
     = 4 * ((List.length (file_content self) + 2) / 3)
  /\ WireDocument.wsdl_type doc = ("ns0:" ++ field_type self)%string
  /\ WireDocument._Content_Type doc
     = match content_type self with
       | Some t => if String.eqb t EmptyString
                   then mime_from_buffer (file_content self) else t
       | None => mime_from_buffer (file_content self)
       end
  /\ WireDocument.Comment doc
     = match comment self with
       | Some c => if String.eqb c EmptyString then None else Some c
       | None => None
       end.
Proof.
  cbv zeta. unfold File_wd_object.
  cbn [WireDocument.File_Content WireDocument.wsdl_type WireDocument._Content_Type
       WireDocument.Comment].
  split; [apply b64decode_encode |]. split; [apply b64encode_length |].
  split; [reflexivity |]. split.
  - destruct (content_type self) as [t |]; [| reflexivity].
    cbn [truthy_str]. now destruct (String.eqb t EmptyString).
  - destruct (comment self) as [c |]; [| reflexivity].
    cbn [truthy_str]. now destruct (String.eqb c EmptyString).
Qed.

(** ** Instances of the lemmas on listing, lookup and contact data *)

(** X25. [worker_lookup_other_error] at a transport that fails with an
    exception that is no WebFault: the lookup raises it unchanged. *)
Lemma worker_lookup_other_error_witness :
  _get_worker_by_id (fun _ _ => Raise (ValueError "connection reset"))
    (fun v => Ok v) (fun _ => Ok tt) "12345" "Employee_ID" false
  = Raise (ValueError "connection reset").
Proof.
  apply (worker_lookup_other_error unit (fun _ _ => Raise (ValueError "connection reset"))
           (fun v => Ok v) (fun _ => Ok tt) "12345" "Employee_ID" false
           (ValueError "connection reset")).
  - intros c s. discriminate.
  - reflexivity.
Defined.

(** X26. [get_workers_returns] on 2023-12-20: the listing is requested
    with a date of the calendar. *)
Lemma get_workers_returns_witness :
  exists d,
    valid_date d = true
    /\ get_workers (mkDate 2023 12 20) (Some (mkDate 2020 1 1))
       = Ok (mkPaginatedCall "Get_Workers" "Worker" [("As_Of_Effective_Date", VDate d)]).
Proof.
  apply (get_workers_returns (mkDate 2023 12 20) (mkDate 2020 1 1)).
  - reflexivity.
  - cbn [year]. lia.
Defined.

(** X27. [contact_address_returns] on the three sample addresses. *)
Lemma contact_address_returns_witness :
  exists a,
    _get_contact_data_from_dict (VDict [("Address_Data", VList contact_entries)])
    = Ok [("address", VStr (str_replace newline_escape newline a))].
Proof.
  apply (contact_address_returns (VDict [("Address_Data", VList contact_entries)])
           contact_entries).
  - reflexivity.
  - discriminate.
  - intros e [<- | [<- | [<- | []]]]; eexists; eexists; split; reflexivity.
  - reflexivity.
  - reflexivity.
  - reflexivity.
Defined.
